(** * Terminal session core of the personal web site

    A shallow embedding of the command interpreter of the [Terminal]
    component: the virtual file system, the path helpers, the permission
    check, the session cells held in React state and [processCommand],
    followed by the properties of the specification that concern them.

    React state is modelled as the component reads and writes it.  During one
    event the handlers read the cells of the render they were created in (the
    snapshot) and every [setX] call is queued; the queue, applied in order,
    gives the cells of the next render.  A handler is therefore a function of
    the snapshot that threads the pending cells. *)

From Stdlib Require Import String Ascii List Bool Arith ZArith Lia.
From Stdlib Require Import Sorted Permutation OrderedTypeEx.
Import ListNotations.
Set Warnings "-register-all".
Set Warnings "-notation-overridden".
Open Scope string_scope.

(** ** Strings and arrays of the host language

    Strings are byte strings holding the UTF-8 encoding of the source text.
    Every separator and prefix the program looks for is ASCII, so splitting
    and prefix tests agree with those of the host on UTF-16 strings.
    Trimming strips every white-space character and line terminator of the
    host, also those outside ASCII.  The program compares a lower-cased text
    with names made of ASCII letters only; the lower case maps the ASCII
    capitals and the Kelvin sign, the one character outside ASCII whose lower
    case is an ASCII letter, and keeps every other character, whose lower
    case is never ASCII. *)

Module JS.

Definition dq : string := String (ascii_of_nat 34) "".
Definition nl : string := String (ascii_of_nat 10) "".

Definition startsWith (s p : string) : bool := prefix p s.

Fixpoint includes (s sub : string) : bool :=
  prefix sub s ||
  match s with
  | EmptyString => false
  | String _ s' => includes s' sub
  end.

(** [s.substring(n)] *)
Fixpoint substring_from (n : nat) (s : string) : string :=
  match n, s with
  | O, _ => s
  | S _, EmptyString => EmptyString
  | S n', String _ s' => substring_from n' s'
  end.

(** [s.split(sep)] for a separator of one character: never empty. *)
Fixpoint split (sep : ascii) (s : string) : list string :=
  match s with
  | EmptyString => [EmptyString]
  | String c s' =>
      if Ascii.eqb c sep then EmptyString :: split sep s'
      else match split sep s' with
           | [] => [String c EmptyString]
           | h :: t => String c h :: t
           end
  end.

Definition join (sep : string) (l : list string) : string := String.concat sep l.

Definition lower_ascii (c : ascii) : ascii :=
  let n := nat_of_ascii c in
  if ((65 <=? n) && (n <=? 90))%nat then ascii_of_nat (n + 32) else c.

(** The three bytes of the Kelvin sign, U+212A. *)
Definition is_kelvin (a b c : ascii) : bool :=
  ((nat_of_ascii a =? 226) && (nat_of_ascii b =? 132) && (nat_of_ascii c =? 170))%nat.

(** [s.toLowerCase()], as far as a comparison with ASCII names can tell. *)
Fixpoint toLowerCase (s : string) : string :=
  match s with
  | EmptyString => EmptyString
  | String a r1 =>
      match r1 with
      | String b (String c r3) =>
          if is_kelvin a b c then String "k" (toLowerCase r3)
          else String (lower_ascii a) (toLowerCase r1)
      | _ => String (lower_ascii a) (toLowerCase r1)
      end
  end.

(** The white space and the line terminators of one byte: U+0009 to U+000D
    and the space. *)
Definition is_space (c : ascii) : bool :=
  let n := nat_of_ascii c in
  ((n =? 32) || ((9 <=? n) && (n <=? 13)))%nat.

(** Of two bytes: the no-break space U+00A0. *)
Definition is_space2 (a b : ascii) : bool :=
  ((nat_of_ascii a =? 194) && (nat_of_ascii b =? 160))%nat.

(** Of three bytes: U+1680, U+2000 to U+200A, U+2028, U+2029, U+202F,
    U+205F, U+3000 and U+FEFF. *)
Definition is_space3 (a b c : ascii) : bool :=
  let x := nat_of_ascii a in
  let y := nat_of_ascii b in
  let z := nat_of_ascii c in
  (((x =? 225) && (y =? 154) && (z =? 128))
   || ((x =? 226) && (y =? 128)
       && (((128 <=? z) && (z <=? 138)) || (z =? 168) || (z =? 169) || (z =? 175)))
   || ((x =? 226) && (y =? 129) && (z =? 159))
   || ((x =? 227) && (y =? 128) && (z =? 128))
   || ((x =? 239) && (y =? 187) && (z =? 191)))%nat.

Fixpoint trimStart (s : string) : string :=
  match s with
  | EmptyString => EmptyString
  | String a r1 =>
      if is_space a then trimStart r1
      else
        match r1 with
        | String b r2 =>
            if is_space2 a b then trimStart r2
            else
              match r2 with
              | String c r3 => if is_space3 a b c then trimStart r3 else s
              | EmptyString => s
              end
        | EmptyString => s
        end
  end.

(** The text is made of white space only. *)
Fixpoint all_space (s : string) : bool :=
  match s with
  | EmptyString => true
  | String a r1 =>
      if is_space a then all_space r1
      else
        match r1 with
        | String b r2 =>
            if is_space2 a b then all_space r2
            else
              match r2 with
              | String c r3 => is_space3 a b c && all_space r3
              | EmptyString => false
              end
        | EmptyString => false
        end
  end.

Fixpoint trimEnd (s : string) : string :=
  match s with
  | EmptyString => EmptyString
  | String c s' => if all_space s then EmptyString else String c (trimEnd s')
  end.

Definition trim (s : string) : string := trimEnd (trimStart s).

(** [s.replace(pat, by)] with a string pattern: the first occurrence only. *)
Fixpoint replace (s pat by_ : string) : string :=
  if prefix pat s then by_ ++ substring_from (String.length pat) s
  else match s with
       | EmptyString => EmptyString
       | String c s' => String c (replace s' pat by_)
       end.

(** [arr.includes(x)] on an array of strings. *)
Definition arr_includes (l : list string) (x : string) : bool :=
  existsb (String.eqb x) l.

(** A non-empty string is truthy. *)
Definition truthy (s : string) : bool :=
  match s with EmptyString => false | _ => true end.

(** Decimal rendering of a number inside a template string. *)
Fixpoint digits (fuel n : nat) (acc : string) : string :=
  match fuel with
  | O => acc
  | S f =>
      let acc' := String (ascii_of_nat (48 + n mod 10)) acc in
      if (n / 10 =? 0)%nat then acc' else digits f (n / 10) acc'
  end.

Definition of_nat (n : nat) : string := digits (S n) n "".

(** [Array(n).fill(c).join('')] *)
Fixpoint repeat_string (c : string) (n : nat) : string :=
  match n with
  | O => ""
  | S n' => c ++ repeat_string c n'
  end.

(** What an evaluation ends in: a value, or a thrown error that no handler
    of the component catches. *)
Inductive Error := TypeError | RangeError.

Inductive Completion (A : Type) :=
| Return (a : A)
| Throw (e : Error).
Arguments Return {A} a.
Arguments Throw {A} e.

Definition bind {A B} (c : Completion A) (k : A -> Completion B) : Completion B :=
  match c with
  | Return a => k a
  | Throw e => Throw e
  end.

End JS.

Import JS.

(** ** The virtual file system

    [FileItem] and [DirectoryItem] of the source; a directory's [content] is
    an object used as a map from names to items, kept as an association list
    in the order the keys were written (the order [Object.keys] gives). *)

Definition Date := Z.

Record Meta := mkMeta {
  permissions : string;
  owner : string;
  group : string;
  lastModified : Date
}.

Inductive FileSystemItem :=
| FileItem (content : list string) (contentEn : option (list string)) (meta : Meta)
| DirectoryItem (content : list (string * FileSystemItem)) (meta : Meta).

Definition Object := list (string * FileSystemItem).

(** The tree object: its only key is [~], bound to the home directory. *)
Record FileSystem := mkFileSystem {
  homeContent : Object;
  homeMeta : Meta
}.

(** [fileSystem['~']] *)
Definition home (f : FileSystem) : FileSystemItem :=
  DirectoryItem (homeContent f) (homeMeta f).

Definition item_meta (i : FileSystemItem) : Meta :=
  match i with
  | FileItem _ _ m => m
  | DirectoryItem _ m => m
  end.

Definition is_directory (i : FileSystemItem) : bool :=
  match i with
  | DirectoryItem _ _ => true
  | FileItem _ _ _ => false
  end.

Definition keys (o : Object) : list string := map fst o.

Fixpoint own (o : Object) (k : string) : option FileSystemItem :=
  match o with
  | [] => None
  | (k', v) :: o' => if String.eqb k k' then Some v else own o' k
  end.

(** The members every plain object inherits from [Object.prototype]. *)
Definition objectPrototype : list string :=
  ["constructor"; "__proto__"; "hasOwnProperty"; "isPrototypeOf";
   "propertyIsEnumerable"; "toLocaleString"; "toString"; "valueOf";
   "__defineGetter__"; "__defineSetter__"; "__lookupGetter__";
   "__lookupSetter__"].

(** The value of [o[k]]: an item stored under [k], a member inherited from
    the prototype (truthy, with no [type], [owner] or [content] of its own),
    or [undefined]. *)
Inductive Member :=
| Own (i : FileSystemItem)
| Inherited
| Undefined.

Definition get (o : Object) (k : string) : Member :=
  match own o k with
  | Some i => Own i
  | None => if arr_includes objectPrototype k then Inherited else Undefined
  end.

Definition fileSystem (built : Date) : FileSystem :=
  mkFileSystem
    [("about",
      DirectoryItem
        [("bio.txt",
          FileItem
            ["====== 關於我 ======";
             "我是一名熱衷於前端與全端開發的軟體工程師，擁有豐富的網頁應用開發經驗。";
             "我熱愛創造直覺且美觀的使用者介面，並且重視程式碼品質與使用者體驗。";
             "在工作之外，我也是開源專案的貢獻者，喜歡分享知識並持續學習新技術。";
             "我的GitHub: https://github.com/Thetoicxdude"]
            (Some
             ["====== About Me ======";
               "I am a software engineer passionate about frontend and full-stack development, with extensive experience in web application development.";
               "I love creating intuitive and beautiful user interfaces, and I value code quality and user experience.";
               "Outside of work, I am also an open-source contributor, enjoying knowledge sharing and continuously learning new technologies.";
               "My GitHub: https://github.com/Thetoicxdude"])
            (mkMeta "rw-r--r--" "deviser" "users" built));
         ("education.txt",
          FileItem
            ["====== 教育背景 ======";
             "2019-2023 - 計算機科學學士";
             "主修領域：軟體工程、網頁開發、人工智能"]
            (Some
             ["====== Education ======";
               "2019-2023 - Bachelor of Computer Science";
               "Major fields: Software Engineering, Web Development, Artificial Intelligence"])
            (mkMeta "rw-r--r--" "deviser" "users" built));
         ("experience.txt",
          FileItem
            ["====== 工作經驗 ======";
             "2022-至今 - 高級前端開發者";
             "2020-2022 - 網頁開發實習生";
             "主要職責：開發與維護企業級網頁應用，設計用戶介面，優化前端性能"]
            (Some
             ["====== Work Experience ======";
               "2022-Present - Senior Frontend Developer";
               "2020-2022 - Web Development Intern";
               "Main responsibilities: Developing and maintaining enterprise web applications, designing user interfaces, optimizing frontend performance"])
            (mkMeta "rw-r--r--" "deviser" "users" built))]
        (mkMeta "rwxr-xr-x" "deviser" "users" built));
     ("skills",
      DirectoryItem
        [("frontend.txt",
          FileItem
            ["====== 前端技術 ======";
             "JavaScript/TypeScript ███████████ 95%";
             "React.js            ██████████  90%";
             "Vue.js              ████████    80%";
             "HTML/CSS            ███████████ 95%"]
            (Some
             ["====== Frontend Technologies ======";
               "JavaScript/TypeScript ███████████ 95%";
               "React.js            ██████████  90%";
               "Vue.js              ████████    80%";
               "HTML/CSS            ███████████ 95%"])
            (mkMeta "rw-r--r--" "deviser" "users" built));
         ("backend.txt",
          FileItem
            ["====== 後端技術 ======";
             "Node.js             ████████    80%";
             "Express             ███████     70%";
             "Python              ██████      60%";
             "Database            ████████    80%"]
            (Some
             ["====== Backend Technologies ======";
               "Node.js             ████████    80%";
               "Express             ███████     70%";
               "Python              ██████      60%";
               "Database            ████████    80%"])
            (mkMeta "rw-r--r--" "deviser" "users" built));
         ("other.txt",
          FileItem
            ["====== 其他技能 ======";
             "Git/GitHub          ██████████  90%";
             "Discord Bots        ████████    80%";
             "AI & ML             █████████   85%";
             "Linux               █████████   85%"]
            (Some
             ["====== Other Skills ======";
               "Git/GitHub          ██████████  90%";
               "Discord Bots        ████████    80%";
               "AI & ML             █████████   85%";
               "Linux               █████████   85%"])
            (mkMeta "rw-r--r--" "deviser" "users" built))]
        (mkMeta "rwxr-xr-x" "deviser" "users" built));
     ("projects",
      DirectoryItem
        [("terminal-portfolio",
          DirectoryItem
            [("README.md",
              FileItem
                ["# 終端機風格個人網站";
                 "使用 React 和 TypeScript 建立的終端機風格個人網站";
                 "";
                 "## 技術";
                 "- React";
                 "- TypeScript";
                 "- Styled-Components";
                 "";
                 "## 功能";
                 "- 互動式命令行介面";
                 "- 主題切換";
                 "- 響應式設計";
                 "";
                 "## 連結";
                 "https://github.com/Thetoicxdude/terminal-portfolio"]
                None
                (mkMeta "rw-r--r--" "deviser" "users" built))]
            (mkMeta "rwxr-xr-x" "deviser" "users" built));
         ("ai-transformer",
          DirectoryItem
            [("README.md",
              FileItem
                ["# AI Transformer";
                 "實現和研究的Transformer模型專案";
                 "";
                 "## 技術";
                 "- Python";
                 "- PyTorch";
                 "- 自然語言處理";
                 "";
                 "## 功能";
                 "- 實現transformer架構";
                 "- 文本處理與分析";
                 "- 模型訓練與評估";
                 "";
                 "## 連結";
                 "https://github.com/Thetoicxdude/Ai-transformer"]
                None
                (mkMeta "rw-r--r--" "deviser" "users" built))]
            (mkMeta "rwxr-xr-x" "deviser" "users" built));
         ("crowdfunding-platform",
          DirectoryItem
            [("README.md",
              FileItem
                ["# 眾籌平台";
                 "現代化的眾籌網站平台";
                 "";
                 "## 技術";
                 "- JavaScript";
                 "- React";
                 "- Node.js";
                 "- 支付整合";
                 "";
                 "## 功能";
                 "- 專案創建與展示";
                 "- 支付系統整合";
                 "- 用戶認證";
                 "- 專案管理儀表板";
                 "";
                 "## 連結";
                 "https://github.com/Thetoicxdude/crowdfunding-platform"]
                None
                (mkMeta "rw-r--r--" "deviser" "users" built))]
            (mkMeta "rwxr-xr-x" "deviser" "users" built));
         ("implicit-sentiment-analysis",
          DirectoryItem
            [("README.md",
              FileItem
                ["# 隱含情感分析模型";
                 "用於分析文本中隱含情感的AI模型";
                 "";
                 "## 技術";
                 "- Python";
                 "- 機器學習";
                 "- 自然語言處理";
                 "- 深度學習";
                 "";
                 "## 功能";
                 "- 情感分析";
                 "- 文本分類";
                 "- 隱含情感檢測";
                 "";
                 "## 連結";
                 "https://github.com/Thetoicxdude/Implicit-sentiment-analysis-model"]
                None
                (mkMeta "rw-r--r--" "deviser" "users" built))]
            (mkMeta "rwxr-xr-x" "deviser" "users" built));
         ("starhub-server",
          DirectoryItem
            [("README.md",
              FileItem
                ["# Starhub Server";
                 "使用GitHub Pages建立的網站專案";
                 "";
                 "## 技術";
                 "- HTML";
                 "- CSS";
                 "- JavaScript";
                 "- GitHub Pages";
                 "";
                 "## 功能";
                 "- 靜態網站展示";
                 "- 資訊頁面";
                 "- 響應式設計";
                 "";
                 "## 連結";
                 "https://github.com/Thetoicxdude/Starhub-Server-.github.io"]
                None
                (mkMeta "rw-r--r--" "deviser" "users" built))]
            (mkMeta "rwxr-xr-x" "deviser" "users" built));
         ("zu-discord-bot",
          DirectoryItem
            [("README.md",
              FileItem
                ["# Zu Discord Bot";
                 "Discord聊天機器人專案";
                 "";
                 "## 技術";
                 "- JavaScript/TypeScript";
                 "- Discord.js";
                 "- Node.js";
                 "";
                 "## 功能";
                 "- 聊天指令處理";
                 "- 自動化任務";
                 "- 互動式回應";
                 "- 音樂播放與管理";
                 "";
                 "## 連結";
                 "https://github.com/Thetoicxdude/Zu-discord-bot"]
                None
                (mkMeta "rw-r--r--" "deviser" "users" built))]
            (mkMeta "rwxr-xr-x" "deviser" "users" built))]
        (mkMeta "rwxr-xr-x" "deviser" "users" built));
     ("contact",
      DirectoryItem
        [("info.txt",
          FileItem
            ["====== 聯絡方式 ======";
             "📧 Email: yourname@example.com";
             "💼 LinkedIn: linkedin.com/in/yourprofile";
             "🐱 GitHub: https://github.com/Thetoicxdude";
             "🐦 Twitter: @yourhandle"]
            (Some
             ["====== Contact Information ======";
               "📧 Email: yourname@example.com";
               "💼 LinkedIn: linkedin.com/in/yourprofile";
               "🐱 GitHub: https://github.com/Thetoicxdude";
               "🐦 Twitter: @yourhandle"])
            (mkMeta "rw-r--r--" "deviser" "users" built));
         ("social.txt",
          FileItem
            ["====== 社交媒體 ======";
             "Instagram: @yourhandle";
             "Facebook: yourname";
             "Discord: yourname#1234"]
            (Some
             ["====== Social Media ======";
               "Instagram: @yourhandle";
               "Facebook: yourname";
               "Discord: yourname#1234"])
            (mkMeta "rw-r--r--" "deviser" "users" built))]
        (mkMeta "rwxr-xr-x" "deviser" "users" built));
     (".github",
      DirectoryItem
        [("profile.txt",
          FileItem
            ["====== GitHub 資訊 ======";
             "用戶名: Thetoicxdude";
             "個人檔案: https://github.com/Thetoicxdude";
             "儲存庫數量: 11";
             "追蹤者: 0";
             "追蹤中: 1";
             "成就: Pull Shark";
             "";
             "主要專案:";
             "- Ai-transformer";
             "- crowdfunding-platform";
             "- Implicit-sentiment-analysis-model";
             "- Starhub-Server-.github.io";
             "- Zu-discord-bot"]
            None
            (mkMeta "rw-r--r--" "deviser" "users" built));
         ("stats.txt",
          FileItem
            ["====== GitHub 統計 ======";
             "主要語言: JavaScript, Python, HTML, TypeScript";
             "貢獻統計: 活躍貢獻者";
             "星標專案: 4";
             "";
             "最近活動:";
             "- 專案更新";
             "- 提交代碼";
             "- Fork了開源專案"]
            None
            (mkMeta "rw-r--r--" "deviser" "users" built))]
        (mkMeta "rwxr-xr-x" "deviser" "users" built));
     ("resume.pdf",
      FileItem
        ["[PDF 文件內容 - 顯示為二進制]"]
        None
        (mkMeta "rw-r--r--" "deviser" "users" built));
     (".bashrc",
      FileItem
        ["# .bashrc";
         ("PS1=" ++ dq ++ "\[\033[01;32m\]\u@\h\[\033[00m\]:\[\033[01;34m\]\w\[\033[00m\]\$ " ++ dq);
         ("alias ll=" ++ dq ++ "ls -la" ++ dq);
         ("alias la=" ++ dq ++ "ls -a" ++ dq);
         ("alias l=" ++ dq ++ "ls -CF" ++ dq);
         ("alias gh=" ++ dq ++ "cd ~/.github" ++ dq)]
        None
        (mkMeta "rw-r--r--" "deviser" "users" built))]
    (mkMeta "rwxr-xr-x" "deviser" "users" built).

(** ** Result records, session cells and scheduled steps *)

Inductive Language := zh_TW | en_US.

Inductive ResultType := error | success | info | warning | system.

(** One entry of a listing, as [ls] renders it: in the long format the
    permissions, owner and group come first; a directory's name is followed by
    a slash when displayed. *)
Inductive Node :=
| LongEntry (item perms own grp : string) (directory : bool)
| ShortEntry (item : string) (directory : bool).

(** [content: string | React.ReactNode] *)
Inductive Content :=
| Text (s : string)
| Fragment (children : list Node).

Record CommandResult := mkResult {
  type : ResultType;
  content : Content
}.

Definition msg (t : ResultType) (s : string) : CommandResult := mkResult t (Text s).

Record OutputEntry := mkEntry {
  command : string;
  result : list CommandResult
}.

(** The cells created by [useState], in the order of the source. *)
Record State := mkState {
  language : Language;
  commandHistory : list string;
  historyIndex : Z;
  outputHistory : list OutputEntry;
  userName : string;
  hostName : string;
  currentDirectory : string;
  isBooting : bool;
  bootStage : nat;
  isRickRolling : bool;
  isRoot : bool;
  groups : list string;
  passwordAttempts : nat;
  isSudoPrompt : bool;
  sudoCommand : string;
  isFullFeatured : bool;
  previousDirectory : option string;
  input : string;
  cursorPosition : nat
}.

(** [setX(v)]: the queued write of one cell. *)
Definition setLanguage (v : Language) (s : State) : State :=
    mkState v (commandHistory s) (historyIndex s) (outputHistory s) (userName s) (hostName s)
    (currentDirectory s) (isBooting s) (bootStage s) (isRickRolling s) (isRoot s) (groups s)
    (passwordAttempts s) (isSudoPrompt s) (sudoCommand s) (isFullFeatured s) (previousDirectory
    s) (input s) (cursorPosition s).

Definition setCommandHistory (v : list string) (s : State) : State :=
    mkState (language s) v (historyIndex s) (outputHistory s) (userName s) (hostName s)
    (currentDirectory s) (isBooting s) (bootStage s) (isRickRolling s) (isRoot s) (groups s)
    (passwordAttempts s) (isSudoPrompt s) (sudoCommand s) (isFullFeatured s) (previousDirectory
    s) (input s) (cursorPosition s).

Definition setHistoryIndex (v : Z) (s : State) : State :=
    mkState (language s) (commandHistory s) v (outputHistory s) (userName s) (hostName s)
    (currentDirectory s) (isBooting s) (bootStage s) (isRickRolling s) (isRoot s) (groups s)
    (passwordAttempts s) (isSudoPrompt s) (sudoCommand s) (isFullFeatured s) (previousDirectory
    s) (input s) (cursorPosition s).

Definition setOutputHistory (v : list OutputEntry) (s : State) : State :=
    mkState (language s) (commandHistory s) (historyIndex s) v (userName s) (hostName s)
    (currentDirectory s) (isBooting s) (bootStage s) (isRickRolling s) (isRoot s) (groups s)
    (passwordAttempts s) (isSudoPrompt s) (sudoCommand s) (isFullFeatured s) (previousDirectory
    s) (input s) (cursorPosition s).

Definition setUserName (v : string) (s : State) : State :=
    mkState (language s) (commandHistory s) (historyIndex s) (outputHistory s) v (hostName s)
    (currentDirectory s) (isBooting s) (bootStage s) (isRickRolling s) (isRoot s) (groups s)
    (passwordAttempts s) (isSudoPrompt s) (sudoCommand s) (isFullFeatured s) (previousDirectory
    s) (input s) (cursorPosition s).

Definition setCurrentDirectory (v : string) (s : State) : State :=
    mkState (language s) (commandHistory s) (historyIndex s) (outputHistory s) (userName s)
    (hostName s) v (isBooting s) (bootStage s) (isRickRolling s) (isRoot s) (groups s)
    (passwordAttempts s) (isSudoPrompt s) (sudoCommand s) (isFullFeatured s) (previousDirectory
    s) (input s) (cursorPosition s).

Definition setIsBooting (v : bool) (s : State) : State :=
    mkState (language s) (commandHistory s) (historyIndex s) (outputHistory s) (userName s)
    (hostName s) (currentDirectory s) v (bootStage s) (isRickRolling s) (isRoot s) (groups s)
    (passwordAttempts s) (isSudoPrompt s) (sudoCommand s) (isFullFeatured s) (previousDirectory
    s) (input s) (cursorPosition s).

Definition setBootStage (v : nat) (s : State) : State :=
    mkState (language s) (commandHistory s) (historyIndex s) (outputHistory s) (userName s)
    (hostName s) (currentDirectory s) (isBooting s) v (isRickRolling s) (isRoot s) (groups s)
    (passwordAttempts s) (isSudoPrompt s) (sudoCommand s) (isFullFeatured s) (previousDirectory
    s) (input s) (cursorPosition s).

Definition setIsRickRolling (v : bool) (s : State) : State :=
    mkState (language s) (commandHistory s) (historyIndex s) (outputHistory s) (userName s)
    (hostName s) (currentDirectory s) (isBooting s) (bootStage s) v (isRoot s) (groups s)
    (passwordAttempts s) (isSudoPrompt s) (sudoCommand s) (isFullFeatured s) (previousDirectory
    s) (input s) (cursorPosition s).

Definition setIsRoot (v : bool) (s : State) : State :=
    mkState (language s) (commandHistory s) (historyIndex s) (outputHistory s) (userName s)
    (hostName s) (currentDirectory s) (isBooting s) (bootStage s) (isRickRolling s) v (groups s)
    (passwordAttempts s) (isSudoPrompt s) (sudoCommand s) (isFullFeatured s) (previousDirectory
    s) (input s) (cursorPosition s).

Definition setPasswordAttempts (v : nat) (s : State) : State :=
    mkState (language s) (commandHistory s) (historyIndex s) (outputHistory s) (userName s)
    (hostName s) (currentDirectory s) (isBooting s) (bootStage s) (isRickRolling s) (isRoot s)
    (groups s) v (isSudoPrompt s) (sudoCommand s) (isFullFeatured s) (previousDirectory s)
    (input s) (cursorPosition s).

Definition setIsSudoPrompt (v : bool) (s : State) : State :=
    mkState (language s) (commandHistory s) (historyIndex s) (outputHistory s) (userName s)
    (hostName s) (currentDirectory s) (isBooting s) (bootStage s) (isRickRolling s) (isRoot s)
    (groups s) (passwordAttempts s) v (sudoCommand s) (isFullFeatured s) (previousDirectory s)
    (input s) (cursorPosition s).

Definition setSudoCommand (v : string) (s : State) : State :=
    mkState (language s) (commandHistory s) (historyIndex s) (outputHistory s) (userName s)
    (hostName s) (currentDirectory s) (isBooting s) (bootStage s) (isRickRolling s) (isRoot s)
    (groups s) (passwordAttempts s) (isSudoPrompt s) v (isFullFeatured s) (previousDirectory s)
    (input s) (cursorPosition s).

Definition setIsFullFeatured (v : bool) (s : State) : State :=
    mkState (language s) (commandHistory s) (historyIndex s) (outputHistory s) (userName s)
    (hostName s) (currentDirectory s) (isBooting s) (bootStage s) (isRickRolling s) (isRoot s)
    (groups s) (passwordAttempts s) (isSudoPrompt s) (sudoCommand s) v (previousDirectory s)
    (input s) (cursorPosition s).

Definition setPreviousDirectory (v : option string) (s : State) : State :=
    mkState (language s) (commandHistory s) (historyIndex s) (outputHistory s) (userName s)
    (hostName s) (currentDirectory s) (isBooting s) (bootStage s) (isRickRolling s) (isRoot s)
    (groups s) (passwordAttempts s) (isSudoPrompt s) (sudoCommand s) (isFullFeatured s) v (input
    s) (cursorPosition s).

Definition setInput (v : string) (s : State) : State :=
    mkState (language s) (commandHistory s) (historyIndex s) (outputHistory s) (userName s)
    (hostName s) (currentDirectory s) (isBooting s) (bootStage s) (isRickRolling s) (isRoot s)
    (groups s) (passwordAttempts s) (isSudoPrompt s) (sudoCommand s) (isFullFeatured s)
    (previousDirectory s) v (cursorPosition s).

Definition setCursorPosition (v : nat) (s : State) : State :=
    mkState (language s) (commandHistory s) (historyIndex s) (outputHistory s) (userName s)
    (hostName s) (currentDirectory s) (isBooting s) (bootStage s) (isRickRolling s) (isRoot s)
    (groups s) (passwordAttempts s) (isSudoPrompt s) (sudoCommand s) (isFullFeatured s)
    (previousDirectory s) (input s) v.

(** The state of a freshly mounted component. *)
Definition initialState : State :=
  mkState zh_TW [] (-1)%Z [] "user" "terminal" "~" false 5 false false ["users"] 0 false ""
    false None "" 0.

(** What [new Date()] renders to at the moment it is evaluated. *)
Record Clock := mkClock {
  toLocaleString : string;
  toISOString : string
}.

(** A callback handed to [setTimeout] or [setInterval], by what it does to
    the cells when it fires.  The values a callback captured from its render
    are stored in it. *)
Inductive Task :=
| AppendLast (rs : list CommandResult)
| ReplaceLast (rs : list CommandResult)
| SetOutput (h : list OutputEntry)
| BootDone
| Reveal
| ShowRickRoll
| Recover (user host : string)
| NoWrite.

(** A chain of callbacks: each fires [delay] milliseconds after the one
    before it. *)
Definition Timer := list (N * Task).

(** Everything an event can touch: the tree object, the cells, the timers
    that have not fired yet, and how often the theme callback of the parent
    was called. *)
Record World := mkWorld {
  fs : FileSystem;
  cells : State;
  timers : list Timer;
  themeToggles : nat
}.

Definition upd (f : State -> State) (w : World) : World :=
  mkWorld (fs w) (f (cells w)) (timers w) (themeToggles w).

Definition schedule (t : Timer) (w : World) : World :=
  mkWorld (fs w) (cells w) (timers w ++ [t]) (themeToggles w).

Definition toggleTheme (w : World) : World :=
  mkWorld (fs w) (cells w) (timers w) (S (themeToggles w)).

(** ** Text resources *)

Definition textResources : list (string * (string * string)) :=
  [("help_title",
    ("=== 可用命令列表 ===",
     "=== Available Commands ==="));
   ("help_ls",
    ("ls          - 列出當前目錄內容",
     "ls          - List directory contents"));
   ("help_cd",
    ("cd [目錄]    - 切換目錄",
     "cd [dir]    - Change directory"));
   ("help_cat",
    ("cat [檔案]   - 顯示檔案內容",
     "cat [file]  - Display file contents"));
   ("help_pwd",
    ("pwd         - 顯示當前路徑",
     "pwd         - Print working directory"));
   ("help_whoami",
    ("whoami      - 顯示當前使用者",
     "whoami      - Display current user"));
   ("help_date",
    ("date        - 顯示當前日期",
     "date        - Display current date"));
   ("help_man",
    ("man [命令]   - 顯示命令說明",
     "man [cmd]   - Display command manual"));
   ("help_echo",
    ("echo [文字]  - 顯示文字",
     "echo [text] - Display text"));
   ("help_uname",
    ("uname       - 顯示系統資訊",
     "uname       - Display system info"));
   ("help_find",
    ("find        - 搜尋檔案或目錄",
     "find        - Search files or directories"));
   ("help_mkdir",
    ("mkdir       - 建立目錄",
     "mkdir       - Create directory"));
   ("help_github",
    ("github      - 顯示GitHub資訊",
     "github      - Display GitHub info"));
   ("help_theme",
    ("theme       - 切換亮色/暗色主題",
     "theme       - Toggle light/dark theme"));
   ("help_lang",
    ("lang        - 切換語言 (中文/英文)",
     "lang        - Change language (Chinese/English)"));
   ("help_clear",
    ("clear       - 清除畫面",
     "clear       - Clear screen"));
   ("help_exit",
    ("exit        - 離開終端機",
     "exit        - Exit terminal"));
   ("help_shortcuts",
    ("鍵盤快捷鍵:",
     "Keyboard shortcuts:"));
   ("help_ctrl_c",
    ("Ctrl+C        - 中斷當前命令",
     "Ctrl+C        - Interrupt current command"));
   ("help_ctrl_l",
    ("Ctrl+L        - 清除畫面",
     "Ctrl+L        - Clear screen"));
   ("help_ctrl_d",
    ("Ctrl+D        - 登出 (當輸入為空時)",
     "Ctrl+D        - Logout (when input is empty)"));
   ("help_ctrl_u",
    ("Ctrl+U        - 清除當前輸入行",
     "Ctrl+U        - Clear current input line"));
   ("help_tab",
    ("Tab           - 自動完成命令",
     "Tab           - Auto-complete command"));
   ("help_arrows",
    ("↑/↓           - 瀏覽命令歷史記錄",
     "↑/↓           - Browse command history"));
   ("err_cmd_not_found",
    (("命令未找到，輸入 " ++ dq ++ "help" ++ dq ++ " 查看可用命令"),
     ("Command not found, type " ++ dq ++ "help" ++ dq ++ " to see available commands")));
   ("err_invalid_option",
    ("無效的選項",
     "Invalid option"));
   ("err_dir_not_exist",
    ("沒有此目錄",
     "No such directory"));
   ("err_file_not_exist",
    ("檔案不存在或不是檔案",
     "File does not exist or is not a file"));
   ("err_missing_file",
    ("缺少檔案名稱",
     "Missing filename"));
   ("err_perm_denied",
    ("權限不足",
     "Permission denied"));
   ("sys_welcome",
    ("歡迎來到 DeviOS 終端機系統!",
     "Welcome to DeviOS Terminal System!"));
   ("sys_last_login",
    ("上次登入：",
     "Last login: "));
   ("sys_os_version",
    ("系統：DeviOS 1.0.0 LTS",
     "System: DeviOS 1.0.0 LTS"));
   ("sys_enter_help",
    (("輸入 " ++ dq ++ "help" ++ dq ++ " 查看可用命令。"),
     ("Type " ++ dq ++ "help" ++ dq ++ " to see available commands.")));
   ("sys_theme_changed",
    ("主題已切換",
     "Theme changed"));
   ("sys_lang_changed",
    ("語言已切換為中文",
     "Language changed to English"));
   ("sys_lang_usage",
    (("使用方式: lang [zh|en]" ++ nl ++ "例如: lang en - 切換至英文" ++ nl ++ "      lang zh - 切換至中文"),
     ("Usage: lang [zh|en]" ++ nl ++ "Example: lang en - Switch to English" ++ nl ++ "         lang zh - Switch to Chinese")));
   ("sys_goodbye",
    ("感謝使用終端機風格個人網站，再見！",
     "Thank you for using terminal-style portfolio website. Goodbye!"));
   ("sys_logout",
    ("logout",
     "logout"));
   ("nav_switch_to_dir",
    ("切換到 $1 目錄查看更多資訊",
     "Switch to $1 directory to see more information"));
   ("nav_use_cd",
    (("使用 " ++ dq ++ "cd $1" ++ dq ++ " 命令"),
     ("Use " ++ dq ++ "cd $1" ++ dq ++ " command")));
   ("nav_use_ls",
    (("請使用 " ++ dq ++ "ls" ++ dq ++ " 查看可用檔案，並使用 " ++ dq ++ "cat [檔案名]" ++ dq ++ " 閱讀內容"),
     ("Please use " ++ dq ++ "ls" ++ dq ++ " to see available files, and " ++ dq ++ "cat [filename]" ++ dq ++ " to read content")));
   ("nav_example",
    ("例如: $1",
     "Example: $1"));
   ("err_missing_operand",
    ("缺少操作數",
     "missing operand"))].

(** The start-up messages: Chinese and English text. *)
Definition bootMessages : list (string * string) :=
  [("正在初始化系統核心 [v1.0.0]...", "Initializing system kernel [v1.0.0]...");
   ("載入核心模組... [OK]", "Loading kernel modules... [OK]");
   ("檢查系統依賴關係... [OK]", "Checking system dependencies... [OK]");
   ("載入使用者設定檔 [deviser]... [OK]", "Loading user profile [deviser]... [OK]");
   ("系統已就緒! 啟動完成。", "System ready! Boot complete.")].

(** [language === 'zh_TW' ? zh : en] *)
Definition tr (s : State) (zh en : string) : string :=
  match language s with
  | zh_TW => zh
  | en_US => en
  end.

Definition resource (key : string) : option (string * string) :=
  match find (fun e => fst e =? key) textResources with
  | Some e => Some (snd e)
  | None => None
  end.

Fixpoint substitute (text : string) (i : nat) (params : list string) : string :=
  match params with
  | [] => text
  | p :: ps => substitute (replace text ("$" ++ of_nat i) p) (S i) ps
  end.

Definition getText (s : State) (key : string) (params : list string) : string :=
  let text :=
    match resource key with
    | Some (zh, en) => if truthy (tr s zh en) then tr s zh en else key
    | None => key
    end in
  substitute text 1 params.

(** ** Paths *)

(** The top-level object: the single key [~] bound to the home directory. *)
Definition top (f : FileSystem) : Object := [("~", home f)].

(** [o[k] && o[k].type === 'directory'], giving the directory's content. *)
Definition directory_at (o : Object) (k : string) : option Object :=
  match get o k with
  | Own (DirectoryItem c _) => Some c
  | _ => None
  end.

(** The loop of [getCurrentDirectoryContent]; empty segments are skipped. *)
Fixpoint walk_segments (current : Object) (path : list string) : option Object :=
  match path with
  | [] => Some current
  | dir :: rest =>
      if negb (truthy dir) then walk_segments current rest
      else match directory_at current dir with
           | Some c => walk_segments c rest
           | None => None
           end
  end.

Definition getCurrentDirectoryContent (f : FileSystem) (s : State) : option Object :=
  let path := if currentDirectory s =? "~" then ["~"] else split "/" (currentDirectory s) in
  walk_segments (top f) path.

(** [normalizedPath] of [getFileContent] and [getFileSystemItem]. *)
Definition normalizedPath (s : State) (filePath : string) : string :=
  if startsWith filePath "/" then substring_from 1 filePath
  else if currentDirectory s =? "~" then filePath
  else substring_from 2 (currentDirectory s) ++ "/" ++ filePath.

(** [p.split('/').filter(p => p)] *)
Definition segments (p : string) : list string := filter truthy (split "/" p).

(** The loop of [getFileContent] over all segments but the last. *)
Fixpoint walk_directories (current : Object) (parts : list string) : option Object :=
  match parts with
  | [] => Some current
  | part :: rest =>
      match directory_at current part with
      | Some c => walk_directories c rest
      | None => None
      end
  end.

Definition getFileContent (f : FileSystem) (s : State) (filePath : string)
  : option (list string) :=
  let parts := segments (normalizedPath s filePath) in
  match walk_directories (homeContent f) (removelast parts) with
  | None => None
  | Some current =>
      (* [parts[parts.length - 1]] of no segment is [undefined] *)
      let fileName := last parts "undefined" in
      match get current fileName with
      | Own (FileItem lines linesEn _) =>
          match language s, linesEn with
          | en_US, Some en => Some en
          | _, _ => Some lines
          end
      | _ => None
      end
  end.

(** What [getFileSystemItem] and [getDirectoryFromPath] hand back when it is
    not [null]: an item of the tree, or another truthy object (the top-level
    object itself, or a member inherited from the prototype), which has no
    [owner] and no [permissions]. *)
Inductive Found :=
| FoundItem (i : FileSystemItem)
| FoundOther.

(** [current] of the two walks: the top-level object, which has no
    [content], or a directory. *)
Inductive Cursor :=
| AtTop
| AtDirectory (o : Object) (m : Meta).

Definition found_of (c : Cursor) : Found :=
  match c with
  | AtTop => FoundOther
  | AtDirectory o m => FoundItem (DirectoryItem o m)
  end.

(** [current.content]: on the top-level object it is [undefined], and
    reading a member of [undefined] throws. *)
Definition content_of (c : Cursor) : Completion Object :=
  match c with
  | AtTop => Throw TypeError
  | AtDirectory o _ => Return o
  end.

Fixpoint item_loop (current : Cursor) (parts : list string) : Completion (option Found) :=
  match parts with
  | [] => Return (Some (found_of current))
  | [part] =>
      bind (content_of current) (fun o =>
        match get o part with
        | Own i => Return (Some (FoundItem i))
        | Inherited => Return (Some FoundOther)
        | Undefined => Return None
        end)
  | part :: rest =>
      bind (content_of current) (fun o =>
        match get o part with
        | Own (DirectoryItem c m) => item_loop (AtDirectory c m) rest
        | _ => Return None
        end)
  end.

Definition getFileSystemItem (f : FileSystem) (s : State) (filePath : string)
  : Completion (option Found) :=
  let p := normalizedPath s filePath in
  let parts := segments p in
  if startsWith p "~" then item_loop (AtDirectory (homeContent f) (homeMeta f)) (tl parts)
  else item_loop AtTop parts.

Fixpoint directory_loop (current : Cursor) (parts : list string) : Completion (option Found) :=
  match parts with
  | [] => Return (Some (found_of current))
  | part :: rest =>
      bind (content_of current) (fun o =>
        match get o part with
        | Own (DirectoryItem c m) => directory_loop (AtDirectory c m) rest
        | _ => Return None
        end)
  end.

Definition getDirectoryFromPath (f : FileSystem) (dirPath : string)
  : Completion (option Found) :=
  if dirPath =? "~" then Return (Some (FoundItem (home f)))
  else
    let parts := segments dirPath in
    if startsWith dirPath "~" then directory_loop (AtDirectory (homeContent f) (homeMeta f)) (tl parts)
    else directory_loop AtTop parts.

(** ** Permissions *)

Inductive Access := read | write | execute.

(** [item.permissions[permIndex] !== '-']; past the end the character is
    [undefined], which differs from the dash. *)
Definition checkPermission (s : State) (item : FileSystemItem) (t : Access) : bool :=
  if isRoot s then true
  else
    let isOwner := owner (item_meta item) =? userName s in
    let isInGroup := arr_includes (groups s) (group (item_meta item)) in
    let permIndex :=
      match t with
      | read => if isOwner then 0 else if isInGroup then 3 else 6
      | write => if isOwner then 1 else if isInGroup then 4 else 7
      | execute => if isOwner then 2 else if isInGroup then 5 else 8
      end in
    match String.get permIndex (permissions (item_meta item)) with
    | Some c => negb (Ascii.eqb c "-")
    | None => true
    end.

(** [checkPermission] applied to what a path walk returned: [null] and an
    object without [permissions] make the member access throw. *)
Definition checkPermissionOf (s : State) (d : option Found) (t : Access) : Completion bool :=
  if isRoot s then Return true
  else match d with
       | Some (FoundItem i) => Return (checkPermission s i t)
       | _ => Throw TypeError
       end.

(** ** Sorting

    [Array.prototype.sort(compareFn)] is a stable sort; with a consistent
    comparison its result is the one of the stable insertion sort below. *)

Section Sort.

Context {A : Type} (compareFn : A -> A -> Z).

Fixpoint insert (x : A) (l : list A) : list A :=
  match l with
  | [] => [x]
  | y :: l' => if (compareFn x y <=? 0)%Z then x :: l else y :: insert x l'
  end.

Definition sort (l : list A) : list A := fold_right insert [] l.

End Sort.

(** ** The command interpreter *)

Section Terminal.

(** [a.localeCompare(b)] of the host: negative, zero or positive. *)
Variable localeCompare : string -> string -> Z.

(** What a handler leaves behind: the pending world and its completion. *)
Definition Outcome : Type := World * Completion (list CommandResult).

Definition done (w : World) (rs : list CommandResult) : Outcome := (w, Return rs).

(** The folders hidden until the service is started ([hiddenFolders] and
    [restrictedFolders] of the source hold the same names). *)
Definition hiddenFolders : list string :=
  ["about"; "skills"; "projects"; "contact"; ".github"].

Definition restrictedFolders : list string := hiddenFolders.

Definition basicCommands : list string :=
  ["help"; "clear"; "echo"; "exit"; "deviser"; "ls"; "cd"; "cat"; "pwd"; "whoami";
   "date"; "uname"; "lang"].

(** *** Scheduled sequences *)

Definition bootTimer (s : State) : Timer :=
  (map (fun m => (600%N, AppendLast [msg system (tr s (fst m) (snd m))])) bootMessages ++
  [(800%N, AppendLast [msg success "deviser 服務已啟動！"]);
   (1000%N, BootDone);
   (100%N, SetOutput
           [mkEntry ""
              [msg success
                 (tr s ("✓ deviser 服務已成功啟動！輸入 " ++ dq ++ "help" ++ dq ++ " 查看可用命令。")
                       ("✓ deviser service started successfully! Type " ++ dq ++ "help" ++ dq
                        ++ " to see available commands."))]])])%list.

Definition progressBar (progress : nat) : string :=
  "[" ++ repeat_string "=" (progress / 10) ++ repeat_string " " (10 - progress / 10) ++ "] "
  ++ of_nat progress ++ "%".

Definition resumeTimer (s : State) : Timer :=
  ([(500%N, NoWrite)] ++
  map (fun k =>
         (200%N, ReplaceLast
                 [msg system (tr s "正在下載 resume.pdf..." "Downloading resume.pdf...");
                  msg system (progressBar (10 * k))]))
      (seq 1 10) ++
  [(200%N, NoWrite);
   (500%N, AppendLast
           [msg success (tr s "下載完成！檔案已儲存至您的系統。"
                              "Download complete! File saved to your system.");
            msg system (tr s "[PDF 文件內容 - 顯示為二進制]"
                             "[PDF content - displayed as binary]")])])%list.

Definition rickRollPaths : list string :=
  ["/home/deviser/Documents"; "/home/deviser/Pictures"; "/home/deviser/Downloads";
   "/home/deviser/.config"; "/home/deviser/.local/share"; "/var/log"; "/etc/apt"].

Definition addProgressMessage (percent : nat) (currentPath : string) : Task :=
  AppendLast [msg system ("已處理 " ++ of_nat percent ++ "%: " ++ currentPath)].

Definition rickRollTimer (s : State) : Timer :=
  ([(1000%N, NoWrite)] ++
  map (fun ip => (400%N, addProgressMessage (fst ip * 100 / List.length rickRollPaths) (snd ip)))
      (combine (seq 0 (List.length rickRollPaths)) rickRollPaths) ++
  [(400%N, NoWrite);
   (1000%N, AppendLast
            [msg error "rm: 無法刪除 '/var/lib/dpkg': 權限不足";
             msg error "rm: 無法移除 '/etc/passwd': 操作不允許";
             msg error "rm: 無法刪除 '/boot': 設備或資源忙碌中"]);
   (1500%N, AppendLast [msg system "已刪除 784 個檔案 (佔用 1.2GB)"]);
   (1500%N, AppendLast [msg system "已刪除 46 個目錄"]);
   (1500%N, AppendLast
            [msg success "操作已完成，用時 5.72 秒";
             msg system "已跳過 3 個無法訪問的檔案"]);
   (4000%N, Reveal);
   (2000%N, ShowRickRoll);
   (12000%N, Recover (userName s) (hostName s))])%list.

Definition rickRoll (s : State) (w : World) : Outcome :=
  done (schedule (rickRollTimer s) w)
    [msg system ("[" ++ userName s ++ "@" ++ hostName s ++ " " ++ currentDirectory s
                 ++ "]# rm -rf /*");
     msg success "正在刪除檔案...請稍候"].

Definition langTimer (l : Language) : Timer :=
  match l with
  | en_US =>
      [(0%N, SetOutput
             [mkEntry ""
                [msg system "Language changed to English";
                 msg info ("Type " ++ dq ++ "help" ++ dq ++ " to see available commands.")]])]
  | zh_TW =>
      [(0%N, SetOutput
             [mkEntry ""
                [msg system "語言已切換為中文";
                 msg info ("輸入 " ++ dq ++ "help" ++ dq ++ " 查看可用命令")]])]
  end.

(** *** Handlers of the single commands *)

Definition restrictedHelp (s : State) : list CommandResult :=
  match language s with
  | zh_TW =>
    [msg system "=== 基本命令列表 ===";
     msg success "help        - 顯示此幫助信息";
     msg success "ls          - 列出當前目錄內容";
     msg success "cd [目錄]    - 切換目錄";
     msg success "cat [檔案]   - 顯示檔案內容";
     msg success "pwd         - 顯示當前路徑";
     msg success "whoami      - 顯示當前使用者";
     msg success "date        - 顯示當前日期";
     msg success "clear       - 清除畫面";
     msg success "echo [文字]  - 顯示文字";
     msg success "uname       - 顯示系統資訊";
     msg success "lang        - 切換語言 (中文/英文)";
     msg success "deviser start - 啟動 deviser 服務";
     msg success "exit        - 離開終端機";
     msg info ("提示: 輸入 " ++ dq ++ "deviser start" ++ dq ++ " 以啟動 deviser 服務以顯示更多內容")]
  | en_US =>
    [msg system "=== Basic Command List ===";
     msg success "help        - Show this help message";
     msg success "ls          - List directory contents";
     msg success "cd [dir]    - Change directory";
     msg success "cat [file]  - Show file contents";
     msg success "pwd         - Print working directory";
     msg success "whoami      - Show current user";
     msg success "date        - Show current date";
     msg success "clear       - Clear screen";
     msg success "echo [text] - Display text";
     msg success "uname       - Display system information";
     msg success "lang        - Change language (Chinese/English)";
     msg success "deviser start - Start deviser service";
     msg success "exit        - Exit terminal";
     msg info ("Tip: Type " ++ dq ++ "deviser start" ++ dq ++ " to start deviser service and see more content")]
  end.

Definition unknownRestricted (s : State) (command : string) : list CommandResult :=
  [msg error (tr s ("未知的命令: " ++ command) ("Unknown command: " ++ command));
   msg info (tr s ("提示: 輸入 " ++ dq ++ "deviser start" ++ dq ++ " 以啟動 deviser 服務")
                  ("Tip: Type " ++ dq ++ "deviser start" ++ dq ++ " to start deviser service"));
   msg info (tr s ("輸入 " ++ dq ++ "help" ++ dq ++ " 查看基本命令列表")
                  ("Type " ++ dq ++ "help" ++ dq ++ " to see basic command list"))].

Definition deviserStart (s : State) (w : World) : Outcome :=
  if isFullFeatured s then done w [msg info "deviser 服務已經啟動！"]
  else
    let w := upd (setIsFullFeatured true) w in
    let w := upd (setUserName "deviser") w in
    let w := upd (setIsBooting true) w in
    let w := upd (setBootStage 0) w in
    (* [runBootSequence] up to its first [await] *)
    let w := upd (fun p =>
                    setOutputHistory
                      (outputHistory p ++
                       [mkEntry "deviser start" [msg system "正在啟動 deviser 服務..."]])%list
                      p) w in
    done (schedule (bootTimer s) w) [].

Definition cmd_help (s : State) : list CommandResult :=
    [msg system (getText s "help_title" []);
     msg success (getText s "help_ls" []);
     msg success (getText s "help_cd" []);
     msg success (getText s "help_cat" []);
     msg success (getText s "help_pwd" []);
     msg success (getText s "help_whoami" []);
     msg success (getText s "help_date" []);
     msg success (getText s "help_man" []);
     msg success (getText s "help_echo" []);
     msg success (getText s "help_uname" []);
     msg success (getText s "help_find" []);
     msg success (getText s "help_mkdir" []);
     msg success (getText s "help_github" []);
     msg success (getText s "help_theme" []);
     msg success (getText s "help_lang" []);
     msg success (getText s "help_clear" []);
     msg success (getText s "help_exit" []);
     msg info (getText s "help_shortcuts" []);
     msg info (getText s "help_ctrl_c" []);
     msg info (getText s "help_ctrl_l" []);
     msg info (getText s "help_ctrl_d" []);
     msg info (getText s "help_ctrl_u" []);
     msg info (getText s "help_tab" []);
     msg info (getText s "help_arrows" [])].

(** [about], [skills], [projects] and [contact]. *)
Definition cmd_section (s : State) (name titleZh titleEn example : string)
  : list CommandResult :=
  if negb (currentDirectory s =? "~/" ++ name) then
    [msg info (getText s "nav_switch_to_dir" [name]);
     msg info (getText s "nav_use_cd" [name])]
  else
    [msg info ("====== " ++ tr s titleZh titleEn ++ " ======");
     msg success (getText s "nav_use_ls" []);
     msg success (getText s "nav_example" [example])].

Definition cmd_github : list CommandResult :=
    [msg info "====== GitHub 資訊 ======";
     msg success "用戶名: Thetoicxdude";
     msg success "個人檔案: https://github.com/Thetoicxdude";
     msg success "儲存庫數量: 11";
     msg success "成就: Pull Shark";
     msg success "主要專案:";
     msg success "- Ai-transformer: AI 模型研究";
     msg success "- crowdfunding-platform: 眾籌平台";
     msg success "- Implicit-sentiment-analysis-model: 情感分析";
     msg success "- Zu-discord-bot: Discord 機器人";
     msg system ("可以使用 " ++ dq ++ "cd .github" ++ dq ++ " 和 " ++ dq ++ "cat profile.txt" ++ dq ++ " 查看更多資訊")].

Definition lsHelp (s : State) : list CommandResult :=
    [msg system (tr s "LS(1)                   用戶命令                   LS(1)" "LS(1)                 User Commands                 LS(1)");
     msg system (tr s "名稱" "NAME");
     msg success (tr s "       ls - 列出目錄內容" "       ls - list directory contents");
     msg system (tr s "簡介" "SYNOPSIS");
     msg success (tr s "       ls [選項]... [檔案]..." "       ls [OPTION]... [FILE]...");
     msg system (tr s "描述" "DESCRIPTION");
     msg success (tr s "       列出指定檔案的資訊（預設為目前的目錄）。" "       List information about the FILEs (the current directory by default).");
     msg success (tr s "       如果沒有選項，則會以字母順序排列項目。" "       Sort entries alphabetically if none of -cftuvSUX nor --sort is specified.");
     msg system (tr s "選項" "OPTIONS");
     msg success (tr s "       -a, --all" "       -a, --all");
     msg success (tr s "              不隱藏以 . 開頭的項目" "              do not ignore entries starting with .");
     msg success (tr s "       -l     使用較長格式列出" "       -l     use a long listing format");
     msg info (tr s "按 q 離開" "Press q to exit")].

(** [currentDirContent[a].type === 'directory']; every listed name is a key
    of the directory, so the lookup cannot miss. *)
Definition isDirectoryIn (o : Object) (a : string) : bool :=
  match own o a with
  | Some i => is_directory i
  | None => false
  end.

(** The comparison handed to [items.sort]. *)
Definition lsCompare (o : Object) (a b : string) : Z :=
  let aIsDir := isDirectoryIn o a in
  let bIsDir := isDirectoryIn o b in
  if aIsDir && negb bIsDir then (-1)%Z
  else if negb aIsDir && bIsDir then 1%Z
  else localeCompare a b.

Definition showHidden (args : list string) : bool :=
  arr_includes args "-a" || arr_includes args "-la" || arr_includes args "-al".

Definition showDetails (args : list string) : bool :=
  arr_includes args "-l" || arr_includes args "-la" || arr_includes args "-al".

(** The names [ls] keeps, before they are sorted. *)
Definition lsItems (s : State) (args : list string) (o : Object) : list string :=
  let items := keys o in
  let items :=
    if negb (showHidden args) then filter (fun item => negb (startsWith item ".")) items
    else items in
  if negb (isFullFeatured s) then
    filter (fun item => negb (arr_includes hiddenFolders item)) items
  else items.

Definition lsNode (details : bool) (o : Object) (item : string) : Node :=
  match own o item with
  | Some fsItem =>
      if details then
        LongEntry item (permissions (item_meta fsItem)) (owner (item_meta fsItem))
          (group (item_meta fsItem)) (is_directory fsItem)
      else ShortEntry item (is_directory fsItem)
  | None => ShortEntry item false
  end.

Definition cmd_ls (s : State) (args : list string) (w : World) : list CommandResult :=
  match getCurrentDirectoryContent (fs w) s with
  | None => [msg error ("無法獲取目錄內容: " ++ currentDirectory s)]
  | Some currentDirContent =>
      if arr_includes args "--help" then lsHelp s
      else
        match lsItems s args currentDirContent with
        | [] => [msg success ""]
        | items =>
            [mkResult success
               (Fragment (map (lsNode (showDetails args) currentDirContent)
                              (sort (lsCompare currentDirContent) items)))]
        end
  end.

Definition cmd_pwd (s : State) : list CommandResult :=
  [msg success
     (if currentDirectory s =? "~" then "/home/" ++ userName s
      else "/home/" ++ userName s ++ substring_from 1 (currentDirectory s))].

Definition noSuchDirectory (s : State) (target : string) : list CommandResult :=
  [msg error (tr s ("cd: " ++ target ++ ": 沒有此目錄")
                   ("cd: " ++ target ++ ": No such directory"))].

Definition cmd_cd (s : State) (args : list string) (w : World) : Outcome :=
  match args with
  | [] => done (upd (setCurrentDirectory "~") w) []
  | target :: _ =>
      if negb (isFullFeatured s) && arr_includes restrictedFolders target then
        done w (noSuchDirectory s target)
      else if target =? ".." then
        if currentDirectory s =? "~" then done w []
        else
          let parts := removelast (split "/" (currentDirectory s)) in
          match parts with
          | ["~"] => done (upd (setCurrentDirectory "~") w) []
          | _ => done (upd (setCurrentDirectory (join "/" parts)) w) []
          end
      else if target =? "-" then
        match previousDirectory s with
        | Some previous =>
            if truthy previous then
              let w := upd (setCurrentDirectory previous) w in
              let w := upd (setPreviousDirectory (Some (currentDirectory s))) w in
              done w [msg system previous]
            else done w [msg error (tr s "cd: 沒有先前的目錄" "cd: no previous directory")]
        | None => done w [msg error (tr s "cd: 沒有先前的目錄" "cd: no previous directory")]
        end
      else
        let newPath :=
          if startsWith target "/" then (if target =? "/" then "~" else "~" ++ target)
          else if currentDirectory s =? "~" then "~/" ++ target
          else currentDirectory s ++ "/" ++ target in
        match getDirectoryFromPath (fs w) newPath with
        | Throw e => (w, Throw e)
        | Return None => done w (noSuchDirectory s target)
        | Return (Some _) =>
            let w := upd (setPreviousDirectory (Some (currentDirectory s))) w in
            let w := upd (setCurrentDirectory newPath) w in
            done w []
        end
  end.

Definition noSuchFile (s : State) (file : string) : list CommandResult :=
  [msg error (tr s ("cat: " ++ file ++ ": 檔案不存在") ("cat: " ++ file ++ ": No such file"))].

Definition cmd_cat (s : State) (args : list string) (w : World) : Outcome :=
  match args with
  | [] => done w [msg error (tr s "cat: 缺少檔案名稱" "cat: missing file name")]
  | file :: _ =>
      if negb (isFullFeatured s) && includes file "/"
         && arr_includes restrictedFolders (hd "" (split "/" file))
      then done w (noSuchFile s file)
      else if file =? "resume.pdf" then
        done (schedule (resumeTimer s) w)
          [msg system (tr s "準備下載 resume.pdf..." "Preparing to download resume.pdf...");
           msg system "[          ] 0%"]
      else
        match getFileContent (fs w) s file with
        | Some fileContent => done w (map (fun line => msg success line) fileContent)
        | None => done w (noSuchFile s file)
        end
  end.

Definition cmd_man (s : State) (args : list string) : list CommandResult :=
  match args with
  | [] => [msg error "你必須指定一個手冊頁。"]
  | page :: _ =>
      if page =? "ls" then
    [msg info "LS(1)                   用戶命令                   LS(1)";
     msg system "名稱";
     msg success "       ls - 列出目錄內容";
     msg system "簡介";
     msg success "       ls [選項]... [檔案]...";
     msg system "描述";
     msg success "       列出指定檔案的資訊（預設為目前的目錄）。";
     msg success "       如果沒有選項，則會以字母順序排列項目。";
     msg system "選項";
     msg success "       -a, --all";
     msg success "              不隱藏以 . 開頭的項目";
     msg success "       -l     使用較長格式列出";
     msg info "按 q 離開"]
      else if page =? "cd" then
    [msg info (tr s "CD(1)                    用戶命令                   CD(1)" "CD(1)                 User Commands                 CD(1)");
     msg system (tr s "名稱" "NAME");
     msg success (tr s "       cd - 變更目錄" "       cd - change directory");
     msg system (tr s "簡介" "SYNOPSIS");
     msg success (tr s "       cd [目錄]" "       cd [directory]");
     msg system (tr s "描述" "DESCRIPTION");
     msg success (tr s "       變更當前工作目錄為指定的目錄。" "       Change the current working directory to the specified directory.");
     msg success (tr s "       預設的目錄是 HOME shell 變數的值。" "       The default directory is the value of the HOME shell variable.");
     msg info (tr s "按 q 離開" "Press q to exit")]
      else [msg error ("沒有 " ++ page ++ " 的手冊頁。")]
  end.

Definition cmd_rm (s : State) (args : list string) (w : World) : Outcome :=
  if arr_includes args "-rf" || arr_includes args "-fr"
     || (arr_includes args "-r" && arr_includes args "-f")
     || (arr_includes args "-f" && arr_includes args "-r")
  then rickRoll s w
  else done w [msg error "rm: 危險操作已被系統攔截，請小心使用刪除命令！"].

Definition cmd_sudo (s : State) (args : list string) (w : World) : Outcome :=
  match args with
  | [] => done w [msg error "sudo: 缺少要執行的命令"]
  | _ =>
      let w := upd (setSudoCommand (join " " args)) w in
      let w := upd (setIsSudoPrompt true) w in
      done w [msg system ("[sudo] " ++ userName s ++ " 的密碼:")]
  end.

Definition cmd_id (s : State) : list CommandResult :=
  [msg success
     ("uid=" ++ (if isRoot s then "0" else "1000") ++ "("
      ++ (if isRoot s then "root" else userName s) ++ ") gid=1000("
      ++ hd "undefined" (groups s) ++ ") 群組=" ++ join "," (groups s))].

Definition cmd_chmod (s : State) (args : list string) (w : World) : Outcome :=
  match args with
  | mode :: targetPath :: _ =>
      match getFileSystemItem (fs w) s targetPath with
      | Throw e => (w, Throw e)
      | Return None => done w [msg error ("chmod: " ++ targetPath ++ ": 檔案不存在")]
      | Return (Some chmodTarget) =>
          let ownedByUser :=
            match chmodTarget with
            | FoundItem i => owner (item_meta i) =? userName s
            | FoundOther => false
            end in
          if negb (isRoot s) && negb ownedByUser then
            done w [msg error ("chmod: " ++ targetPath ++ ": 權限不足")]
          else done w [msg success ("已更改 '" ++ targetPath ++ "' 的權限")]
      end
  | _ => done w [msg error "chmod: 缺少操作數"]
  end.

Definition cmd_chown (s : State) (args : list string) (w : World) : Outcome :=
  match args with
  | newOwner :: chownPath :: _ =>
      if negb (isRoot s) then done w [msg error "chown: 需要系統管理員權限"]
      else
        match getFileSystemItem (fs w) s chownPath with
        | Throw e => (w, Throw e)
        | Return None => done w [msg error ("chown: " ++ chownPath ++ ": 檔案不存在")]
        | Return (Some _) =>
            done w [msg success ("已更改 '" ++ chownPath ++ "' 的所有者為 '" ++ newOwner ++ "'")]
        end
  | _ => done w [msg error "chown: 缺少操作數"]
  end.

Definition cmd_touch (s : State) (args : list string) (w : World) : Outcome :=
  match args with
  | [] => done w [msg error "touch: 缺少檔案操作數"]
  | touchPath :: _ =>
      match getCurrentDirectoryContent (fs w) s with
      | None => done w [msg error ("touch: 無法存取 '" ++ currentDirectory s ++ "'")]
      | Some _ =>
          if isRoot s then done w [msg success ("已創建 '" ++ touchPath ++ "'")]
          else
            match getDirectoryFromPath (fs w) (currentDirectory s) with
            | Throw e => (w, Throw e)
            | Return d =>
                match checkPermissionOf s d write with
                | Throw e => (w, Throw e)
                | Return false => done w [msg error ("touch: " ++ touchPath ++ ": 權限不足")]
                | Return true => done w [msg success ("已創建 '" ++ touchPath ++ "'")]
                end
            end
      end
  end.

Definition cmd_lang (s : State) (args : list string) (w : World) : Outcome :=
  match args with
  | [] =>
      done w
        [msg info (tr s "目前語言：繁體中文" "Current language: English");
         msg info (tr s "用法: lang [zh|en]" "Usage: lang [zh|en]")]
  | a :: _ =>
      if toLowerCase a =? "en" then
        done (schedule (langTimer en_US) (upd (setLanguage en_US) w))
          [msg system "Language changed to English"]
      else if toLowerCase a =? "zh" then
        done (schedule (langTimer zh_TW) (upd (setLanguage zh_TW) w))
          [msg system "語言已切換為中文"]
      else
        done w
          [msg error (tr s ("無效的選項 -- '" ++ a ++ "'") ("Invalid option -- '" ++ a ++ "'"));
           msg info (tr s "用法: lang [zh|en]" "Usage: lang [zh|en]")]
  end.

(** The [default] case of the switch. *)
Definition cmd_default (s : State) (cmd command : string) (args : list string)
  : list CommandResult :=
  if includes cmd "-" then
    [msg error (command ++ ": " ++ getText s "err_invalid_option" [] ++ " -- '"
                ++ join " " args ++ "'")]
  else [msg error (command ++ ": " ++ getText s "err_cmd_not_found" [])].

(** The names the switch has a case for.  The second [mkdir] case of the
    source can never be taken: the first one returns. *)
Definition switchCases : list string :=
  ["help"; "about"; "skills"; "projects"; "contact"; "github"; "theme"; "clear"; "ls";
   "pwd"; "whoami"; "date"; "cd"; "cat"; "mkdir"; "find"; "man"; "echo"; "uname"; "exit";
   "logout"; "rm"; "sudo"; "id"; "chmod"; "chown"; "touch"; "lang"].

Definition switch (now : Clock) (s : State) (w : World) (cmd command : string)
  (args : list string) : Outcome :=
  let c := toLowerCase command in
  if c =? "help" then done w (cmd_help s)
  else if c =? "about" then done w (cmd_section s "about" "關於我" "About Me" "cat bio.txt")
  else if c =? "skills" then done w (cmd_section s "skills" "技能" "Skills" "cat frontend.txt")
  else if c =? "projects" then
    done w (cmd_section s "projects" "專案列表" "Project List" "cd terminal-portfolio")
  else if c =? "contact" then
    done w (cmd_section s "contact" "聯絡方式" "Contact Information" "cat info.txt")
  else if c =? "github" then done w cmd_github
  else if c =? "theme" then done (toggleTheme w) [msg system (getText s "sys_theme_changed" [])]
  else if c =? "clear" then done (schedule [(0%N, SetOutput [])] w) []
  else if c =? "ls" then done w (cmd_ls s args w)
  else if c =? "pwd" then done w (cmd_pwd s)
  else if c =? "whoami" then done w [msg success (if isRoot s then "root" else userName s)]
  else if c =? "date" then done w [msg success (toLocaleString now)]
  else if c =? "cd" then cmd_cd s args w
  else if c =? "cat" then cmd_cat s args w
  else if c =? "mkdir" then done w [msg error "mkdir: 權限不足，無法建立目錄"]
  else if c =? "find" then
    match args with
    | [] => done w [msg error "find: 缺少路徑和表達式"]
    | _ => done w [msg error "目前尚未支援 find 命令的完整功能"]
    end
  else if c =? "man" then done w (cmd_man s args)
  else if c =? "echo" then
    match args with
    | [] => done w [msg success ""]
    | _ => done w [msg success (join " " args)]
    end
  else if c =? "uname" then
    if arr_includes args "-a" then
      done w [msg success ("DeviOS 1.0.0 #1 SMP " ++ toLocaleString now
                           ++ " x86_64 Personal Website Terminal")]
    else done w [msg success "DeviOS"]
  else if (c =? "exit") || (c =? "logout") then
    done w [msg system (getText s "sys_logout" []); msg system (getText s "sys_goodbye" [])]
  else if c =? "rm" then cmd_rm s args w
  else if c =? "sudo" then cmd_sudo s args w
  else if c =? "id" then done w (cmd_id s)
  else if c =? "chmod" then cmd_chmod s args w
  else if c =? "chown" then cmd_chown s args w
  else if c =? "touch" then cmd_touch s args w
  else if c =? "lang" then cmd_lang s args w
  else done w (cmd_default s cmd command args).

(** [processCommand] once no password is awaited. *)
Definition dispatch (now : Clock) (s : State) (w : World) (cmd : string) : Outcome :=
  if includes cmd "|" then done w [msg error "目前尚未支援管道功能 (|)"]
  else if includes cmd ">" || includes cmd ">>" then
    done w [msg error "目前尚未支援重定向功能 (> 或 >>)"]
  else if startsWith cmd "rm -rf" || startsWith cmd "rm -fr" then rickRoll s w
  else
    let command := hd "" (split " " cmd) in
    let args := tl (split " " cmd) in
    if (toLowerCase command =? "deviser")
       && match args with a :: _ => toLowerCase a =? "start" | [] => false end
    then deviserStart s w
    else if negb (isFullFeatured s)
            && negb (arr_includes basicCommands (toLowerCase command))
            && negb (toLowerCase command =? "")
    then done w (unknownRestricted s command)
    else if negb (isFullFeatured s) && (toLowerCase command =? "help")
    then done w (restrictedHelp s)
    else switch now s w cmd command args.

(** [processCommand]: [s] holds the cells of the render the handler was
    created in, [w] the pending world.  [stack] is the depth of calls left
    before the host gives up with a [RangeError]. *)
Fixpoint processCommand (now : Clock) (stack : nat) (s : State) (w : World) (cmd : string)
  {struct stack} : Outcome :=
  match stack with
  | O => (w, Throw RangeError)
  | S stack' =>
      if isSudoPrompt s then
        let w := upd (setIsSudoPrompt false) w in
        if cmd =? "password" then
          let w := upd (setIsRoot true) w in
          let originalCmd := sudoCommand s in
          let w := upd (setSudoCommand "") w in
          let (w', r) := processCommand now stack' s w originalCmd in
          (w', bind r (fun rs => Return (msg system "" :: rs)))
        else
          let w := upd (fun p => setPasswordAttempts (passwordAttempts p + 1) p) w in
          if (2 <=? passwordAttempts s)%nat then
            let w := upd (setPasswordAttempts 0) w in
            let w := upd (setSudoCommand "") w in
            done w [msg error "sudo: 3 次錯誤的密碼嘗試"]
          else done w [msg error "sudo: 認證失敗"]
      else dispatch now s w cmd
  end.

(** *** Events *)

(** [handleCommandSubmit]: what the form does with the line held in [input].
    A throw inside [processCommand] ends the handler there; the writes
    queued before it stay queued. *)
Definition handleCommandSubmit (now : Clock) (stack : nat) (w : World)
  : World * Completion unit :=
  let s := cells w in
  let displayCmd := if isSudoPrompt s then "" else input s in
  if negb (truthy (trim (input s))) then
    (upd (fun p => setOutputHistory (outputHistory p ++ [mkEntry "" []])%list p) w, Return tt)
  else
    let w :=
      if negb (isSudoPrompt s)
      then upd (fun p => setCommandHistory (commandHistory p ++ [input s])%list p) w
      else w in
    let w := upd (setHistoryIndex (-1)%Z) w in
    match processCommand now stack s w (trim (input s)) with
    | (w, Throw e) => (w, Throw e)
    | (w, Return result) =>
        let w := upd (fun p =>
                        setOutputHistory
                          (outputHistory p ++ [mkEntry displayCmd result])%list p) w in
        let w := upd (setInput "") w in
        let w := upd (setCursorPosition 0) w in
        let w :=
          if toLowerCase (trim (input s)) =? "clear" then schedule [(50%N, NoWrite)] w
          else w in
        (w, Return tt)
    end.

(** Typing a line and pressing return. *)
Definition submit (now : Clock) (stack : nat) (line : string) (w : World) : World :=
  fst (handleCommandSubmit now stack (upd (setInput line) w)).

(** The records the call [execute(line)] of the specification returns in a
    render whose cells are [s]. *)
Definition executeLine (now : Clock) (stack : nat) (f : FileSystem) (s : State) (line : string)
  : Outcome :=
  processCommand now stack s (mkWorld f s [] 0) line.

(** [lastOutput[lastIndex].result = f(...)] when there is a last entry. *)
Definition onLast (f : list CommandResult -> list CommandResult) (h : list OutputEntry)
  : list OutputEntry :=
  match rev h with
  | [] => h
  | e :: before => (rev before ++ [mkEntry (command e) (f (result e))])%list
  end.

(** [now.toISOString().replace('T', ' ').substr(0, 19)] *)
Definition timeStr (now : Clock) : string :=
  String.substring 0 19 (replace (toISOString now) "T" " ").

Definition reveal (now : Clock) : list CommandResult :=
  [msg system "-------------------------------";
   msg system ("[" ++ timeStr now ++ "] kernel: [警告] 檢測到潛在的系統破壞嘗試");
   msg error "警告: 系統檢測到危險操作！";
   msg warning "systemd-guard[1234]: 防護機制已啟動，進程ID 5678";
   msg system ("[" ++ timeStr now ++ "] kernel: 正在還原系統檔案...");
   msg error "systemd[1]: 錯誤：已阻止刪除系統關鍵檔案";
   msg system "bash: 正在載入防護措施...";
   msg warning "安全模組啟動：你已被 Rick Roll 了！"].

Definition recovered (now : Clock) (user host : string) : OutputEntry :=
  mkEntry ""
    [msg system ("[防護系統] " ++ user ++ "@" ++ host ++ ": 快照還原完成。");
     msg info ("所有檔案已從時間點 " ++ toLocaleString now ++ " 還原。");
     msg warning "下次請小心使用危險命令！系統管理員已被通知。";
     msg success "防護模組：哈哈，你的檔案沒有真的被刪除。感謝使用 DeviOS 安全防護！"].

(** A scheduled callback fires. *)
Definition runTask (now : Clock) (t : Task) (w : World) : World :=
  match t with
  | AppendLast rs =>
      upd (fun p => setOutputHistory (onLast (fun r => (r ++ rs)%list) (outputHistory p)) p) w
  | ReplaceLast rs =>
      upd (fun p => setOutputHistory (onLast (fun _ => rs) (outputHistory p)) p) w
  | SetOutput h => upd (setOutputHistory h) w
  | BootDone => upd (setIsBooting false) (upd (setOutputHistory []) w)
  | Reveal =>
      upd (fun p => setOutputHistory (onLast (fun r => (r ++ reveal now)%list) (outputHistory p)) p) w
  | ShowRickRoll => upd (setIsRickRolling true) w
  | Recover user host =>
      upd (fun p => setOutputHistory (outputHistory p ++ [recovered now user host])%list p)
        (upd (setIsRickRolling false) w)
  | NoWrite => w
  end.

(** The head of the [k]-th timer fires and leaves it. *)
Definition fire (now : Clock) (k : nat) (w : World) : World :=
  match nth_error (timers w) k with
  | Some ((_, t) :: later) =>
      runTask now t
        (mkWorld (fs w) (cells w)
           (firstn k (timers w) ++ later :: skipn (S k) (timers w))%list
           (themeToggles w))
  | _ => w
  end.

(** The effect that animates the start-up screen while [isBooting] holds:
    it advances [bootStage] and, past the last stage, shows the welcome
    text. *)
Definition bootEffect (now : Clock) (w : World) : World :=
  let s := cells w in
  if isBooting s then
    if (bootStage s <? 4 + 7 + List.length bootMessages)%nat then
      upd (fun p => setBootStage (bootStage p + 1) p) w
    else
      upd (setOutputHistory
             [mkEntry ""
                [msg system (getText s "sys_welcome" []);
                 msg success (getText s "sys_last_login" [] ++ toLocaleString now);
                 msg system (getText s "sys_os_version" []);
                 msg info (getText s "sys_enter_help" [])]])
        (upd (setIsBooting false) w)
  else w.

(** What the session can do next: a line is submitted, a pending callback
    fires, or the start-up effect runs.  The other key presses (browsing the
    history, completion, the control shortcuts) write the input line, the
    cursor, the history index and the output history only, and are left
    out. *)
Inductive Event :=
| Submit (now : Clock) (stack : nat) (line : string)
| Fire (now : Clock) (k : nat)
| Effect (now : Clock).

Definition perform (e : Event) (w : World) : World :=
  match e with
  | Submit now stack line => submit now stack line w
  | Fire now k => fire now k w
  | Effect now => bootEffect now w
  end.

(** The world after a sequence of events, the first of the list first, all
    handled on the tree of [w]; the renders between them, which build the
    tree anew, are the [Rendered] steps of [session]. *)
Definition run (events : list Event) (w : World) : World :=
  fold_left (fun w e => perform e w) events w.

End Terminal.

(** ** Vocabulary of the properties *)

(** The permission rule in the words of the specification: which triplet the
    actor falls in, first match first, and the offset of the kind inside
    it. *)
Definition selectTriplet (nodeOwner nodeGroup actor : string) (actorGroups : list string)
  : nat :=
  if nodeOwner =? actor then 0
  else if arr_includes actorGroups nodeGroup then 1
  else 2.

Definition offsetOf (kind : Access) : nat :=
  match kind with
  | read => 0
  | write => 1
  | execute => 2
  end.

Definition allows (perms nodeOwner nodeGroup actor : string) (actorGroups : list string)
  (privileged : bool) (kind : Access) : bool :=
  if privileged then true
  else
    match String.get (3 * selectTriplet nodeOwner nodeGroup actor actorGroups + offsetOf kind)
            perms with
    | Some c => negb (Ascii.eqb c "-")
    | None => true
    end.

Definition nodeName (n : Node) : string :=
  match n with
  | LongEntry i _ _ _ _ => i
  | ShortEntry i _ => i
  end.

Definition nodeIsDirectory (n : Node) : bool :=
  match n with
  | LongEntry _ _ _ _ d => d
  | ShortEntry _ d => d
  end.

(** The names of the listing a command returned; none when it returned
    something else. *)
Definition listedNames (c : Completion (list CommandResult)) : list string :=
  match c with
  | Return [r] =>
      match content r with
      | Fragment entries => map nodeName entries
      | Text _ => []
      end
  | _ => []
  end.

(** Records whose content is a string. *)
Definition text_only (rs : list CommandResult) : Prop :=
  Forall (fun r => exists t, content r = Text t) rs.

(** The service has been started. *)
Definition unlocked (w : World) : Prop := isFullFeatured (cells w) = true.

Definition authFailure : CommandResult := msg error "sudo: 認證失敗".

Definition lockout : CommandResult := msg error "sudo: 3 次錯誤的密碼嘗試".

(** The line is the command that starts the service. *)
Definition startsService (cmd : string) : bool :=
  (toLowerCase (hd "" (split " " cmd)) =? "deviser")
  && match tl (split " " cmd) with
     | a :: _ => toLowerCase a =? "start"
     | [] => false
     end.

(** Some word of the line starts with a hyphen. *)
Definition hasOptionToken (cmd : string) : bool :=
  existsb (fun t => startsWith t "-") (split " " cmd).

(** The completion returns an error record whose text holds [text]. *)
Definition reportsError (r : Completion (list CommandResult)) (text : string) : Prop :=
  exists rs c, r = Return rs /\ In (msg error c) rs /\ includes c text = true.

(** [a] may stand before [b] under a comparison function. *)
Definition precedes {A : Type} (compareFn : A -> A -> Z) (a b : A) : Prop :=
  (compareFn a b <= 0)%Z.

Section Vocabulary.

Variable localeCompare : string -> string -> Z.

(** Names in the order of the host's collation. *)
Definition collates (a b : string) : Prop := (localeCompare a b <= 0)%Z.

(** Directories first, each group in collation order. *)
Definition ordered_listing (entries : list Node) : Prop :=
  exists dirs files,
    entries = (dirs ++ files)%list /\
    Forall (fun n => nodeIsDirectory n = true) dirs /\
    Forall (fun n => nodeIsDirectory n = false) files /\
    StronglySorted (fun a b => collates (nodeName a) (nodeName b)) dirs /\
    StronglySorted (fun a b => collates (nodeName a) (nodeName b)) files.

(** The entries [ls] renders for the directory content [o]. *)
Definition listingOf (s : State) (args : list string) (o : Object) : list Node :=
  map (lsNode (showDetails args) o) (sort (lsCompare localeCompare o) (lsItems s args o)).

(** A handler's records are strings, or the one listing of the current
    directory. *)
Definition text_or_listing (s : State) (w : World) (args : list string)
  (rs : list CommandResult) : Prop :=
  text_only rs \/
  exists o, getCurrentDirectoryContent (fs w) s = Some o /\
            rs = [mkResult success (Fragment (listingOf s args o))].

End Vocabulary.

(** ** A concrete host

    A comparison by code units, a clock reading and the worlds the examples
    start from. *)

Definition byteCompare (a b : string) : Z :=
  match String.compare a b with
  | Lt => (-1)%Z
  | Eq => 0%Z
  | Gt => 1%Z
  end.

Definition sampleClock : Clock := mkClock "2025/1/1 12:00:00" "2025-01-01T12:00:00.000Z".

Definition sample (line : string) : Event := Submit sampleClock 8 line.

(** The freshly mounted component. *)
Definition mounted : World := mkWorld (fileSystem 0%Z) initialState [] 0.

(** The session after the service was started. *)
Definition started : World := run byteCompare [sample "deviser start"] mounted.

(** The session awaiting the secret for [sudo ls]. *)
Definition prompted : World :=
  run byteCompare [sample "deviser start"; sample "sudo ls"] mounted.

(** The session awaiting the secret for a [chown]. *)
Definition awaiting : World :=
  run byteCompare [sample "deviser start"; sample "sudo chown root ~/resume.pdf"] mounted.

(** The session awaiting the secret for the command [password]. *)
Definition looping : World :=
  run byteCompare [sample "deviser start"; sample "sudo password"] mounted.

(** The started session inside [~/about]. *)
Definition inAbout : World :=
  run byteCompare [sample "deviser start"; sample "cd about"] mounted.

(** The started session switched to English. *)
Definition english : World :=
  run byteCompare [sample "deviser start"; sample "lang en"] mounted.

(** ** The claims as the specification words them *)

(** The specification's reading of a mismatch: below three attempts the
    session keeps awaiting the secret. *)
Definition mismatch_as_specified (f : FileSystem) (s : State) (line : string) : Prop :=
  isSudoPrompt s = true ->
  line <> "password" ->
  let after := executeLine byteCompare sampleClock 8 f s line in
  if (3 <=? passwordAttempts s + 1)%nat then
    isSudoPrompt (cells (fst after)) = false /\
    sudoCommand (cells (fst after)) = "" /\
    snd after = Return [lockout]
  else
    passwordAttempts (cells (fst after)) = passwordAttempts s + 1 /\
    isSudoPrompt (cells (fst after)) = true /\
    snd after = Return [authFailure].

(** The specification's reading of an unknown command: an argument that
    starts with a hyphen decides between the two errors. *)
Definition unknown_command_as_specified (s : State) (cmd : string) : Prop :=
  arr_includes switchCases (toLowerCase (hd "" (split " " cmd))) = false ->
  reportsError (snd (executeLine byteCompare sampleClock 8 (fileSystem 0%Z) s cmd))
    (if hasOptionToken cmd then getText s "err_invalid_option" []
     else getText s "err_cmd_not_found" []).


(** ** Vocabulary of the further properties *)

(** The character [c] occurs in [s]. *)
Fixpoint has_char (c : ascii) (s : string) : bool :=
  match s with
  | EmptyString => false
  | String d s' => Ascii.eqb c d || has_char c s'
  end.

(** The path is the home sign or lies below it. *)
Definition rooted (p : string) : bool := (p =? "~") || startsWith p "~/".

(** The path names a directory of the tree, walked the way [ls] walks the
    current directory. *)
Definition isDirectoryPath (f : FileSystem) (p : string) : bool :=
  rooted p &&
  match walk_segments (top f) (split "/" p) with
  | Some _ => true
  | None => false
  end.

(** The current directory, and the previous one when there is one, name
    directories of the tree. *)
Definition directoriesResolve (f : FileSystem) (st : State) : Prop :=
  isDirectoryPath f (currentDirectory st) = true /\
  match previousDirectory st with
  | Some p => isDirectoryPath f p = true
  | None => True
  end.

(** Where [cd ..] goes, from the segments of the current directory without
    the last one. *)
Definition upTarget (parts : list string) : string :=
  match parts with
  | ["~"] => "~"
  | _ => join "/" parts
  end.

(** No password is awaited and no privilege is held before the service is
    started. *)
Definition privilegedIsStarted (p : State) : Prop :=
  isSudoPrompt p || isRoot p = true -> isFullFeatured p = true.

(** The started service runs under its own user name. *)
Definition startedAsDeviser (p : State) : Prop :=
  isFullFeatured p = true -> userName p = "deviser".

(** ** Keys *)

(** [s.length]: the UTF-16 code units of a text held as UTF-8 bytes.  A byte
    that continues a character counts nothing, the first byte of a character
    of four bytes counts the two units of its surrogate pair. *)
Definition code_units (c : ascii) : nat :=
  let n := nat_of_ascii c in
  if (n <? 128)%nat then 1
  else if (n <? 192)%nat then 0
  else if (n <? 240)%nat then 1
  else 2.

Fixpoint length16 (s : string) : nat :=
  match s with
  | EmptyString => 0
  | String c s' => code_units c + length16 s'
  end.

(** The fields of the keyboard event the handler reads. *)
Record KeyboardEvent := mkKeyboardEvent {
  key : string;
  ctrlKey : bool
}.

(** [a[i]] for a number [i]; [None] is [undefined]. *)
Definition at_index (a : list string) (i : Z) : option string :=
  if (i <? 0)%Z then None else nth_error a (Z.to_nat i).

(** [handleKeyDown], with the cells [s] of its render and the pending world
    [w].  [None] when the handler hands [undefined], which is no text, to
    [setInput].  The cursor is a natural number: [Math.max(0, cursorPosition - 1)]
    is the truncated subtraction. *)
Definition handleKeyDown (s : State) (e : KeyboardEvent) (w : World) : option World :=
  let len := Z.of_nat (List.length (commandHistory s)) in
  if key e =? "ArrowUp" then
    if (historyIndex s <? len - 1)%Z then
      let newIndex := (historyIndex s + 1)%Z in
      let w := upd (setHistoryIndex newIndex) w in
      match at_index (commandHistory s) (len - 1 - newIndex) with
      | Some line => Some (upd (setInput line) w)
      | None => None
      end
    else Some w
  else if key e =? "ArrowDown" then
    if (0 <? historyIndex s)%Z then
      let newIndex := (historyIndex s - 1)%Z in
      let w := upd (setHistoryIndex newIndex) w in
      match at_index (commandHistory s) (len - 1 - newIndex) with
      | Some line => Some (upd (setInput line) w)
      | None => None
      end
    else if (historyIndex s =? 0)%Z then
      Some (upd (setInput "") (upd (setHistoryIndex (-1)%Z) w))
    else Some w
  else if key e =? "ArrowLeft" then
    Some (upd (setCursorPosition (Nat.max 0 (cursorPosition s - 1))) w)
  else if key e =? "ArrowRight" then
    Some (upd (setCursorPosition (Nat.min (length16 (input s)) (cursorPosition s + 1))) w)
  else if key e =? "Home" then Some (upd (setCursorPosition 0) w)
  else if key e =? "End" then Some (upd (setCursorPosition (length16 (input s))) w)
  else if key e =? "Tab" then
    if startsWith (input s) "p" then Some (upd (setInput "projects") w)
    else if startsWith (input s) "a" then Some (upd (setInput "about") w)
    else if startsWith (input s) "s" then Some (upd (setInput "skills") w)
    else if startsWith (input s) "c" then Some (upd (setInput "contact") w)
    else if startsWith (input s) "t" then Some (upd (setInput "theme") w)
    else if startsWith (input s) "h" then Some (upd (setInput "help") w)
    else if startsWith (input s) "cl" then Some (upd (setInput "clear") w)
    else Some w
  else if ctrlKey e then
    if key e =? "c" then
      if truthy (input s) then
        let w := upd (fun p =>
                        setOutputHistory
                          (outputHistory p ++ [mkEntry (input s) [msg error "^C"]])%list p) w in
        let w := upd (setInput "") w in
        Some (upd (setCursorPosition 0) w)
      else
        Some (upd (fun p =>
                     setOutputHistory
                       (outputHistory p ++ [mkEntry "" [msg error "^C"]])%list p) w)
    else if key e =? "l" then Some (upd (setOutputHistory []) w)
    else if key e =? "d" then
      if negb (truthy (input s)) then
        let w := upd (fun p =>
                        setOutputHistory
                          (outputHistory p ++
                           [mkEntry ""
                              [msg system "logout";
                               msg system "感謝使用終端機風格個人網站！"]])%list p) w in
        Some (schedule
                [(2000%N, SetOutput
                          [mkEntry ""
                             [msg system "歡迎回到 Linux 風格的終端機個人網站!";
                              msg info ("輸入 " ++ dq ++ "help" ++ dq ++ " 查看可用命令。")]])]
                w)
      else Some w
    else if key e =? "u" then Some (upd (setCursorPosition 0) (upd (setInput "") w))
    else if key e =? "a" then Some (upd (setCursorPosition 0) w)
    else if key e =? "e" then Some (upd (setCursorPosition (length16 (input s))) w)
    else Some w
  else Some w.

(** [getPrompt]: both branches on the language build the same text. *)
Definition getPrompt (s : State) : string :=
  let user := if isRoot s then "root" else userName s in
  match language s with
  | en_US => user ++ "@" ++ hostName s ++ ":" ++ currentDirectory s ++ "$"
  | zh_TW => user ++ "@" ++ hostName s ++ ":" ++ currentDirectory s ++ "$"
  end.

(** What the user and the host can do next: an event of the session, a key
    pressed in the input line, or a change of its text. *)
Inductive Action :=
| Happens (e : Event)
| KeyDown (e : KeyboardEvent)
| Change (value : string).

Section Actions.

Variable localeCompare : string -> string -> Z.

Definition act (a : Action) (w : World) : option World :=
  match a with
  | Happens e => Some (perform localeCompare e w)
  | KeyDown e => handleKeyDown (cells w) e w
  | Change value => Some (upd (setInput value) w)
  end.

(** The world after a sequence of actions, the first of the list first. *)
Fixpoint play (actions : list Action) (w : World) : option World :=
  match actions with
  | [] => Some w
  | a :: rest =>
      match act a w with
      | Some w' => play rest w'
      | None => None
      end
  end.

End Actions.

(** The cells no key press writes. *)
Definition sessionCells (p : State) :=
  (language p, commandHistory p, userName p, hostName p, currentDirectory p, isBooting p,
   bootStage p, isRickRolling p, isRoot p, groups p, passwordAttempts p, isSudoPrompt p,
   sudoCommand p, isFullFeatured p, previousDirectory p).

(** The history index is [-1] or the index of a recorded line, counted from
    the most recent one. *)
Definition indexInRange (p : State) : Prop :=
  (-1 <= historyIndex p < Z.of_nat (List.length (commandHistory p)))%Z.

Definition arrowUp : KeyboardEvent := mkKeyboardEvent "ArrowUp" false.
Definition arrowDown : KeyboardEvent := mkKeyboardEvent "ArrowDown" false.

(** ** Renders

    The tree is a constant of the component body: every render builds it
    anew, each node stamped with the time of its construction, and the
    handlers of a render read the tree of that render.  No code reads the
    stamps. *)

(** The node without its stamp. *)
Definition undatedMeta (m : Meta) : Meta := mkMeta (permissions m) (owner m) (group m) 0%Z.

Fixpoint undated (i : FileSystemItem) : FileSystemItem :=
  match i with
  | FileItem lines linesEn m => FileItem lines linesEn (undatedMeta m)
  | DirectoryItem c m =>
      DirectoryItem (map (fun kv => (fst kv, undated (snd kv))) c) (undatedMeta m)
  end.

Definition undatedObject (o : Object) : Object :=
  map (fun kv => (fst kv, undated (snd kv))) o.

Definition undatedTree (f : FileSystem) : FileSystem :=
  mkFileSystem (undatedObject (homeContent f)) (undatedMeta (homeMeta f)).

Definition undatedFound (d : Found) : Found :=
  match d with
  | FoundItem i => FoundItem (undated i)
  | FoundOther => FoundOther
  end.

Definition undatedResult (r : Completion (option Found)) : Completion (option Found) :=
  match r with
  | Return d => Return (option_map undatedFound d)
  | Throw e => Throw e
  end.

(** The place of a walk without its stamps. *)
Definition undatedCursor (c : Cursor) : Cursor :=
  match c with
  | AtTop => AtTop
  | AtDirectory o m => AtDirectory (undatedObject o) (undatedMeta m)
  end.

(** A tree the component builds: the tree literal of the source, whatever
    the stamps of its nodes. *)
Definition builtByTheComponent (f : FileSystem) : Prop :=
  undatedTree f = undatedTree (fileSystem 0%Z).

(** A session with its renders: an event is handled on the tree of the
    current render, or the component renders again and hands the next events
    the tree it has built. *)
Inductive Step :=
| Handled (e : Event)
| Rendered (f : FileSystem).

Definition rendersTheTree (x : Step) : Prop :=
  match x with
  | Handled _ => True
  | Rendered f => builtByTheComponent f
  end.

Section Renders.

Variable localeCompare : string -> string -> Z.

Definition step (x : Step) (w : World) : World :=
  match x with
  | Handled e => perform localeCompare e w
  | Rendered f => mkWorld f (cells w) (timers w) (themeToggles w)
  end.

Definition session (steps : list Step) (w : World) : World :=
  fold_left (fun w x => step x w) steps w.

End Renders.

(** ** The file a path names, as the specification words it *)





(** * Properties *)

(** ** The host's strings *)

Example split_cmd : split " " "chmod 755  x" = ["chmod"; "755"; ""; "x"].
Proof. reflexivity. Qed.

Example split_root : split "/" "~" = ["~"].
Proof. reflexivity. Qed.

Example trim_line : trim "  ls -a " = "ls -a".
Proof. reflexivity. Qed.

(** The ideographic space U+3000 and the no-break space U+00A0 are trimmed;
    the Kelvin sign U+212A is a capital of [k]. *)
Example trim_wide :
  trim (String (ascii_of_nat 194) (String (ascii_of_nat 160) "password")
        ++ String (ascii_of_nat 227) (String (ascii_of_nat 128) (String (ascii_of_nat 128) "")))
  = "password".
Proof. reflexivity. Qed.

Example lower_kelvin :
  toLowerCase ("m" ++ String (ascii_of_nat 226) (String (ascii_of_nat 132)
                               (String (ascii_of_nat 170) "DIR")))
  = "mkdir".
Proof. reflexivity. Qed.

Example replace_first : replace "cd $1 ($1)" "$1" "about" = "cd about ($1)".
Proof. reflexivity. Qed.

Example of_nat_42 : of_nat 42 = "42" /\ of_nat 0 = "0" /\ of_nat 100 = "100".
Proof. repeat split; reflexivity. Qed.

Example getText_substitutes :
  getText initialState "nav_use_cd" ["about"] = "使用 " ++ dq ++ "cd about" ++ dq ++ " 命令"
  /\ getText initialState "no_such_key" [] = "no_such_key".
Proof. split; reflexivity. Qed.

(** ** Permission check *)

(** C6: the permission check is the function [allows] of the node's
    permissions, owner and group, the actor's name and groups, the privilege
    flag and the kind.  A privileged actor is allowed; otherwise one triplet
    is chosen, the owner's when the actor is the owner, else the group's when
    the actor's groups hold the node's group, else the third, and the
    character at the kind's offset 0, 1 or 2 inside that triplet decides. *)
Theorem checkPermission_is_the_triplet_rule (s : State) (item : FileSystemItem) (kind : Access) :
  checkPermission s item kind =
  allows (permissions (item_meta item)) (owner (item_meta item)) (group (item_meta item))
    (userName s) (groups s) (isRoot s) kind.
Proof.
  unfold checkPermission, allows, selectTriplet.
  destruct (isRoot s); [reflexivity|].
  destruct (owner (item_meta item) =? userName s);
    [destruct kind; reflexivity|].
  destruct (arr_includes (groups s) (group (item_meta item)));
    destruct kind; reflexivity.
Qed.

(** The triplets are not added up: an owner whose own triplet denies is
    denied whatever the group and the others may do. *)
Example owner_triplet_is_not_additive :
  checkPermission initialState
    (FileItem [] None (mkMeta "---rwxrwx" "user" "users" 0%Z)) read = false
  /\ checkPermission initialState
    (FileItem [] None (mkMeta "rwx---rwx" "deviser" "users" 0%Z)) write = false
  /\ checkPermission initialState
    (FileItem [] None (mkMeta "rwxrwx--x" "deviser" "staff" 0%Z)) execute = true
  /\ checkPermission (setIsRoot true initialState)
    (FileItem [] None (mkMeta "---------" "deviser" "staff" 0%Z)) write = true.
Proof. repeat split; reflexivity. Qed.

(** ** Sorting *)

Section SortFacts.

Context {A : Type} (compareFn : A -> A -> Z).

Lemma insert_perm (x : A) (l : list A) : Permutation (insert compareFn x l) (x :: l).
Proof.
  induction l as [|y l IH]; simpl.
  - apply Permutation_refl.
  - destruct (compareFn x y <=? 0)%Z.
    + apply Permutation_refl.
    + eapply perm_trans; [apply perm_skip, IH | apply perm_swap].
Qed.

Lemma sort_perm (l : list A) : Permutation (sort compareFn l) l.
Proof.
  induction l as [|x l IH]; simpl.
  - apply perm_nil.
  - eapply perm_trans; [apply insert_perm | apply perm_skip, IH].
Qed.

Lemma sort_Forall (P : A -> Prop) (l : list A) : Forall P l -> Forall P (sort compareFn l).
Proof.
  intros H. apply Forall_forall. intros x Hx.
  rewrite Forall_forall in H. apply H.
  eapply Permutation_in; [apply sort_perm | exact Hx].
Qed.

Hypothesis total : forall a b, precedes compareFn a b \/ precedes compareFn b a.
Hypothesis trans :
  forall a b c, precedes compareFn a b -> precedes compareFn b c -> precedes compareFn a c.

Lemma insert_sorted (x : A) (l : list A) :
  StronglySorted (precedes compareFn) l ->
  StronglySorted (precedes compareFn) (insert compareFn x l).
Proof.
  induction 1 as [|y l Hl IH Hy]; simpl.
  - repeat constructor.
  - destruct (compareFn x y <=? 0)%Z eqn:E.
    + apply Z.leb_le in E. constructor.
      * constructor; assumption.
      * constructor; [exact E|].
        eapply Forall_impl; [|exact Hy]. intros z Hz. eapply trans; eassumption.
    + apply Z.leb_gt in E. constructor; [exact IH|].
      assert (Hyx : precedes compareFn y x).
      { destruct (total x y) as [H|H]; [unfold precedes in H; lia | exact H]. }
      apply Forall_forall. intros z Hz.
      apply (Permutation_in _ (insert_perm x l)) in Hz.
      destruct Hz as [<-|Hz]; [exact Hyx|].
      rewrite Forall_forall in Hy. apply Hy, Hz.
Qed.

Lemma sort_sorted (l : list A) : StronglySorted (precedes compareFn) (sort compareFn l).
Proof.
  induction l as [|x l IH]; simpl.
  - constructor.
  - apply insert_sorted, IH.
Qed.

End SortFacts.

(** ** Frame lemmas *)

Ltac break_match :=
  repeat match goal with
         | |- context [match ?x with _ => _ end] => destruct x
         end.

Section Frame.

Variable localeCompare : string -> string -> Z.

Lemma cmd_cd_fs s args w : fs (fst (cmd_cd s args w)) = fs w.
Proof. unfold cmd_cd, done. break_match; reflexivity. Qed.

Lemma cmd_cat_fs s args w : fs (fst (cmd_cat s args w)) = fs w.
Proof. unfold cmd_cat, done. break_match; reflexivity. Qed.

Lemma switch_fs now s w cmd command args :
  fs (fst (switch localeCompare now s w cmd command args)) = fs w.
Proof.
  unfold switch, cmd_rm, cmd_sudo, cmd_chmod, cmd_chown, cmd_touch, cmd_lang, rickRoll, done.
  break_match; try reflexivity; try apply cmd_cd_fs; try apply cmd_cat_fs.
Qed.

Lemma dispatch_fs now s w cmd : fs (fst (dispatch localeCompare now s w cmd)) = fs w.
Proof.
  unfold dispatch, deviserStart, rickRoll, done.
  break_match; try reflexivity; apply switch_fs.
Qed.

Lemma processCommand_fs now stack s w cmd :
  fs (fst (processCommand localeCompare now stack s w cmd)) = fs w.
Proof.
  revert w cmd. induction stack as [|stack IH]; intros w cmd; simpl.
  - reflexivity.
  - destruct (isSudoPrompt s); [|apply dispatch_fs].
    destruct (cmd =? "password").
    + match goal with
      | |- context [processCommand ?c ?n ?k ?t ?v ?o] =>
          specialize (IH v o); destruct (processCommand c n k t v o)
      end.
      simpl in *. exact IH.
    + break_match; reflexivity.
Qed.


Lemma handleCommandSubmit_fs now stack w :
  fs (fst (handleCommandSubmit localeCompare now stack w)) = fs w.
Proof.
  unfold handleCommandSubmit.
  destruct (negb (truthy (trim (input (cells w))))); [reflexivity|].
  match goal with
  | |- context [processCommand ?c ?n ?k ?t ?v ?o] =>
      pose proof (processCommand_fs n k t v o) as H;
      destruct (processCommand c n k t v o) as [w' [rs|e]]
  end; simpl in H; break_match; simpl; rewrite H; break_match; reflexivity.
Qed.

Lemma runTask_fs now t w : fs (runTask now t w) = fs w.
Proof. destruct t; reflexivity. Qed.

Lemma perform_fs e w : fs (perform localeCompare e w) = fs w.
Proof.
  destruct e as [now stack line|now k|now]; simpl.
  - unfold submit. rewrite handleCommandSubmit_fs. reflexivity.
  - unfold fire. break_match; try reflexivity. rewrite runTask_fs. reflexivity.
  - unfold bootEffect. break_match; reflexivity.
Qed.

Lemma run_fs events w : fs (run localeCompare events w) = fs w.
Proof.
  revert w. induction events as [|e events IH]; intros w; simpl.
  - reflexivity.
  - change (fs (run localeCompare events (perform localeCompare e w)) = fs w).
    rewrite IH. apply perform_fs.
Qed.

(** The gate: once the service is started it stays started. *)

Lemma cmd_cd_unlocked s args w : unlocked w -> unlocked (fst (cmd_cd s args w)).
Proof. unfold unlocked, cmd_cd, done. intros H. break_match; exact H. Qed.

Lemma cmd_cat_unlocked s args w : unlocked w -> unlocked (fst (cmd_cat s args w)).
Proof. unfold unlocked, cmd_cat, done. intros H. break_match; exact H. Qed.

Lemma switch_unlocked now s w cmd command args :
  unlocked w -> unlocked (fst (switch localeCompare now s w cmd command args)).
Proof.
  intros H.
  unfold switch, cmd_rm, cmd_sudo, cmd_chmod, cmd_chown, cmd_touch, cmd_lang, rickRoll, done.
  break_match; try exact H; try (apply cmd_cd_unlocked, H); try (apply cmd_cat_unlocked, H).
Qed.

Lemma dispatch_unlocked now s w cmd :
  unlocked w -> unlocked (fst (dispatch localeCompare now s w cmd)).
Proof.
  intros H. unfold dispatch, deviserStart, rickRoll, done.
  break_match; try exact H; try reflexivity; apply switch_unlocked, H.
Qed.

Lemma processCommand_unlocked now stack s w cmd :
  unlocked w -> unlocked (fst (processCommand localeCompare now stack s w cmd)).
Proof.
  revert w cmd. induction stack as [|stack IH]; intros w cmd H; simpl.
  - exact H.
  - destruct (isSudoPrompt s); [|apply dispatch_unlocked, H].
    destruct (cmd =? "password").
    + match goal with
      | |- context [processCommand ?c ?n ?k ?t ?v ?o] =>
          specialize (IH v o H); destruct (processCommand c n k t v o)
      end.
      exact IH.
    + break_match; exact H.
Qed.

Lemma perform_unlocked e w : unlocked w -> unlocked (perform localeCompare e w).
Proof.
  intros H. destruct e as [now stack line|now k|now]; simpl.
  - unfold submit, handleCommandSubmit.
    change (cells (upd (setInput line) w)) with (setInput line (cells w)).
    destruct (negb (truthy (trim (input (setInput line (cells w)))))); [exact H|].
    match goal with
    | |- context [processCommand ?c ?n ?k ?t ?v ?o] =>
        assert (Hv : unlocked v) by (break_match; exact H);
        pose proof (processCommand_unlocked n k t v o Hv) as H';
        destruct (processCommand c n k t v o) as [w' [rs|e]]
    end; simpl in H'; break_match; exact H'.
  - unfold fire. break_match; try exact H.
    match goal with |- unlocked (runTask _ ?t _) => destruct t end; exact H.
  - unfold bootEffect. break_match; exact H.
Qed.

Lemma run_unlocked events w : unlocked w -> unlocked (run localeCompare events w).
Proof.
  revert w. induction events as [|e events IH]; intros w H; simpl.
  - exact H.
  - change (unlocked (run localeCompare events (perform localeCompare e w))).
    apply IH, perform_unlocked, H.
Qed.

End Frame.

(** ** Splitting and joining *)

Lemma split_not_nil (sep : ascii) (s : string) : split sep s <> [].
Proof.
  induction s as [|c s IH]; simpl; [discriminate|].
  destruct (Ascii.eqb c sep); [discriminate|].
  destruct (split sep s); discriminate.
Qed.

Lemma split_sep (sep : ascii) (s : string) :
  split sep (String sep s) = "" :: split sep s.
Proof. simpl. rewrite Ascii.eqb_refl. reflexivity. Qed.

Lemma split_app (sep : ascii) (a b : string) :
  split sep (a ++ String sep b) = (split sep a ++ split sep b)%list.
Proof.
  induction a as [|c a IH]; simpl.
  - rewrite Ascii.eqb_refl. reflexivity.
  - rewrite IH. destruct (Ascii.eqb c sep); [reflexivity|].
    pose proof (split_not_nil sep a) as Hn.
    destruct (split sep a); [contradiction|reflexivity].
Qed.

Lemma join_split (sep : ascii) (s : string) :
  join (String sep "") (split sep s) = s.
Proof.
  unfold join. induction s as [|c s IH]; [reflexivity|].
  simpl split. destruct (Ascii.eqb c sep) eqn:E.
  - apply Ascii.eqb_eq in E. subst c.
    pose proof (split_not_nil sep s) as Hn.
    destruct (split sep s) as [|h t] eqn:Es; [contradiction|].
    simpl in *. rewrite IH. reflexivity.
  - pose proof (split_not_nil sep s) as Hn.
    destruct (split sep s) as [|h t] eqn:Es; [contradiction|].
    simpl in *. destruct t; simpl in *; rewrite <- IH; reflexivity.
Qed.

Lemma split_without (sep : ascii) (s : string) :
  has_char sep s = false -> split sep s = [s].
Proof.
  induction s as [|c s IH]; simpl; [reflexivity|].
  rewrite Ascii.eqb_sym. destruct (Ascii.eqb c sep); simpl; [discriminate|].
  intros H. rewrite (IH H). reflexivity.
Qed.

Lemma split_parts_without (sep : ascii) (s : string) :
  Forall (fun p => has_char sep p = false) (split sep s).
Proof.
  induction s as [|c s IH]; simpl.
  - repeat constructor.
  - destruct (Ascii.eqb c sep) eqn:E.
    + constructor; [reflexivity | exact IH].
    + destruct (split sep s) as [|h t]; [repeat constructor; simpl|].
      * rewrite Ascii.eqb_sym, E. reflexivity.
      * inversion IH; subst. constructor; [|assumption].
        simpl. rewrite Ascii.eqb_sym, E. assumption.
Qed.

Lemma split_join (sep : ascii) (l : list string) :
  l <> [] ->
  Forall (fun p => has_char sep p = false) l ->
  split sep (join (String sep "") l) = l.
Proof.
  unfold join. induction l as [|x l IH]; [contradiction|].
  intros _ H. inversion H as [|? ? Hx Hl]; subst.
  destruct l as [|y l].
  - simpl. apply split_without, Hx.
  - change (String.concat (String sep "") (x :: y :: l))
      with (x ++ String sep (String.concat (String sep "") (y :: l))).
    rewrite split_app, (split_without _ _ Hx), IH; [reflexivity | discriminate | exact Hl].
Qed.

(** ** Walking paths *)

Lemma getCurrentDirectoryContent_walk f s :
  getCurrentDirectoryContent f s = walk_segments (top f) (split "/" (currentDirectory s)).
Proof.
  unfold getCurrentDirectoryContent.
  destruct (currentDirectory s =? "~") eqn:E; [|reflexivity].
  apply String.eqb_eq in E. rewrite E. reflexivity.
Qed.

Lemma rooted_cases p : rooted p = true -> p = "~" \/ exists r, p = "~/" ++ r.
Proof.
  unfold rooted, startsWith. intros H. apply orb_true_iff in H. destruct H as [H|H].
  - left. apply String.eqb_eq, H.
  - right. destruct p as [|c1 [|c2 r]]; cbn [prefix] in H; try discriminate;
      (destruct (ascii_dec "~" c1); [subst|discriminate]); try discriminate.
    destruct (ascii_dec "/" c2); [subst|discriminate].
    exists r. reflexivity.
Qed.

Lemma rooted_below r : rooted ("~/" ++ r) = true.
Proof.
  unfold rooted, startsWith. apply orb_true_iff. right.
  cbn [append prefix].
  destruct (ascii_dec "~" "~"); [|contradiction].
  destruct (ascii_dec "/" "/"); [|contradiction].
  destruct r; reflexivity.
Qed.

Lemma split_below r : split "/" ("~/" ++ r) = "~" :: split "/" r.
Proof. reflexivity. Qed.

Lemma walk_top f l : walk_segments (top f) ("~" :: l) = walk_segments (homeContent f) l.
Proof. reflexivity. Qed.

(** The walk of [cd] over the non-empty segments finds a directory exactly
    when the walk of [ls] does, and it is the same directory. *)
Lemma directory_loop_walk (l : list string) (o : Object) (m : Meta) :
  match walk_segments o l with
  | Some c => exists m', directory_loop (AtDirectory o m) (filter truthy l)
                         = Return (Some (FoundItem (DirectoryItem c m')))
  | None => directory_loop (AtDirectory o m) (filter truthy l) = Return None
  end.
Proof.
  revert o m. induction l as [|x l IH]; intros o m.
  - simpl. exists m. reflexivity.
  - cbn [walk_segments filter]. destruct (truthy x) eqn:Hx; cbn [negb].
    + cbn [directory_loop content_of bind]. unfold directory_at.
      destruct (get o x) as [[lines linesEn mi|c mi]| |]; try reflexivity.
      apply IH.
    + apply IH.
Qed.

Lemma getDirectoryFromPath_walk f p :
  rooted p = true ->
  match walk_segments (top f) (split "/" p) with
  | Some c => exists m, getDirectoryFromPath f p = Return (Some (FoundItem (DirectoryItem c m)))
  | None => getDirectoryFromPath f p = Return None
  end.
Proof.
  intros H. destruct (rooted_cases p H) as [->|[r ->]].
  - exists (homeMeta f). reflexivity.
  - rewrite split_below, walk_top. unfold getDirectoryFromPath.
    change ("~/" ++ r =? "~") with false. cbv iota.
    change (startsWith ("~/" ++ r) "~") with true. cbv iota.
    unfold segments. rewrite split_below. cbn [filter truthy tl].
    apply directory_loop_walk.
Qed.

Lemma walk_segments_app o l1 l2 :
  walk_segments o (l1 ++ l2) =
  match walk_segments o l1 with
  | Some c => walk_segments c l2
  | None => None
  end.
Proof.
  revert o. induction l1 as [|x l1 IH]; intros o; [reflexivity|].
  cbn [app walk_segments]. destruct (negb (truthy x)); [apply IH|].
  destruct (directory_at o x); [apply IH | reflexivity].
Qed.

Lemma walk_segments_removelast o l c :
  walk_segments o l = Some c -> exists c', walk_segments o (removelast l) = Some c'.
Proof.
  destruct l as [|x l] using rev_ind; [intros H; exists o; reflexivity|].
  rewrite removelast_last, walk_segments_app.
  destruct (walk_segments o l) as [c'|]; [|discriminate]. intros _. exists c'. reflexivity.
Qed.

(** ** Listings *)

Ltac text_only_tac :=
  unfold text_only; repeat constructor; eexists; reflexivity.

Lemma text_only_map (t : ResultType) (lines : list string) :
  text_only (map (fun line => msg t line) lines).
Proof.
  unfold text_only. apply Forall_forall. intros r Hr.
  apply in_map_iff in Hr. destruct Hr as [l [<- _]]. eexists; reflexivity.
Qed.

Lemma text_only_no_fragment rs t entries :
  text_only rs -> ~ In (mkResult t (Fragment entries)) rs.
Proof.
  intros H Hin. unfold text_only in H. rewrite Forall_forall in H.
  destruct (H _ Hin) as [x Hx]. discriminate.
Qed.

Section Listing.

Variable localeCompare : string -> string -> Z.

Lemma cmd_ls_shape s args w : text_or_listing localeCompare s w args (cmd_ls localeCompare s args w).
Proof.
  unfold cmd_ls, text_or_listing.
  destruct (getCurrentDirectoryContent (fs w) s) as [o|]; [|left; text_only_tac].
  destruct (arr_includes args "--help"); [left; unfold lsHelp; text_only_tac|].
  destruct (lsItems s args o) eqn:E; [left; text_only_tac|].
  right. exists o. split; [reflexivity|]. unfold listingOf. rewrite E. reflexivity.
Qed.

Lemma cmd_cd_text s args w rs : snd (cmd_cd s args w) = Return rs -> text_only rs.
Proof.
  unfold cmd_cd, done, noSuchDirectory. break_match; simpl; intros H;
    try discriminate; injection H as <-; text_only_tac.
Qed.

Lemma cmd_cat_text s args w rs : snd (cmd_cat s args w) = Return rs -> text_only rs.
Proof.
  unfold cmd_cat, done, noSuchFile. break_match; simpl; intros H;
    try discriminate; injection H as <-; try text_only_tac. apply text_only_map.
Qed.

Lemma switch_shape now s w cmd command args rs :
  snd (switch localeCompare now s w cmd command args) = Return rs ->
  text_or_listing localeCompare s w args rs.
Proof.
  unfold switch.
  repeat match goal with
         | |- context [if (?c =? ?k) then _ else _] => destruct (c =? k)
         | |- context [if (?a || ?b) then _ else _] => destruct (a || b)
         end;
    try (simpl; intros H; injection H as <-; apply cmd_ls_shape);
    try (intros H; left; revert H; first [apply cmd_cd_text | apply cmd_cat_text]);
    unfold cmd_help, cmd_section, cmd_github, cmd_pwd, cmd_man, cmd_rm, cmd_sudo, cmd_id,
      cmd_chmod, cmd_chown, cmd_touch, cmd_lang, cmd_default, rickRoll, done;
    break_match; simpl; intros H; try discriminate; injection H as <-; left; text_only_tac.
Qed.

Lemma dispatch_shape now s w cmd rs :
  snd (dispatch localeCompare now s w cmd) = Return rs ->
  text_or_listing localeCompare s w (tl (split " " cmd)) rs.
Proof.
  unfold dispatch.
  repeat match goal with
         | |- context [if ?b then _ else switch _ _ _ _ _ _ _] => destruct b
         | |- context [if ?b then done _ _ else _] => destruct b
         | |- context [if ?b then rickRoll _ _ else _] => destruct b
         end;
    try apply switch_shape;
    unfold deviserStart, rickRoll, restrictedHelp, unknownRestricted, done;
    break_match; simpl; intros H; injection H as <-; left; text_only_tac.
Qed.

Lemma processCommand_shape now stack s w cmd rs :
  snd (processCommand localeCompare now stack s w cmd) = Return rs ->
  text_only rs \/
  (isSudoPrompt s = false /\ text_or_listing localeCompare s w (tl (split " " cmd)) rs).
Proof.
  revert w cmd rs. induction stack as [|stack IH]; intros w cmd rs; simpl.
  - discriminate.
  - destruct (isSudoPrompt s) eqn:Hp.
    + destruct (cmd =? "password").
      * match goal with
        | |- context [processCommand ?c ?n ?k ?t ?v ?o] =>
            specialize (IH v o); destruct (processCommand c n k t v o) as [w' [rs'|e]]
        end; simpl in *; [|discriminate].
        intros H. injection H as <-. left.
        destruct (IH rs' eq_refl) as [Ht|[Hf _]]; [|discriminate].
        constructor; [eexists; reflexivity | exact Ht].
      * break_match; simpl; intros H; injection H as <-; left; text_only_tac.
    + intros H. right. split; [reflexivity|]. apply dispatch_shape with (now := now), H.
Qed.

End Listing.

Section Order.

Variable localeCompare : string -> string -> Z.

Lemma nodeName_lsNode d o item : nodeName (lsNode d o item) = item.
Proof. unfold lsNode. destruct (own o item); [destruct d|]; reflexivity. Qed.

Lemma nodeIsDirectory_lsNode d o item :
  nodeIsDirectory (lsNode d o item) = isDirectoryIn o item.
Proof. unfold lsNode, isDirectoryIn. destruct (own o item); [destruct d|]; reflexivity. Qed.

Lemma lsItems_not_hidden s args o :
  showHidden args = false ->
  Forall (fun item => startsWith item "." = false) (lsItems s args o).
Proof.
  intros H. unfold lsItems. rewrite H. simpl.
  assert (F : Forall (fun item => startsWith item "." = false)
                (filter (fun item => negb (startsWith item ".")) (keys o))).
  { apply Forall_forall. intros x Hx. apply filter_In in Hx.
    destruct Hx as [_ Hx]. apply negb_true_iff in Hx. exact Hx. }
  destruct (negb (isFullFeatured s)); [|exact F].
  apply Forall_forall. intros x Hx. apply filter_In in Hx. destruct Hx as [Hx _].
  rewrite Forall_forall in F. apply F, Hx.
Qed.

Hypothesis localeCompare_total :
  forall a b, collates localeCompare a b \/ collates localeCompare b a.
Hypothesis localeCompare_trans :
  forall a b c,
    collates localeCompare a b -> collates localeCompare b c -> collates localeCompare a c.

Lemma lsCompare_cases o a b :
  precedes (lsCompare localeCompare o) a b <->
  (isDirectoryIn o a = true /\ isDirectoryIn o b = false) \/
  (isDirectoryIn o a = isDirectoryIn o b /\ collates localeCompare a b).
Proof.
  unfold precedes, lsCompare, collates.
  destruct (isDirectoryIn o a), (isDirectoryIn o b); simpl; split; intros H;
    try lia; try (right; split; [reflexivity|exact H]); try (left; split; reflexivity);
    destruct H as [[H1 H2]|[H1 H2]]; try discriminate; try exact H2; try lia.
Qed.

Lemma lsCompare_total o a b :
  precedes (lsCompare localeCompare o) a b \/ precedes (lsCompare localeCompare o) b a.
Proof.
  rewrite !lsCompare_cases.
  destruct (isDirectoryIn o a) eqn:Ha, (isDirectoryIn o b) eqn:Hb;
    try (left; left; split; reflexivity); try (right; left; split; reflexivity);
    destruct (localeCompare_total a b); [left|right|left|right]; right; split;
      try reflexivity; assumption.
Qed.

Lemma lsCompare_trans o a b c :
  precedes (lsCompare localeCompare o) a b ->
  precedes (lsCompare localeCompare o) b c ->
  precedes (lsCompare localeCompare o) a c.
Proof.
  rewrite !lsCompare_cases.
  intros [[A1 A2]|[A1 A2]] [[B1 B2]|[B1 B2]]; try congruence.
  - left. split; congruence.
  - left. split; congruence.
  - right. split; [congruence|]. eapply localeCompare_trans; eassumption.
Qed.

(** A list sorted by the comparison of [ls] is a run of directories followed
    by a run of files, each in collation order. *)
Lemma sorted_names_split o (l : list string) :
  StronglySorted (precedes (lsCompare localeCompare o)) l ->
  exists ds fs,
    l = (ds ++ fs)%list /\
    Forall (fun a => isDirectoryIn o a = true) ds /\
    Forall (fun a => isDirectoryIn o a = false) fs /\
    StronglySorted (collates localeCompare) ds /\
    StronglySorted (collates localeCompare) fs.
Proof.
  induction 1 as [|x l Hl IH Hx].
  - exists [], []. repeat split; constructor.
  - destruct IH as [ds [fs [-> [Hd [Hf [Sd Sf]]]]]].
    destruct (isDirectoryIn o x) eqn:Dx.
    + exists (x :: ds), fs. repeat split; try assumption.
      * constructor; assumption.
      * constructor; [exact Sd|].
        apply Forall_forall. intros y Hy.
        rewrite Forall_forall in Hx, Hd.
        specialize (Hx y (in_or_app _ _ _ (or_introl Hy))).
        apply lsCompare_cases in Hx. specialize (Hd y Hy).
        destruct Hx as [[_ Hx]|[_ Hx]]; [congruence | exact Hx].
    + assert (ds = []) as ->.
      { destruct ds as [|d ds]; [reflexivity|].
        rewrite Forall_forall in Hx. specialize (Hx d (or_introl eq_refl)).
        apply lsCompare_cases in Hx. inversion Hd as [|? ? Hd1 _]; subst.
        destruct Hx as [[Hx _]|[Hx _]]; congruence. }
      exists [], (x :: fs). simpl in *. repeat split; try constructor; try assumption.
      apply Forall_forall. intros y Hy.
      rewrite Forall_forall in Hx, Hf. specialize (Hx y Hy).
      apply lsCompare_cases in Hx. specialize (Hf y Hy).
      destruct Hx as [[Hx _]|[_ Hx]]; [congruence | exact Hx].
Qed.

Lemma StronglySorted_map {A B} (f : A -> B) (R : B -> B -> Prop) (l : list A) :
  StronglySorted (fun a b => R (f a) (f b)) l -> StronglySorted R (map f l).
Proof.
  induction 1 as [|x l Hl IH Hx]; simpl; constructor; [exact IH|].
  apply Forall_forall. intros y Hy. apply in_map_iff in Hy. destruct Hy as [z [<- Hz]].
  rewrite Forall_forall in Hx. apply Hx, Hz.
Qed.

Lemma listingOf_ordered s args o : ordered_listing localeCompare (listingOf localeCompare s args o).
Proof.
  unfold listingOf.
  destruct (sorted_names_split o (sort (lsCompare localeCompare o) (lsItems s args o)))
    as [ds [fs [E [Hd [Hf [Sd Sf]]]]]].
  { apply sort_sorted; [apply lsCompare_total | apply lsCompare_trans]. }
  rewrite E, map_app.
  exists (map (lsNode (showDetails args) o) ds), (map (lsNode (showDetails args) o) fs).
  split; [reflexivity|].
  repeat split.
  - apply Forall_forall. intros n Hn. apply in_map_iff in Hn. destruct Hn as [a [<- Ha]].
    rewrite nodeIsDirectory_lsNode. rewrite Forall_forall in Hd. apply Hd, Ha.
  - apply Forall_forall. intros n Hn. apply in_map_iff in Hn. destruct Hn as [a [<- Ha]].
    rewrite nodeIsDirectory_lsNode. rewrite Forall_forall in Hf. apply Hf, Ha.
  - apply StronglySorted_map.
    eapply StronglySorted_ind with (P := fun l => StronglySorted _ l).
    + constructor.
    + intros a l Hl IH Ha. constructor; [exact IH|].
      eapply Forall_impl; [|exact Ha]. intros b Hb. rewrite !nodeName_lsNode. exact Hb.
    + exact Sd.
  - apply StronglySorted_map.
    eapply StronglySorted_ind with (P := fun l => StronglySorted _ l).
    + constructor.
    + intros a l Hl IH Ha. constructor; [exact IH|].
      eapply Forall_impl; [|exact Ha]. intros b Hb. rewrite !nodeName_lsNode. exact Hb.
    + exact Sf.
Qed.

Lemma listingOf_not_hidden s args o :
  showHidden args = false ->
  Forall (fun n => startsWith (nodeName n) "." = false) (listingOf localeCompare s args o).
Proof.
  intros H. unfold listingOf. apply Forall_forall. intros n Hn.
  apply in_map_iff in Hn. destruct Hn as [a [<- Ha]]. rewrite nodeName_lsNode.
  pose proof (sort_Forall (lsCompare localeCompare o) _ _ (lsItems_not_hidden s args o H)) as F.
  rewrite Forall_forall in F. apply F, Ha.
Qed.

(** C9: when the comparison of the host is total and transitive, every
    listing among the records of a command has all its directories before all
    its files, each of the two groups in the order of that comparison; and
    when no argument asks for hidden entries, no listed name starts with a
    dot. *)
Theorem ls_lists_directories_first_in_collation_order
  (now : Clock) (stack : nat) (s : State) (w : World) (cmd : string)
  (rs : list CommandResult) (t : ResultType) (entries : list Node) :
  snd (processCommand localeCompare now stack s w cmd) = Return rs ->
  In (mkResult t (Fragment entries)) rs ->
  ordered_listing localeCompare entries /\
  (showHidden (tl (split " " cmd)) = false ->
   Forall (fun n => startsWith (nodeName n) "." = false) entries).
Proof.
  intros Hrun Hin.
  destruct (processCommand_shape _ _ _ _ _ _ _ Hrun) as [Ht|[_ [Ht|[o [_ ->]]]]];
    try (exfalso; exact (text_only_no_fragment _ _ _ Ht Hin)).
  destruct Hin as [Hin|[]]. injection Hin as _ <-.
  split; [apply listingOf_ordered | apply listingOf_not_hidden].
Qed.

End Order.

(** ** The password prompt *)

Section Prompt.

Variable localeCompare : string -> string -> Z.

Lemma processCommand_unfold now stack s w cmd :
  processCommand localeCompare now (S stack) s w cmd =
  if isSudoPrompt s then
    let w := upd (setIsSudoPrompt false) w in
    if cmd =? "password" then
      let w := upd (setIsRoot true) w in
      let originalCmd := sudoCommand s in
      let w := upd (setSudoCommand "") w in
      let (w', r) := processCommand localeCompare now stack s w originalCmd in
      (w', bind r (fun rs => Return (msg system "" :: rs)))
    else
      let w := upd (fun p => setPasswordAttempts (passwordAttempts p + 1) p) w in
      if (2 <=? passwordAttempts s)%nat then
        let w := upd (setPasswordAttempts 0) w in
        let w := upd (setSudoCommand "") w in
        done w [lockout]
      else done w [authFailure]
  else dispatch localeCompare now s w cmd.
Proof. reflexivity. Qed.

(** C1, as amended: while a password is awaited, a submitted line that is not
    blank and whose trimmed text is not the secret ends the prompt, so that
    the next line is dispatched as a command, leaves the privilege as it was
    and appends one entry without command text that holds the report.  When
    two mismatches were counted before, the counter returns to zero, the
    stored command is dropped and the lockout is reported; otherwise the
    counter grows by one, the stored command stays and an authentication
    failure is reported.  A blank line is answered before the password is
    looked at: the prompt stays, nothing is counted and an empty entry is
    appended. *)
Theorem wrong_secret_leaves_the_prompt
  (now : Clock) (stack : nat) (line : string) (w : World) :
  isSudoPrompt (cells w) = true ->
  (trim line =? "password") = false ->
  if truthy (trim line) then
    isSudoPrompt (cells (submit localeCompare now (S stack) line w)) = false /\
    isRoot (cells (submit localeCompare now (S stack) line w)) = isRoot (cells w) /\
    (forall now' stack' v cmd,
        processCommand localeCompare now' (S stack')
          (cells (submit localeCompare now (S stack) line w)) v cmd
        = dispatch localeCompare now'
            (cells (submit localeCompare now (S stack) line w)) v cmd) /\
    if (2 <=? passwordAttempts (cells w))%nat then
      passwordAttempts (cells (submit localeCompare now (S stack) line w)) = 0 /\
      sudoCommand (cells (submit localeCompare now (S stack) line w)) = "" /\
      outputHistory (cells (submit localeCompare now (S stack) line w))
      = (outputHistory (cells w) ++ [mkEntry "" [lockout]])%list
    else
      passwordAttempts (cells (submit localeCompare now (S stack) line w))
      = passwordAttempts (cells w) + 1 /\
      sudoCommand (cells (submit localeCompare now (S stack) line w))
      = sudoCommand (cells w) /\
      outputHistory (cells (submit localeCompare now (S stack) line w))
      = (outputHistory (cells w) ++ [mkEntry "" [authFailure]])%list
  else
    isSudoPrompt (cells (submit localeCompare now (S stack) line w)) = true /\
    isRoot (cells (submit localeCompare now (S stack) line w)) = isRoot (cells w) /\
    passwordAttempts (cells (submit localeCompare now (S stack) line w))
    = passwordAttempts (cells w) /\
    sudoCommand (cells (submit localeCompare now (S stack) line w)) = sudoCommand (cells w) /\
    outputHistory (cells (submit localeCompare now (S stack) line w))
    = (outputHistory (cells w) ++ [mkEntry "" []])%list.
Proof.
  intros Hp Hl. unfold submit, handleCommandSubmit.
  change (cells (upd (setInput line) w)) with (setInput line (cells w)).
  change (input (setInput line (cells w))) with line.
  change (isSudoPrompt (setInput line (cells w))) with (isSudoPrompt (cells w)).
  rewrite Hp. cbn [negb].
  destruct (truthy (trim line)); cbn [negb].
  - rewrite processCommand_unfold.
    change (isSudoPrompt (setInput line (cells w))) with (isSudoPrompt (cells w)).
    rewrite Hp, Hl.
    change (passwordAttempts (setInput line (cells w))) with (passwordAttempts (cells w)).
    assert (D : forall p, isSudoPrompt p = false ->
                forall now' stack' v cmd,
                  processCommand localeCompare now' (S stack') p v cmd
                  = dispatch localeCompare now' p v cmd).
    { intros p E now' stack' v cmd. rewrite processCommand_unfold, E. reflexivity. }
    destruct (2 <=? passwordAttempts (cells w))%nat;
      destruct (toLowerCase (trim line) =? "clear");
      (split; [reflexivity|]); (split; [reflexivity|]);
      (split; [apply D; reflexivity|]);
      (split; [reflexivity|]); split; reflexivity.
  - split; [exact Hp|]. repeat apply conj; reflexivity.
Qed.

(** The call made for the stored command runs in the same render: it still
    sees the prompt, and reads the stored command as one more password. *)
Lemma stored_command_is_read_as_password now stack f s :
  isSudoPrompt s = true ->
  (sudoCommand s =? "password") = false ->
  snd (executeLine localeCompare now (S (S stack)) f s "password") =
  Return [msg system ""; if (2 <=? passwordAttempts s)%nat then lockout else authFailure].
Proof.
  intros Hp Hc. unfold executeLine.
  rewrite processCommand_unfold, Hp. simpl (_ =? _).
  cbv zeta. rewrite processCommand_unfold, Hp, Hc.
  destruct (2 <=? passwordAttempts s)%nat; reflexivity.
Qed.

(** When the stored command is the secret itself the calls never end. *)
Lemma stored_secret_overflows now stack s w :
  isSudoPrompt s = true ->
  sudoCommand s = "password" ->
  snd (processCommand localeCompare now stack s w "password") = Throw RangeError.
Proof.
  intros Hp Hc. revert w. induction stack as [|stack IH]; intros w.
  - reflexivity.
  - rewrite processCommand_unfold, Hp. simpl (_ =? _). cbv zeta. rewrite Hc.
    specialize (IH (upd (setSudoCommand "") (upd (setIsRoot true) (upd (setIsSudoPrompt false) w)))).
    destruct (processCommand localeCompare now stack s _ "password") as [w' r].
    simpl in *. rewrite IH. reflexivity.
Qed.

End Prompt.

(** C1, counterexample: after [sudo ls], the first wrong secret already ends
    the prompt, so the session does not keep awaiting the secret. *)
Lemma first_wrong_secret_ends_the_prompt :
  ~ mismatch_as_specified (fileSystem 0%Z) (cells prompted) "wrong".
Proof.
  unfold mismatch_as_specified. intros H.
  assert (Hp : isSudoPrompt (cells prompted) = true) by (vm_compute; reflexivity).
  assert (Hl : "wrong" <> "password") by discriminate.
  specialize (H Hp Hl). vm_compute in H.
  destruct H as [_ [H _]]. discriminate.
Qed.

Lemma wrong_secret_leaves_the_prompt_witness :
  isSudoPrompt (cells (submit byteCompare sampleClock 1 "wrong" prompted)) = false /\
  isRoot (cells (submit byteCompare sampleClock 1 "wrong" prompted)) = isRoot (cells prompted) /\
  (forall now' stack' v cmd,
      processCommand byteCompare now' (S stack')
        (cells (submit byteCompare sampleClock 1 "wrong" prompted)) v cmd
      = dispatch byteCompare now' (cells (submit byteCompare sampleClock 1 "wrong" prompted))
          v cmd) /\
  passwordAttempts (cells (submit byteCompare sampleClock 1 "wrong" prompted))
  = passwordAttempts (cells prompted) + 1 /\
  sudoCommand (cells (submit byteCompare sampleClock 1 "wrong" prompted))
  = sudoCommand (cells prompted) /\
  outputHistory (cells (submit byteCompare sampleClock 1 "wrong" prompted))
  = (outputHistory (cells prompted) ++ [mkEntry "" [authFailure]])%list.
Proof.
  apply (wrong_secret_leaves_the_prompt byteCompare sampleClock 0 "wrong" prompted);
    vm_compute; reflexivity.
Defined.

(** A blank line leaves the prompt pending, and the white space around the
    secret does not count. *)
Example blank_line_and_padded_secret :
  isSudoPrompt (cells (run byteCompare [sample "   "] prompted)) = true /\
  passwordAttempts (cells (run byteCompare [sample "   "] prompted)) = 0 /\
  isRoot (cells (run byteCompare [sample " password "] prompted)) = true.
Proof. vm_compute. repeat split; reflexivity. Qed.

(** The ideographic space U+3000 is trimmed like any other white space: after
    the secret it does not count, and a line made of it is blank and is not
    recorded. *)
Example wide_space_is_trimmed :
  isRoot (cells (run byteCompare
                   [sample ("password" ++ String (ascii_of_nat 227)
                                            (String (ascii_of_nat 128)
                                               (String (ascii_of_nat 128) "")))]
                   prompted)) = true /\
  commandHistory (cells (run byteCompare
                           [sample (String (ascii_of_nat 227)
                                      (String (ascii_of_nat 128)
                                         (String (ascii_of_nat 128) "")))]
                           started))
  = commandHistory (cells started).
Proof. vm_compute. split; reflexivity. Qed.

(** After the third mismatch the secret itself is taken for a command. *)
Example secret_after_lockout_is_a_command :
  let w := run byteCompare
             [sample "sudo ls"; sample "a"; sample "sudo ls"; sample "b";
              sample "sudo ls"; sample "c"] started in
  isSudoPrompt (cells w) = false /\ sudoCommand (cells w) = "" /\
  passwordAttempts (cells w) = 0 /\
  snd (executeLine byteCompare sampleClock 8 (fileSystem 0%Z) (cells w) "password")
  = Return [msg error ("password: 命令未找到，輸入 " ++ dq ++ "help" ++ dq ++ " 查看可用命令")] /\
  isRoot (cells (run byteCompare [sample "password"] w)) = false.
Proof. vm_compute. repeat split; reflexivity. Qed.

(** C2: with the secret entered for a stored [chown], the records of the
    same call are the empty echo and an authentication failure; the privilege
    is set for the next render only, where the same [chown] succeeds. *)
Theorem correct_secret_does_not_run_the_stored_command (stack : nat) :
  sudoCommand (cells awaiting) = "chown root ~/resume.pdf" /\
  snd (executeLine byteCompare sampleClock (S (S stack)) (fileSystem 0%Z) (cells awaiting)
         "password")
  = Return [msg system ""; authFailure] /\
  isRoot (cells (run byteCompare [sample "password"] awaiting)) = true /\
  snd (executeLine byteCompare sampleClock (S stack) (fileSystem 0%Z)
         (cells (run byteCompare [sample "password"] awaiting)) "chown root ~/resume.pdf")
  = Return [msg success "已更改 '~/resume.pdf' 的所有者為 'root'"].
Proof.
  split; [vm_compute; reflexivity|]. split.
  - rewrite stored_command_is_read_as_password; vm_compute; reflexivity.
  - split; vm_compute; reflexivity.
Qed.

(** ** Uncaught errors *)

(** A path that does not start at the home sign is walked from the
    top-level object, whose [content] is undefined. *)
Lemma getFileSystemItem_throws f s filePath :
  startsWith (normalizedPath s filePath) "~" = false ->
  segments (normalizedPath s filePath) <> [] ->
  getFileSystemItem f s filePath = Throw TypeError.
Proof.
  intros Hh Hs. unfold getFileSystemItem. rewrite Hh.
  destruct (segments (normalizedPath s filePath)) as [|p [|q l]];
    [contradiction | reflexivity | reflexivity].
Qed.

(** C3: in the started session [chmod 755 resume.pdf] throws a TypeError
    that no handler catches, so the submission appends no entry and leaves
    the line in the input; and with [password] as the stored command the
    secret makes the interpreter call itself until the stack is exhausted. *)
Theorem chmod_on_a_relative_path_throws (stack : nat) :
  snd (executeLine byteCompare sampleClock (S stack) (fileSystem 0%Z) (cells started)
         "chmod 755 resume.pdf") = Throw TypeError /\
  snd (handleCommandSubmit byteCompare sampleClock (S stack)
         (upd (setInput "chmod 755 resume.pdf") started)) = Throw TypeError /\
  outputHistory (cells (submit byteCompare sampleClock (S stack) "chmod 755 resume.pdf" started))
  = outputHistory (cells started) /\
  input (cells (submit byteCompare sampleClock (S stack) "chmod 755 resume.pdf" started))
  = "chmod 755 resume.pdf" /\
  snd (executeLine byteCompare sampleClock stack (fileSystem 0%Z) (cells looping) "password")
  = Throw RangeError.
Proof.
  split; [vm_compute; reflexivity|].
  split; [vm_compute; reflexivity|].
  split; [vm_compute; reflexivity|].
  split; [vm_compute; reflexivity|].
  apply stored_secret_overflows; vm_compute; reflexivity.
Qed.

(** ** Changing directory *)

(** [cd] without an argument and [cd ..] never write the previous
    directory. *)
Lemma cd_home_and_up_keep_previous s w :
  previousDirectory (cells (fst (cmd_cd s [] w))) = previousDirectory (cells w) /\
  (isFullFeatured s = true ->
   previousDirectory (cells (fst (cmd_cd s [".."] w))) = previousDirectory (cells w)).
Proof.
  split; [reflexivity|]. intros Hf. unfold cmd_cd. rewrite Hf. simpl.
  break_match; reflexivity.
Qed.

(** [cd -] swaps the current and the previous directory and prints the
    directory it enters. *)
Lemma cd_dash_swaps s w p :
  previousDirectory s = Some p ->
  truthy p = true ->
  cmd_cd s ["-"] w =
  done (upd (setPreviousDirectory (Some (currentDirectory s))) (upd (setCurrentDirectory p) w))
    [msg system p].
Proof.
  intros Hprev Hp. unfold cmd_cd. rewrite Hprev, Hp.
  destruct (isFullFeatured s); reflexivity.
Qed.

(** C4: from [~/about], entered from the home directory, [cd ..] followed by
    [cd -] both succeed and end in the home directory, not in [~/about]
    where the first of the two started; after a [cd] to a path the same
    [cd -] does restore the directory. *)
Theorem cd_up_then_back_does_not_restore :
  currentDirectory (cells inAbout) = "~/about" /\
  snd (executeLine byteCompare sampleClock 8 (fileSystem 0%Z) (cells inAbout) "cd ..")
  = Return [] /\
  snd (executeLine byteCompare sampleClock 8 (fileSystem 0%Z)
         (cells (run byteCompare [sample "cd .."] inAbout)) "cd -")
  = Return [msg system "~"] /\
  currentDirectory (cells (run byteCompare [sample "cd .."; sample "cd -"] inAbout)) = "~" /\
  currentDirectory (cells (run byteCompare [sample "cd"; sample "cd -"] inAbout)) = "~" /\
  currentDirectory (cells (run byteCompare [sample "cd /skills"; sample "cd -"] inAbout))
  = "~/about".
Proof. vm_compute. repeat split; reflexivity. Qed.

(** ** The tree is never written *)

(** The stamps are read by no lookup. *)

Lemma own_undated (o : Object) (k : string) :
  own (undatedObject o) k = option_map undated (own o k).
Proof.
  induction o as [|[k' v] o IH]; [reflexivity|].
  cbn [undatedObject map own fst snd]. destruct (k =? k'); [reflexivity | exact IH].
Qed.

Lemma get_undated (o : Object) (k : string) :
  get (undatedObject o) k =
  match get o k with
  | Own i => Own (undated i)
  | Inherited => Inherited
  | Undefined => Undefined
  end.
Proof.
  unfold get. rewrite own_undated. destruct (own o k); [reflexivity|].
  destruct (arr_includes objectPrototype k); reflexivity.
Qed.

Lemma directory_at_undated (o : Object) (k : string) :
  directory_at (undatedObject o) k = option_map undatedObject (directory_at o k).
Proof.
  unfold directory_at. rewrite get_undated.
  destruct (get o k) as [[lines linesEn m|c m]| |]; reflexivity.
Qed.

Lemma walk_segments_undated (l : list string) (o : Object) :
  walk_segments (undatedObject o) l = option_map undatedObject (walk_segments o l).
Proof.
  revert o. induction l as [|dir l IH]; intros o; [reflexivity|].
  cbn [walk_segments]. destruct (negb (truthy dir)); [apply IH|].
  rewrite directory_at_undated. destruct (directory_at o dir) as [c|]; [apply IH | reflexivity].
Qed.

Lemma walk_directories_undated (l : list string) (o : Object) :
  walk_directories (undatedObject o) l = option_map undatedObject (walk_directories o l).
Proof.
  revert o. induction l as [|dir l IH]; intros o; [reflexivity|].
  cbn [walk_directories].
  rewrite directory_at_undated. destruct (directory_at o dir) as [c|]; [apply IH | reflexivity].
Qed.

Lemma getCurrentDirectoryContent_undated (f : FileSystem) (s : State) :
  getCurrentDirectoryContent (undatedTree f) s
  = option_map undatedObject (getCurrentDirectoryContent f s).
Proof.
  unfold getCurrentDirectoryContent.
  change (top (undatedTree f)) with (undatedObject (top f)).
  apply walk_segments_undated.
Qed.

Lemma getFileContent_undated (f : FileSystem) (s : State) (p : string) :
  getFileContent (undatedTree f) s p = getFileContent f s p.
Proof.
  unfold getFileContent. cbn [undatedTree homeContent].
  rewrite walk_directories_undated.
  destruct (walk_directories (homeContent f) (removelast (segments (normalizedPath s p))))
    as [c|]; [|reflexivity].
  cbn [option_map]. rewrite get_undated.
  destruct (get c (last (segments (normalizedPath s p)) "undefined"))
    as [[lines linesEn m|c' m]| |]; reflexivity.
Qed.

Lemma item_loop_undated (l : list string) (c : Cursor) :
  item_loop (undatedCursor c) l = undatedResult (item_loop c l).
Proof.
  revert c. induction l as [|part l IH]; intros c.
  - destruct c; reflexivity.
  - destruct l as [|q l].
    + destruct c as [|o m]; [reflexivity|].
      cbn [item_loop undatedCursor content_of bind]. rewrite get_undated.
      destruct (get o part) as [i| |]; reflexivity.
    + destruct c as [|o m]; [reflexivity|].
      cbn [item_loop undatedCursor content_of bind]. rewrite get_undated.
      destruct (get o part) as [[lines linesEn mi|c' mi]| |]; try reflexivity.
      exact (IH (AtDirectory c' mi)).
Qed.

Lemma directory_loop_undated (l : list string) (c : Cursor) :
  directory_loop (undatedCursor c) l = undatedResult (directory_loop c l).
Proof.
  revert c. induction l as [|part l IH]; intros c.
  - destruct c; reflexivity.
  - destruct c as [|o m]; [reflexivity|].
    cbn [directory_loop undatedCursor content_of bind]. rewrite get_undated.
    destruct (get o part) as [[lines linesEn mi|c' mi]| |]; try reflexivity.
    exact (IH (AtDirectory c' mi)).
Qed.

Lemma getFileSystemItem_undated (f : FileSystem) (s : State) (p : string) :
  getFileSystemItem (undatedTree f) s p = undatedResult (getFileSystemItem f s p).
Proof.
  unfold getFileSystemItem. destruct (startsWith (normalizedPath s p) "~").
  - exact (item_loop_undated _ (AtDirectory (homeContent f) (homeMeta f))).
  - exact (item_loop_undated _ AtTop).
Qed.

Lemma getDirectoryFromPath_undated (f : FileSystem) (p : string) :
  getDirectoryFromPath (undatedTree f) p = undatedResult (getDirectoryFromPath f p).
Proof.
  unfold getDirectoryFromPath. destruct (p =? "~"); [reflexivity|].
  destruct (startsWith p "~").
  - exact (directory_loop_undated _ (AtDirectory (homeContent f) (homeMeta f))).
  - exact (directory_loop_undated _ AtTop).
Qed.

(** Two trees that differ in their stamps only answer every lookup alike. *)
Lemma lookups_without_stamps (f f' : FileSystem) :
  undatedTree f = undatedTree f' ->
  (forall s p, getFileContent f s p = getFileContent f' s p) /\
  (forall s p, undatedResult (getFileSystemItem f s p)
               = undatedResult (getFileSystemItem f' s p)) /\
  (forall p, undatedResult (getDirectoryFromPath f p)
             = undatedResult (getDirectoryFromPath f' p)) /\
  (forall s, option_map undatedObject (getCurrentDirectoryContent f s)
             = option_map undatedObject (getCurrentDirectoryContent f' s)).
Proof.
  intros E. split; [|split; [|split]].
  - intros s p. rewrite <- (getFileContent_undated f), <- (getFileContent_undated f'), E.
    reflexivity.
  - intros s p.
    rewrite <- (getFileSystemItem_undated f), <- (getFileSystemItem_undated f'), E.
    reflexivity.
  - intros p.
    rewrite <- (getDirectoryFromPath_undated f), <- (getDirectoryFromPath_undated f'), E.
    reflexivity.
  - intros s.
    rewrite <- (getCurrentDirectoryContent_undated f),
      <- (getCurrentDirectoryContent_undated f'), E.
    reflexivity.
Qed.

Section Tree.

Variable localeCompare : string -> string -> Z.

(** The commands that pretend to change the tree queue no write at all. *)
Lemma simulated_commands_write_nothing s args w :
  fst (cmd_chmod s args w) = w /\
  fst (cmd_chown s args w) = w /\
  fst (cmd_touch s args w) = w /\
  (forall now cmd, switch localeCompare now s w cmd "mkdir" args
                   = (w, Return [msg error "mkdir: 權限不足，無法建立目錄"])) /\
  (fst (cmd_rm s args w) = w \/ fst (cmd_rm s args w) = schedule (rickRollTimer s) w).
Proof.
  split; [unfold cmd_chmod, done; break_match; reflexivity|].
  split; [unfold cmd_chown, done; break_match; reflexivity|].
  split; [unfold cmd_touch, done; break_match; reflexivity|].
  split; [reflexivity|].
  unfold cmd_rm, rickRoll, done. break_match; [right|left]; reflexivity.
Qed.

(** From a directory below the home sign [touch] always reports. *)
Lemma cmd_touch_reports s args v :
  rooted (currentDirectory s) = true ->
  exists r, cmd_touch s args v = done v [r] /\ (type r = success \/ type r = error).
Proof.
  intros Hr. destruct args as [|touchPath rest];
    [eexists; split; [reflexivity | right; reflexivity]|].
  unfold cmd_touch.
  pose proof (getDirectoryFromPath_walk (fs v) _ Hr) as Hw.
  rewrite getCurrentDirectoryContent_walk.
  destruct (walk_segments (top (fs v)) (split "/" (currentDirectory s))) as [c|];
    [|eexists; split; [reflexivity | right; reflexivity]].
  destruct Hw as [m Hw]. rewrite Hw. unfold checkPermissionOf.
  destruct (isRoot s); [eexists; split; [reflexivity | left; reflexivity]|].
  destruct (checkPermission s (DirectoryItem c m) write);
    eexists; (split; [reflexivity|]); [left | right]; reflexivity.
Qed.

(** [chmod] and [chown] report whenever they return. *)
Lemma chmod_and_chown_report s args v rs :
  snd (cmd_chmod s args v) = Return rs \/ snd (cmd_chown s args v) = Return rs ->
  exists r, rs = [r] /\ (type r = success \/ type r = error).
Proof.
  unfold cmd_chmod, cmd_chown, done. intros [H|H]; revert H; break_match; intros H;
    try discriminate H; injection H as <-;
    eexists; (split; [reflexivity|]);
    first [left; reflexivity | right; reflexivity].
Qed.

Lemma session_built (steps : list Step) (w : World) :
  builtByTheComponent (fs w) ->
  Forall rendersTheTree steps ->
  builtByTheComponent (fs (session localeCompare steps w)).
Proof.
  revert w. induction steps as [|x steps IH]; intros w Hw Hs; [exact Hw|].
  change (session localeCompare (x :: steps) w)
    with (session localeCompare steps (step localeCompare x w)).
  inversion Hs as [|? ? Hx Hrest]; subst. apply IH; [|exact Hrest].
  destruct x as [e|f]; cbn [step fs].
  - rewrite perform_fs. exact Hw.
  - exact Hx.
Qed.

(** C5, as amended: no handler, callback or effect writes the tree it reads,
    and every render builds the same tree with new stamps; so from a tree
    the component built, over every sequence of events and renders, the tree
    is the same up to the stamps, files have the same lines, and the items,
    directories and directory contents found at every path are the same up
    to the stamps.  [mkdir] reports its error; [touch] reports success or
    failure from every directory below the home sign; [chmod] and [chown]
    queue no write and report success or failure whenever they return; [rm]
    at most schedules the decoy sequence. *)
Theorem no_event_changes_the_tree (steps : list Step) (w : World) :
  builtByTheComponent (fs w) ->
  Forall rendersTheTree steps ->
  undatedTree (fs (session localeCompare steps w)) = undatedTree (fs w) /\
  (forall s p, getFileContent (fs (session localeCompare steps w)) s p
               = getFileContent (fs w) s p) /\
  (forall s p, undatedResult (getFileSystemItem (fs (session localeCompare steps w)) s p)
               = undatedResult (getFileSystemItem (fs w) s p)) /\
  (forall p, undatedResult (getDirectoryFromPath (fs (session localeCompare steps w)) p)
             = undatedResult (getDirectoryFromPath (fs w) p)) /\
  (forall s, option_map undatedObject
               (getCurrentDirectoryContent (fs (session localeCompare steps w)) s)
             = option_map undatedObject (getCurrentDirectoryContent (fs w) s)) /\
  (forall e v, fs (perform localeCompare e v) = fs v) /\
  (forall now s v cmd args,
      switch localeCompare now s v cmd "mkdir" args
      = done v [msg error "mkdir: 權限不足，無法建立目錄"]) /\
  (forall s args v,
      fst (cmd_touch s args v) = v /\
      (rooted (currentDirectory s) = true ->
       exists r, cmd_touch s args v = done v [r] /\ (type r = success \/ type r = error))) /\
  (forall s args v,
      fst (cmd_chmod s args v) = v /\ fst (cmd_chown s args v) = v /\
      forall rs,
        snd (cmd_chmod s args v) = Return rs \/ snd (cmd_chown s args v) = Return rs ->
        exists r, rs = [r] /\ (type r = success \/ type r = error)) /\
  (forall s args v,
      fst (cmd_rm s args v) = v \/ fst (cmd_rm s args v) = schedule (rickRollTimer s) v).
Proof.
  intros Hw Hs.
  assert (E : undatedTree (fs (session localeCompare steps w)) = undatedTree (fs w)).
  { pose proof (session_built steps w Hw Hs) as H.
    unfold builtByTheComponent in *. rewrite H, Hw. reflexivity. }
  destruct (lookups_without_stamps _ _ E) as [L1 [L2 [L3 L4]]].
  split; [exact E|]. split; [exact L1|]. split; [exact L2|]. split; [exact L3|].
  split; [exact L4|]. split; [exact (perform_fs localeCompare)|].
  split; [reflexivity|].
  split.
  { intros s args v. destruct (simulated_commands_write_nothing s args v) as [_ [_ [C _]]].
    split; [exact C | apply cmd_touch_reports]. }
  split.
  { intros s args v. destruct (simulated_commands_write_nothing s args v) as [A [B _]].
    split; [exact A|]. split; [exact B | apply chmod_and_chown_report]. }
  intros s args v. destruct (simulated_commands_write_nothing s args v) as [_ [_ [_ [_ D]]]].
  exact D.
Qed.

End Tree.

(** C5, counterexample: in the started session [chmod 755 resume.pdf] reports
    neither success nor failure, and after a render one millisecond later the
    item found at [~/resume.pdf] is not the one found before. *)
Lemma chmod_reports_nothing_and_renders_stamp_anew :
  (forall rs, snd (executeLine byteCompare sampleClock 8 (fileSystem 0%Z) (cells started)
                     "chmod 755 resume.pdf") <> Return rs) /\
  getFileSystemItem
    (fs (session byteCompare [Handled (sample "touch x"); Rendered (fileSystem 1%Z)] started))
    (cells started) "~/resume.pdf"
  <> getFileSystemItem (fs started) (cells started) "~/resume.pdf".
Proof.
  split.
  - intros rs H. vm_compute in H. discriminate H.
  - intros H. vm_compute in H. discriminate H.
Qed.

Lemma no_event_changes_the_tree_witness :
  undatedTree
    (fs (session byteCompare
           [Handled (sample "rm -rf /"); Rendered (fileSystem 5%Z);
            Handled (Fire sampleClock 0); Rendered (fileSystem 9%Z);
            Handled (sample "touch x")] mounted))
  = undatedTree (fs mounted).
Proof.
  apply (no_event_changes_the_tree byteCompare
           [Handled (sample "rm -rf /"); Rendered (fileSystem 5%Z);
            Handled (Fire sampleClock 0); Rendered (fileSystem 9%Z);
            Handled (sample "touch x")] mounted).
  - reflexivity.
  - repeat constructor.
Defined.

(** The decoy sequence run to its end leaves the tree of the sample session
    as it was built. *)
Example decoy_sequence_leaves_the_tree :
  let fired := map (fun _ => Fire sampleClock 1) (seq 0 16) in
  let w := run byteCompare (sample "rm -rf /" :: fired) started in
  fs w = fileSystem 0%Z /\ nth_error (timers w) 1 = Some [] /\
  isRickRolling (cells w) = false /\
  getFileContent (fs w) (cells w) ".bashrc" = getFileContent (fs started) (cells w) ".bashrc".
Proof. vm_compute. repeat split; reflexivity. Qed.

(** ** The feature gate *)

Section Gate.

Variable localeCompare : string -> string -> Z.

Lemma names_of_listing d o (l : list string) : map nodeName (map (lsNode d o) l) = l.
Proof.
  rewrite map_map. rewrite (map_ext _ (fun x => x)) by (intros; apply nodeName_lsNode).
  apply map_id.
Qed.

Lemma listedNames_cmd_ls_home s args w :
  currentDirectory s = "~" ->
  arr_includes args "--help" = false ->
  listedNames (Return (cmd_ls localeCompare s args w))
  = sort (lsCompare localeCompare (homeContent (fs w))) (lsItems s args (homeContent (fs w))).
Proof.
  intros Hc Hh. unfold cmd_ls, getCurrentDirectoryContent. rewrite Hc, Hh.
  change (walk_segments (top (fs w)) (if "~" =? "~" then ["~"] else split "/" "~"))
    with (Some (homeContent (fs w))).
  cbv iota.
  destruct (lsItems s args (homeContent (fs w))) as [|i l] eqn:E; [reflexivity|].
  cbn [listedNames content]. apply names_of_listing.
Qed.

Lemma executeLine_ls now stack f s line :
  isSudoPrompt s = false ->
  line = "ls" \/ line = "ls -a" ->
  snd (executeLine localeCompare now (S stack) f s line)
  = Return (cmd_ls localeCompare s (tl (split " " line)) (mkWorld f s [] 0)).
Proof.
  intros Hp Hl. unfold executeLine. rewrite processCommand_unfold, Hp.
  destruct Hl as [-> | ->]; unfold dispatch; destruct (isFullFeatured s); reflexivity.
Qed.

Lemma executeLine_ls_names now stack f s line :
  isSudoPrompt s = false ->
  currentDirectory s = "~" ->
  line = "ls" \/ line = "ls -a" ->
  listedNames (snd (executeLine localeCompare now (S stack) f s line))
  = sort (lsCompare localeCompare (homeContent f))
      (lsItems s (tl (split " " line)) (homeContent f)).
Proof.
  intros Hp Hc Hl. rewrite executeLine_ls by assumption.
  rewrite listedNames_cmd_ls_home; [reflexivity | exact Hc |].
  destruct Hl as [-> | ->]; reflexivity.
Qed.

Lemma deviser_start_cells now stack f s :
  isSudoPrompt s = false ->
  isFullFeatured (cells (submit localeCompare now (S stack) "deviser start"
                           (mkWorld f s [] 0))) = true /\
  isSudoPrompt (cells (submit localeCompare now (S stack) "deviser start"
                         (mkWorld f s [] 0))) = false /\
  currentDirectory (cells (submit localeCompare now (S stack) "deviser start"
                             (mkWorld f s [] 0))) = currentDirectory s.
Proof.
  intros Hp. destruct s; simpl in Hp; subst.
  repeat match goal with b : bool |- _ => destruct b end;
    vm_compute; repeat split; reflexivity.
Qed.

(** C7: at the home directory of the repository's tree, before the service
    is started [ls] lists [resume.pdf] alone and [ls -a] adds [.bashrc]: none
    of the gated folders.  Submitting [deviser start] starts the service;
    then [ls] lists the four gated folders that are not hidden besides
    [resume.pdf], and [ls -a] lists all seven entries.  Once the service is
    started no sequence of submissions and scheduled steps stops it. *)
Theorem ls_at_home_before_and_after_the_unlock
  (now : Clock) (stack : nat) (built : Date) (s : State) :
  isSudoPrompt s = false ->
  currentDirectory s = "~" ->
  isFullFeatured s = false ->
  listedNames (snd (executeLine localeCompare now (S stack) (fileSystem built) s "ls"))
  = ["resume.pdf"] /\
  Permutation
    (listedNames (snd (executeLine localeCompare now (S stack) (fileSystem built) s "ls -a")))
    ["resume.pdf"; ".bashrc"] /\
  isFullFeatured (cells (submit localeCompare now (S stack) "deviser start"
                           (mkWorld (fileSystem built) s [] 0))) = true /\
  Permutation
    (listedNames
       (snd (executeLine localeCompare now (S stack) (fileSystem built)
               (cells (submit localeCompare now (S stack) "deviser start"
                         (mkWorld (fileSystem built) s [] 0))) "ls")))
    ["about"; "skills"; "projects"; "contact"; "resume.pdf"] /\
  Permutation
    (listedNames
       (snd (executeLine localeCompare now (S stack) (fileSystem built)
               (cells (submit localeCompare now (S stack) "deviser start"
                         (mkWorld (fileSystem built) s [] 0))) "ls -a")))
    ["about"; "skills"; "projects"; "contact"; ".github"; "resume.pdf"; ".bashrc"] /\
  (forall events w, unlocked w -> unlocked (run localeCompare events w)).
Proof.
  intros Hp Hc Hf.
  destruct (deviser_start_cells now stack (fileSystem built) s Hp) as [Uf [Up Uc]].
  rewrite Hc in Uc.
  rewrite !executeLine_ls_names by (auto; fail).
  unfold lsItems. rewrite Hf, Uf.
  split; [reflexivity|].
  split; [eapply perm_trans; [apply sort_perm | vm_compute; apply Permutation_refl]|].
  split; [reflexivity|].
  split; [eapply perm_trans; [apply sort_perm | vm_compute; apply Permutation_refl]|].
  split; [eapply perm_trans; [apply sort_perm | vm_compute; apply Permutation_refl]|].
  apply run_unlocked.
Qed.

End Gate.

Lemma ls_at_home_before_and_after_the_unlock_witness :
  listedNames (snd (executeLine byteCompare sampleClock 1 (fileSystem 0%Z) initialState "ls"))
  = ["resume.pdf"] /\
  Permutation
    (listedNames (snd (executeLine byteCompare sampleClock 1 (fileSystem 0%Z) initialState
                         "ls -a")))
    ["resume.pdf"; ".bashrc"] /\
  isFullFeatured (cells (submit byteCompare sampleClock 1 "deviser start"
                           (mkWorld (fileSystem 0%Z) initialState [] 0))) = true /\
  Permutation
    (listedNames
       (snd (executeLine byteCompare sampleClock 1 (fileSystem 0%Z)
               (cells (submit byteCompare sampleClock 1 "deviser start"
                         (mkWorld (fileSystem 0%Z) initialState [] 0))) "ls")))
    ["about"; "skills"; "projects"; "contact"; "resume.pdf"] /\
  Permutation
    (listedNames
       (snd (executeLine byteCompare sampleClock 1 (fileSystem 0%Z)
               (cells (submit byteCompare sampleClock 1 "deviser start"
                         (mkWorld (fileSystem 0%Z) initialState [] 0))) "ls -a")))
    ["about"; "skills"; "projects"; "contact"; ".github"; "resume.pdf"; ".bashrc"] /\
  (forall events w, unlocked w -> unlocked (run byteCompare events w)).
Proof.
  apply (ls_at_home_before_and_after_the_unlock byteCompare sampleClock 0 0%Z initialState);
    reflexivity.
Defined.

Example ls_in_the_sample_session :
  listedNames (snd (executeLine byteCompare sampleClock 8 (fileSystem 0%Z) (cells started)
                      "ls -la"))
  = [".github"; "about"; "contact"; "projects"; "skills"; ".bashrc"; "resume.pdf"].
Proof. vm_compute. reflexivity. Qed.

(** ** Unknown commands *)

Lemma prefix_app_l (a b s : string) : prefix (a ++ b) s = true -> prefix a s = true.
Proof.
  revert s. induction a as [|c a IH]; intros s H.
  - destruct s; reflexivity.
  - destruct s as [|d s]; simpl in *; [discriminate|].
    destruct (ascii_dec c d); [apply IH, H | discriminate].
Qed.

Lemma includes_app_l (s a b : string) : includes s (a ++ b) = true -> includes s a = true.
Proof.
  induction s as [|c s IH]; cbn [includes]; intros H;
    apply orb_true_iff in H; apply orb_true_iff; destruct H as [H|H].
  - left. exact (prefix_app_l _ _ _ H).
  - discriminate.
  - left. exact (prefix_app_l _ _ _ H).
  - right. apply IH, H.
Qed.

Lemma rm_prefix_command (cmd flags : string) :
  startsWith cmd ("rm " ++ flags) = true -> hd "" (split " " cmd) = "rm".
Proof.
  unfold startsWith. intros H.
  destruct cmd as [|c1 [|c2 [|c3 rest]]]; cbn [prefix append] in H; try discriminate;
    repeat match type of H with
           | (if ascii_dec ?a ?b then _ else _) = true =>
               destruct (ascii_dec a b); [subst|discriminate]
           end; try discriminate.
  simpl. destruct (split " " rest); reflexivity.
Qed.

Section Unknown.

Variable localeCompare : string -> string -> Z.

Lemma switch_default now s w cmd command args :
  arr_includes switchCases (toLowerCase command) = false ->
  switch localeCompare now s w cmd command args = done w (cmd_default s cmd command args).
Proof.
  unfold arr_includes, switchCases. simpl existsb. intros H.
  repeat (apply orb_false_iff in H; destruct H as [?E H]).
  unfold switch.
  repeat match goal with E : (_ =? _) = false |- _ => rewrite E; clear E end.
  reflexivity.
Qed.

End Unknown.

Section Routing.

Variable localeCompare : string -> string -> Z.

(** For a name with a case of its own the switch does not read the line:
    the test for a hyphen, which alone reads it, is not reached. *)
Lemma switch_known now s w cmd line command args :
  arr_includes switchCases (toLowerCase command) = true ->
  switch localeCompare now s w line command args
  = switch localeCompare now s w cmd command args.
Proof.
  unfold arr_includes. intros H. apply existsb_exists in H.
  destruct H as [c [Hin E]]. apply String.eqb_eq in E.
  unfold switch. cbv zeta. rewrite E. clear E.
  unfold switchCases in Hin. cbn [In] in Hin.
  repeat (destruct Hin as [<-|Hin];
          [vm_compute String.eqb; cbn [orb]; cbv iota; reflexivity|]).
  destruct Hin.
Qed.

(** C8, as amended: while no password is awaited, for a line without a pipe
    or redirection sign that is not the start of the service.  When the
    lower-cased command name has no case in the switch: before the service
    is started, and unless the name is a basic command or empty, the answer
    is the unknown-command record with its two hints; otherwise it is one
    error record, the invalid-option text with the arguments when the line
    holds a hyphen anywhere, the not-found text when it holds none.  When
    the name has a case, the line is no forced recursive delete and the
    service is started or the name is a basic command, the answer is that of
    the case (the short help before the start), whatever the line holds: the
    test for a hyphen is not reached. *)
Theorem unknown_command_reports_by_hyphen
  (now : Clock) (stack : nat) (s : State) (w : World) (cmd : string) :
  isSudoPrompt s = false ->
  includes cmd "|" = false ->
  includes cmd ">" = false ->
  startsService cmd = false ->
  if arr_includes switchCases (toLowerCase (hd "" (split " " cmd))) then
    startsWith cmd "rm -rf" || startsWith cmd "rm -fr" = false ->
    isFullFeatured s || arr_includes basicCommands (toLowerCase (hd "" (split " " cmd)))
    = true ->
    forall line,
      processCommand localeCompare now (S stack) s w cmd =
      if negb (isFullFeatured s) && (toLowerCase (hd "" (split " " cmd)) =? "help")
      then done w (restrictedHelp s)
      else switch localeCompare now s w line (hd "" (split " " cmd)) (tl (split " " cmd))
  else if negb (isFullFeatured s)
          && negb (arr_includes basicCommands (toLowerCase (hd "" (split " " cmd))))
          && negb (toLowerCase (hd "" (split " " cmd)) =? "")
  then
    processCommand localeCompare now (S stack) s w cmd
    = (w, Return (unknownRestricted s (hd "" (split " " cmd))))
  else
    processCommand localeCompare now (S stack) s w cmd =
    (w, Return
          [msg error
             (if includes cmd "-" then
                hd "" (split " " cmd) ++ ": " ++ getText s "err_invalid_option" [] ++ " -- '"
                ++ join " " (tl (split " " cmd)) ++ "'"
              else hd "" (split " " cmd) ++ ": " ++ getText s "err_cmd_not_found" [])]).
Proof.
  intros Hp Hpipe Hred Hstart.
  assert (Hred2 : includes cmd ">>" = false).
  { destruct (includes cmd ">>") eqn:E; [|reflexivity].
    rewrite (includes_app_l cmd ">" ">" E) in Hred. discriminate. }
  rewrite processCommand_unfold, Hp. unfold dispatch.
  rewrite Hpipe, Hred, Hred2. cbn [orb]. fold (startsService cmd). rewrite Hstart.
  cbv zeta.
  destruct (arr_includes switchCases (toLowerCase (hd "" (split " " cmd)))) eqn:Hknown.
  - intros Hrm Hmode line. rewrite Hrm.
    pose proof (switch_known now s w cmd line (hd "" (split " " cmd)) (tl (split " " cmd))
                  Hknown) as K.
    destruct (isFullFeatured s); cbn [negb andb orb] in *; [symmetry; exact K|].
    rewrite Hmode. cbn [negb andb].
    destruct (toLowerCase (hd "" (split " " cmd)) =? "help");
      [reflexivity | symmetry; exact K].
  - assert (Hrm : startsWith cmd "rm -rf" || startsWith cmd "rm -fr" = false).
    { apply orb_false_iff. split.
      - destruct (startsWith cmd "rm -rf") eqn:E; [|reflexivity].
        rewrite (rm_prefix_command cmd "-rf" E) in Hknown. discriminate.
      - destruct (startsWith cmd "rm -fr") eqn:E; [|reflexivity].
        rewrite (rm_prefix_command cmd "-fr" E) in Hknown. discriminate. }
    rewrite Hrm.
    destruct (negb (isFullFeatured s)
              && negb (arr_includes basicCommands (toLowerCase (hd "" (split " " cmd))))
              && negb (toLowerCase (hd "" (split " " cmd)) =? "")); [reflexivity|].
    assert (Hhelp : (toLowerCase (hd "" (split " " cmd)) =? "help") = false).
    { destruct (toLowerCase (hd "" (split " " cmd)) =? "help") eqn:E; [|reflexivity].
      apply String.eqb_eq in E. rewrite E in Hknown. discriminate. }
    rewrite Hhelp, andb_false_r.
    rewrite (switch_default localeCompare) by exact Hknown.
    unfold cmd_default, done. destruct (includes cmd "-"); reflexivity.
Qed.

End Routing.

(** The Kelvin sign is a capital of [k]: the name is [mkdir]. *)
Example kelvin_sign_in_a_name :
  snd (executeLine byteCompare sampleClock 8 (fileSystem 0%Z) (cells started)
         ("m" ++ String (ascii_of_nat 226) (String (ascii_of_nat 132)
                                              (String (ascii_of_nat 170) "dir x"))))
  = Return [msg error "mkdir: 權限不足，無法建立目錄"].
Proof. vm_compute. reflexivity. Qed.

(** C8, counterexample: in the started session [foo-bar] has no argument
    that starts with a hyphen and is still answered with the invalid-option
    text, and [foo | bar] is answered with neither text; before the start
    [foo -x] is answered with neither text and [deviser start] with no error
    at all; while a password is awaited [foo] is read as a password; and the
    known command [ls] with the unknown flag [-z] lists the directory. *)
Lemma hyphen_anywhere_decides :
  ~ unknown_command_as_specified (cells started) "foo-bar" /\
  ~ unknown_command_as_specified (cells started) "foo | bar" /\
  ~ unknown_command_as_specified initialState "foo -x" /\
  ~ unknown_command_as_specified initialState "deviser start" /\
  ~ unknown_command_as_specified (cells prompted) "foo" /\
  ~ reportsError (snd (executeLine byteCompare sampleClock 8 (fileSystem 0%Z) (cells started)
                         "ls -z"))
      (getText (cells started) "err_invalid_option" []).
Proof.
  repeat apply conj.
  - intros H. specialize (H eq_refl). destruct H as [rs [c [H1 [H2 H3]]]].
    vm_compute in H1. injection H1 as <-.
    destruct H2 as [H2|[]]. injection H2 as <-. vm_compute in H3. discriminate.
  - intros H. specialize (H eq_refl). destruct H as [rs [c [H1 [H2 H3]]]].
    vm_compute in H1. injection H1 as <-.
    destruct H2 as [H2|[]]. injection H2 as <-. vm_compute in H3. discriminate.
  - intros H. specialize (H eq_refl). destruct H as [rs [c [H1 [H2 H3]]]].
    vm_compute in H1. injection H1 as <-.
    destruct H2 as [H2|[H2|[H2|[]]]]; try discriminate.
    injection H2 as <-. vm_compute in H3. discriminate.
  - intros H. specialize (H eq_refl). destruct H as [rs [c [H1 [H2 H3]]]].
    vm_compute in H1. injection H1 as <-. destruct H2.
  - intros H. specialize (H eq_refl). destruct H as [rs [c [H1 [H2 H3]]]].
    vm_compute in H1. injection H1 as <-.
    destruct H2 as [H2|[]]. injection H2 as <-. vm_compute in H3. discriminate.
  - intros H. destruct H as [rs [c [H1 [H2 H3]]]].
    vm_compute in H1. injection H1 as <-.
    destruct H2 as [H2|[]]. discriminate.
Qed.

Lemma unknown_command_reports_by_hyphen_witness :
  processCommand byteCompare sampleClock 1 (cells started) started "foo -x y" =
  (started, Return [msg error "foo: 無效的選項 -- '-x y'"]) /\
  processCommand byteCompare sampleClock 1 (cells started) started "foo" =
  (started,
   Return [msg error ("foo: 命令未找到，輸入 " ++ dq ++ "help" ++ dq ++ " 查看可用命令")]) /\
  processCommand byteCompare sampleClock 1 initialState mounted "foo -x" =
  (mounted, Return (unknownRestricted initialState "foo")) /\
  processCommand byteCompare sampleClock 1 initialState mounted "deviser stop" =
  (mounted,
   Return [msg error ("deviser: 命令未找到，輸入 " ++ dq ++ "help" ++ dq ++ " 查看可用命令")]) /\
  (forall line,
      processCommand byteCompare sampleClock 1 (cells started) started "ls -z" =
      switch byteCompare sampleClock (cells started) started line "ls" ["-z"]).
Proof.
  repeat apply conj.
  - apply (unknown_command_reports_by_hyphen byteCompare sampleClock 0 (cells started) started
             "foo -x y"); vm_compute; reflexivity.
  - apply (unknown_command_reports_by_hyphen byteCompare sampleClock 0 (cells started) started
             "foo"); vm_compute; reflexivity.
  - apply (unknown_command_reports_by_hyphen byteCompare sampleClock 0 initialState mounted
             "foo -x"); vm_compute; reflexivity.
  - apply (unknown_command_reports_by_hyphen byteCompare sampleClock 0 initialState mounted
             "deviser stop"); vm_compute; reflexivity.
  - apply (unknown_command_reports_by_hyphen byteCompare sampleClock 0 (cells started) started
             "ls -z"); vm_compute; reflexivity.
Defined.

(** ** Listings of the sample host *)

Lemma byteCompare_total (a b : string) : collates byteCompare a b \/ collates byteCompare b a.
Proof.
  unfold collates, byteCompare. rewrite (String.compare_antisym a b).
  destruct (String.compare b a); simpl; lia.
Qed.

Lemma compare_same (c : string) : String.compare c c = Eq.
Proof.
  pose proof (String.compare_antisym c c) as H.
  destruct (String.compare c c); [reflexivity | discriminate | discriminate].
Qed.

Lemma byteCompare_trans (a b c : string) :
  collates byteCompare a b -> collates byteCompare b c -> collates byteCompare a c.
Proof.
  unfold collates, byteCompare.
  destruct (String.compare a b) eqn:Eab; try lia;
    destruct (String.compare b c) eqn:Ebc; try lia; intros _ _.
  - apply String.compare_eq_iff in Eab, Ebc. subst.
    rewrite compare_same. lia.
  - apply String.compare_eq_iff in Eab. subst. rewrite Ebc. lia.
  - apply String.compare_eq_iff in Ebc. subst. rewrite Eab. lia.
  - apply String_as_OT.cmp_lt in Eab, Ebc.
    pose proof (String_as_OT.lt_trans _ _ _ Eab Ebc) as H.
    apply String_as_OT.cmp_lt in H. unfold String_as_OT.cmp in H. rewrite H. lia.
Qed.

Lemma ls_lists_directories_first_in_collation_order_witness :
  ordered_listing byteCompare
    [ShortEntry "about" true; ShortEntry "contact" true; ShortEntry "projects" true;
     ShortEntry "skills" true; ShortEntry "resume.pdf" false] /\
  (showHidden (tl (split " " "ls")) = false ->
   Forall (fun n => startsWith (nodeName n) "." = false)
     [ShortEntry "about" true; ShortEntry "contact" true; ShortEntry "projects" true;
      ShortEntry "skills" true; ShortEntry "resume.pdf" false]).
Proof.
  apply (ls_lists_directories_first_in_collation_order byteCompare
           byteCompare_total byteCompare_trans sampleClock 1 (cells started) started "ls"
           [mkResult success
              (Fragment
                 [ShortEntry "about" true; ShortEntry "contact" true;
                  ShortEntry "projects" true; ShortEntry "skills" true;
                  ShortEntry "resume.pdf" false])]
           success).
  - vm_compute. reflexivity.
  - left. reflexivity.
Defined.

(** ** File content by language *)






(** Every file of the tree without English lines, read in English. *)
Example files_without_english_lines :
  Forall (fun file =>
            exists lines,
              getFileContent (fs english) (setLanguage zh_TW (cells english)) file
              = Some lines /\
              snd (executeLine byteCompare sampleClock 8 (fileSystem 0%Z) (cells english)
                     ("cat " ++ file))
              = Return (map (fun line => msg success line) lines))
    ["projects/terminal-portfolio/README.md"; "projects/ai-transformer/README.md";
     "projects/crowdfunding-platform/README.md";
     "projects/implicit-sentiment-analysis/README.md"; "projects/starhub-server/README.md";
     "projects/zu-discord-bot/README.md"; ".github/profile.txt"; ".github/stats.txt";
     ".bashrc"].
Proof.
  repeat constructor; eexists; split; vm_compute; reflexivity.
Qed.

Example english_lines_when_present :
  getFileContent (fs english) (cells english) "about/education.txt"
  = Some ["====== Education ======";
          "2019-2023 - Bachelor of Computer Science";
          "Major fields: Software Engineering, Web Development, Artificial Intelligence"].
Proof. vm_compute. reflexivity. Qed.

(** * Further properties *)

(** ** The working directory *)

Lemma isDirectoryPath_home f : isDirectoryPath f "~" = true.
Proof. reflexivity. Qed.

Lemma cd_up_branches (parts : list string) (w : World) :
  match parts with
  | ["~"] => done (upd (setCurrentDirectory "~") w) []
  | _ => done (upd (setCurrentDirectory (join "/" parts)) w) []
  end
  = done (upd (setCurrentDirectory (upTarget parts)) w) [].
Proof.
  destruct parts as [|[|[[] [] [] [] [] [] [] []] [|? ?]] [|? ?]]; reflexivity.
Qed.

(** The directory above a directory of the tree is a directory of the
    tree. *)
Lemma parent_resolves f p :
  isDirectoryPath f p = true ->
  (p =? "~") = false ->
  isDirectoryPath f (upTarget (removelast (split "/" p))) = true.
Proof.
  unfold isDirectoryPath. intros H Hne. apply andb_true_iff in H. destruct H as [Hr Hw].
  destruct (rooted_cases p Hr) as [->|[r ->]]; [discriminate|].
  rewrite split_below in *. rewrite walk_top in Hw.
  pose proof (split_not_nil "/" r) as Hn.
  pose proof (split_parts_without "/" r) as Hs.
  destruct (split "/" r) as [|x l] eqn:E; [contradiction|].
  change (removelast ("~" :: x :: l)) with ("~" :: removelast (x :: l)).
  destruct (walk_segments (homeContent f) (x :: l)) as [c|] eqn:Ew; [|discriminate].
  destruct (walk_segments_removelast _ _ _ Ew) as [c' Hc'].
  assert (Hsub : Forall (fun q => has_char "/" q = false) (removelast (x :: l))).
  { apply Forall_forall. intros q Hq. rewrite Forall_forall in Hs. apply Hs.
    clear - Hq. revert x Hq. induction l as [|y l IH]; intros x Hq; [destruct Hq|].
    cbn [removelast] in Hq. destruct Hq as [<-|Hq]; [left; reflexivity|].
    right. apply IH, Hq. }
  destruct (removelast (x :: l)) as [|y l'] eqn:Er; [reflexivity|].
  assert (Et : upTarget ("~" :: y :: l') = "~/" ++ join "/" (y :: l')) by reflexivity.
  rewrite Et. clear Et.
  rewrite rooted_below, split_below, walk_top.
  rewrite split_join; [rewrite Hc'; reflexivity | discriminate | exact Hsub].
Qed.

Lemma cd_target_rooted (cwd target : string) :
  rooted cwd = true ->
  rooted (if startsWith target "/" then (if target =? "/" then "~" else "~" ++ target)
          else if cwd =? "~" then "~/" ++ target
          else cwd ++ "/" ++ target) = true.
Proof.
  intros Hr. destruct (startsWith target "/") eqn:Ht.
  - destruct (target =? "/"); [reflexivity|].
    unfold startsWith in Ht. destruct target as [|c t]; cbn [prefix] in Ht; [discriminate|].
    destruct (ascii_dec "/" c); [subst|discriminate].
    apply (rooted_below t).
  - destruct (cwd =? "~") eqn:E; [apply rooted_below|].
    destruct (rooted_cases cwd Hr) as [->|[r ->]]; [discriminate|].
    apply (rooted_below (r ++ "/" ++ target)).
Qed.

Lemma found_directory_resolves f p d :
  rooted p = true ->
  getDirectoryFromPath f p = Return (Some d) ->
  isDirectoryPath f p = true.
Proof.
  intros Hr Hd. unfold isDirectoryPath. rewrite Hr.
  pose proof (getDirectoryFromPath_walk f p Hr) as H.
  destruct (walk_segments (top f) (split "/" p)); [reflexivity|].
  rewrite H in Hd. discriminate.
Qed.

Lemma cmd_cd_resolves f s args w :
  fs w = f ->
  directoriesResolve f s ->
  directoriesResolve f (cells w) ->
  directoriesResolve f (cells (fst (cmd_cd s args w))).
Proof.
  intros Hf [Hc Hp] [Hwc Hwp]. unfold cmd_cd.
  destruct args as [|target rest].
  { split; [apply isDirectoryPath_home | exact Hwp]. }
  destruct (negb (isFullFeatured s) && arr_includes restrictedFolders target);
    [split; assumption|].
  destruct (target =? "..").
  { destruct (currentDirectory s =? "~") eqn:E; [split; assumption|].
    rewrite cd_up_branches. split; [|exact Hwp].
    exact (parent_resolves f _ Hc E). }
  destruct (target =? "-").
  { destruct (previousDirectory s) as [p|]; [|split; assumption].
    destruct (truthy p); split; assumption. }
  match goal with
  | |- context [getDirectoryFromPath (fs w) ?np] =>
      pose proof (cd_target_rooted (currentDirectory s) target) as Hroot;
      destruct (getDirectoryFromPath (fs w) np) as [[d|]|e] eqn:Eg
  end; try (split; assumption).
  split; [|exact Hc].
  apply andb_true_iff in Hc. destruct Hc as [Hr _]. specialize (Hroot Hr).
  rewrite Hf in Eg. exact (found_directory_resolves f _ d Hroot Eg).
Qed.

Section Directory.

Variable localeCompare : string -> string -> Z.

Lemma switch_cd now s w cmd command args :
  (toLowerCase command =? "cd") = true ->
  switch localeCompare now s w cmd command args = cmd_cd s args w.
Proof.
  intros H. apply String.eqb_eq in H. unfold switch. rewrite H. reflexivity.
Qed.

Lemma switch_keeps_directory now s w cmd command args :
  (toLowerCase command =? "cd") = false ->
  currentDirectory (cells (fst (switch localeCompare now s w cmd command args)))
  = currentDirectory (cells w) /\
  previousDirectory (cells (fst (switch localeCompare now s w cmd command args)))
  = previousDirectory (cells w).
Proof.
  intros H. unfold switch. rewrite H.
  unfold cmd_cat, cmd_rm, cmd_sudo, cmd_chmod, cmd_chown, cmd_touch, cmd_lang, rickRoll, done.
  break_match; split; reflexivity.
Qed.

(** [dispatch] hands the line to [cd], or the two directories stay. *)
Lemma dispatch_cd_or_keeps now s w cmd :
  dispatch localeCompare now s w cmd = cmd_cd s (tl (split " " cmd)) w \/
  (currentDirectory (cells (fst (dispatch localeCompare now s w cmd)))
   = currentDirectory (cells w) /\
   previousDirectory (cells (fst (dispatch localeCompare now s w cmd)))
   = previousDirectory (cells w)).
Proof.
  unfold dispatch.
  repeat match goal with
         | |- context [if ?b then _ else switch _ _ _ _ _ _ _] => destruct b
         | |- context [if ?b then done _ _ else _] => destruct b
         | |- context [if ?b then rickRoll _ _ else _] => destruct b
         end;
    try (right; unfold deviserStart, rickRoll, done; break_match; split; reflexivity).
  destruct (toLowerCase (hd "" (split " " cmd)) =? "cd") eqn:E.
  - left. apply switch_cd, E.
  - right. apply switch_keeps_directory, E.
Qed.

Lemma directoriesResolve_same f a b :
  currentDirectory a = currentDirectory b ->
  previousDirectory a = previousDirectory b ->
  directoriesResolve f b -> directoriesResolve f a.
Proof. unfold directoriesResolve. intros -> ->. exact (fun H => H). Qed.

Lemma processCommand_resolves now stack f s w cmd :
  fs w = f ->
  directoriesResolve f s ->
  directoriesResolve f (cells w) ->
  directoriesResolve f (cells (fst (processCommand localeCompare now stack s w cmd))).
Proof.
  intros Hf Hs. revert w cmd Hf. induction stack as [|stack IH]; intros w cmd Hf Hw.
  - exact Hw.
  - rewrite processCommand_unfold. destruct (isSudoPrompt s).
    + destruct (cmd =? "password").
      * cbv zeta.
        match goal with
        | |- context [processCommand ?c ?n ?k ?t ?v ?o] =>
            specialize (IH v o Hf Hw); destruct (processCommand c n k t v o)
        end.
        exact IH.
      * break_match; exact Hw.
    + destruct (dispatch_cd_or_keeps now s w cmd) as [->|[E1 E2]].
      * apply cmd_cd_resolves; assumption.
      * exact (directoriesResolve_same f _ _ E1 E2 Hw).
Qed.

Lemma perform_resolves e w :
  directoriesResolve (fs w) (cells w) ->
  directoriesResolve (fs w) (cells (perform localeCompare e w)).
Proof.
  intros H. destruct e as [now stack line|now k|now]; simpl.
  - unfold submit, handleCommandSubmit.
    change (cells (upd (setInput line) w)) with (setInput line (cells w)).
    destruct (negb (truthy (trim (input (setInput line (cells w)))))); [exact H|].
    match goal with
    | |- context [processCommand ?c ?n ?k ?t ?v ?o] =>
        assert (Hv : directoriesResolve (fs w) (cells v)) by (break_match; exact H);
        assert (Hf : fs v = fs w) by (break_match; reflexivity);
        pose proof (processCommand_resolves n k (fs w) t v o Hf H Hv) as H';
        destruct (processCommand c n k t v o) as [w' [rs|e]]
    end; simpl in H'; break_match; exact H'.
  - unfold fire. break_match; try exact H.
    match goal with |- context [runTask _ ?t _] => destruct t end; exact H.
  - unfold bootEffect. break_match; exact H.
Qed.

(** X1: from a session whose current and previous directory name directories
    of the tree, every sequence of events leads to a session where they still
    do; so the content of the current directory can always be read. *)
Theorem working_directory_always_resolves (events : list Event) (w : World) :
  directoriesResolve (fs w) (cells w) ->
  directoriesResolve (fs w) (cells (run localeCompare events w)) /\
  getCurrentDirectoryContent (fs (run localeCompare events w))
    (cells (run localeCompare events w)) <> None.
Proof.
  intros H.
  assert (G : directoriesResolve (fs w) (cells (run localeCompare events w))).
  { revert w H. induction events as [|e events IH]; intros w H; [exact H|].
    change (run localeCompare (e :: events) w)
      with (run localeCompare events (perform localeCompare e w)).
    rewrite <- (perform_fs localeCompare e w).
    apply IH. rewrite perform_fs. apply perform_resolves, H. }
  split; [exact G|].
  rewrite run_fs, getCurrentDirectoryContent_walk.
  destruct G as [G _]. unfold isDirectoryPath in G. apply andb_true_iff in G.
  destruct G as [_ G].
  destruct (walk_segments (top (fs w))
              (split "/" (currentDirectory (cells (run localeCompare events w)))));
    [discriminate | discriminate].
Qed.

(** X2: a line that is not a [cd] command, and any line while a password is
    awaited, leaves the current and the previous directory as they were. *)
Theorem only_cd_moves_the_working_directory
  (now : Clock) (stack : nat) (s : State) (w : World) (cmd : string) :
  isSudoPrompt s = true \/ (toLowerCase (hd "" (split " " cmd)) =? "cd") = false ->
  currentDirectory (cells (fst (processCommand localeCompare now stack s w cmd)))
  = currentDirectory (cells w) /\
  previousDirectory (cells (fst (processCommand localeCompare now stack s w cmd)))
  = previousDirectory (cells w).
Proof.
  revert w cmd. induction stack as [|stack IH]; intros w cmd H; [split; reflexivity|].
  rewrite processCommand_unfold. destruct (isSudoPrompt s) eqn:Hp.
  - destruct (cmd =? "password").
    + cbv zeta.
      match goal with
      | |- context [processCommand ?c ?n ?k ?t ?v ?o] =>
          specialize (IH v o (or_introl eq_refl)); destruct (processCommand c n k t v o)
      end.
      exact IH.
    + break_match; split; reflexivity.
  - destruct H as [H|H]; [discriminate|].
    destruct (dispatch_cd_or_keeps now s w cmd) as [E|E]; [|exact E].
    unfold dispatch.
    repeat match goal with
           | |- context [if ?b then _ else switch _ _ _ _ _ _ _] => destruct b
           | |- context [if ?b then done _ _ else _] => destruct b
           | |- context [if ?b then rickRoll _ _ else _] => destruct b
           end;
      try (unfold deviserStart, rickRoll, done; break_match; split; reflexivity).
    apply switch_keeps_directory, H.
Qed.

End Directory.

(** ** Paths, listings and files *)

Lemma includes_char (s : string) (c : ascii) : includes s (String c "") = has_char c s.
Proof.
  induction s as [|d s IH]; [reflexivity|].
  cbn [includes prefix has_char]. rewrite IH.
  destruct (ascii_dec c d) as [->|Hn].
  - rewrite Ascii.eqb_refl. destruct s; reflexivity.
  - apply Ascii.eqb_neq in Hn. rewrite Hn. reflexivity.
Qed.

Lemma startsWith_char (s : string) (c : ascii) :
  has_char c s = false -> startsWith s (String c "") = false.
Proof.
  unfold startsWith. destruct s as [|d s]; [reflexivity|].
  cbn [prefix has_char]. intros H. apply orb_false_iff in H. destruct H as [H _].
  destruct (ascii_dec c d) as [->|Hn]; [rewrite Ascii.eqb_refl in H; discriminate|reflexivity].
Qed.

Lemma startsWith_head (s : string) (c : ascii) : startsWith (String c s) (String c "") = true.
Proof.
  unfold startsWith. cbn [prefix]. destruct (ascii_dec c c); [|contradiction].
  destruct s; reflexivity.
Qed.

Lemma walk_directories_filter (l : list string) (o : Object) :
  walk_directories o (filter truthy l) = walk_segments o l.
Proof.
  revert o. induction l as [|x l IH]; intros o; [reflexivity|].
  cbn [filter walk_segments]. destruct (truthy x); cbn [negb walk_directories]; [|apply IH].
  destruct (directory_at o x); [apply IH | reflexivity].
Qed.

Lemma item_loop_returns (l : list string) (o : Object) (m : Meta) :
  exists r, item_loop (AtDirectory o m) l = Return r.
Proof.
  revert o m. induction l as [|part l IH]; intros o m.
  - eexists. reflexivity.
  - destruct l as [|q l].
    + cbn [item_loop content_of bind]. destruct (get o part); eexists; reflexivity.
    + cbn [item_loop content_of bind].
      destruct (get o part) as [[lines linesEn mi|c mi]| |];
        try (eexists; reflexivity).
      exact (IH c mi).
Qed.

(** X3: [getFileSystemItem] throws exactly when the normalized path does not
    start with the home sign and has a segment; in every other case it
    returns. *)
Theorem getFileSystemItem_throws_exactly (f : FileSystem) (s : State) (filePath : string) :
  if negb (startsWith (normalizedPath s filePath) "~")
     && match segments (normalizedPath s filePath) with [] => false | _ => true end
  then getFileSystemItem f s filePath = Throw TypeError
  else exists r, getFileSystemItem f s filePath = Return r.
Proof.
  unfold getFileSystemItem.
  destruct (startsWith (normalizedPath s filePath) "~"); cbn [negb andb].
  - exact (item_loop_returns _ _ _).
  - destruct (segments (normalizedPath s filePath)) as [|p [|q l]];
      [eexists; reflexivity | reflexivity | reflexivity].
Qed.

(** X4: [cd] returns no record, the one record of the directory it enters, or
    exactly one error record; with an error record, and when the walk throws,
    it queues no write. *)
Theorem cd_fails_without_a_write (s : State) (args : list string) (w : World) :
  match snd (cmd_cd s args w) with
  | Return [] => True
  | Return [r] => type r = system \/ (type r = error /\ fst (cmd_cd s args w) = w)
  | Return _ => False
  | Throw _ => fst (cmd_cd s args w) = w
  end.
Proof.
  unfold cmd_cd.
  destruct args as [|target rest]; [exact I|].
  destruct (negb (isFullFeatured s) && arr_includes restrictedFolders target);
    [right; split; reflexivity|].
  destruct (target =? "..").
  { destruct (currentDirectory s =? "~"); [exact I|]. rewrite cd_up_branches. exact I. }
  destruct (target =? "-").
  { destruct (previousDirectory s) as [p|]; [|right; split; reflexivity].
    destruct (truthy p); [left; reflexivity | right; split; reflexivity]. }
  match goal with
  | |- context [getDirectoryFromPath (fs w) ?np] =>
      destruct (getDirectoryFromPath (fs w) np) as [[d|]|e]
  end; [exact I | right; split; reflexivity | reflexivity].
Qed.

(** X5: from a directory of the tree, [cd name] with a plain name enters the
    entry of that name in the current directory when it is a directory, and
    records the directory it leaves; for any other name it reports the
    missing directory and writes nothing. *)
Theorem cd_enters_the_listed_directories
  (s : State) (w : World) (name : string) (rest : list string) (o : Object) :
  rooted (currentDirectory s) = true ->
  getCurrentDirectoryContent (fs w) s = Some o ->
  has_char "/" name = false ->
  truthy name = true ->
  (name =? "..") = false ->
  (name =? "-") = false ->
  negb (isFullFeatured s) && arr_includes restrictedFolders name = false ->
  cmd_cd s (name :: rest) w =
  match get o name with
  | Own (DirectoryItem _ _) =>
      done (upd (setCurrentDirectory (currentDirectory s ++ "/" ++ name))
              (upd (setPreviousDirectory (Some (currentDirectory s))) w)) []
  | _ => done w (noSuchDirectory s name)
  end.
Proof.
  intros Hr Ho Hslash Hname Hup Hdash Hgate.
  unfold cmd_cd. rewrite Hgate, Hup, Hdash, (startsWith_char _ _ Hslash).
  assert (Enew : (if currentDirectory s =? "~" then "~/" ++ name
                  else currentDirectory s ++ "/" ++ name)
                 = currentDirectory s ++ "/" ++ name).
  { destruct (currentDirectory s =? "~") eqn:E; [|reflexivity].
    apply String.eqb_eq in E. rewrite E. reflexivity. }
  rewrite Enew. clear Enew.
  assert (Hroot : rooted (currentDirectory s ++ "/" ++ name) = true).
  { destruct (rooted_cases _ Hr) as [->|[r ->]];
      [apply (rooted_below name) | apply (rooted_below (r ++ "/" ++ name))]. }
  pose proof (getDirectoryFromPath_walk (fs w) _ Hroot) as Hw.
  change (currentDirectory s ++ "/" ++ name)
    with (currentDirectory s ++ String "/" name) in Hw.
  rewrite split_app, (split_without _ _ Hslash), walk_segments_app in Hw.
  rewrite getCurrentDirectoryContent_walk in Ho. rewrite Ho in Hw.
  cbn [walk_segments] in Hw. rewrite Hname in Hw. cbn [negb] in Hw.
  unfold directory_at in Hw.
  change (currentDirectory s ++ String "/" name)
    with (currentDirectory s ++ "/" ++ name) in Hw.
  destruct (get o name) as [[lines linesEn mi|c mi]| |].
  - rewrite Hw. reflexivity.
  - destruct Hw as [m' Hw]. rewrite Hw. reflexivity.
  - rewrite Hw. reflexivity.
  - rewrite Hw. reflexivity.
Qed.

(** X6: from a directory of the tree, [cat name] with a plain name other than
    [resume.pdf] returns the lines of the file of that name in the current
    directory, the English ones when the language is English and the file has
    them; for a directory or a name that is no entry it reports the missing
    file. *)
Theorem cat_reads_the_listed_files
  (s : State) (w : World) (name : string) (rest : list string) (o : Object) :
  rooted (currentDirectory s) = true ->
  getCurrentDirectoryContent (fs w) s = Some o ->
  has_char "/" name = false ->
  truthy name = true ->
  (name =? "resume.pdf") = false ->
  cmd_cat s (name :: rest) w =
  match get o name with
  | Own (FileItem lines linesEn _) =>
      done w (map (fun line => msg success line)
                (match language s, linesEn with
                 | en_US, Some en => en
                 | _, _ => lines
                 end))
  | _ => done w (noSuchFile s name)
  end.
Proof.
  intros Hr Ho Hslash Hname Hpdf.
  unfold cmd_cat. rewrite includes_char, Hslash, Hpdf.
  rewrite andb_false_r. cbn [andb].
  assert (E : getFileContent (fs w) s name =
              match get o name with
              | Own (FileItem lines linesEn _) =>
                  Some (match language s, linesEn with
                        | en_US, Some en => en
                        | _, _ => lines
                        end)
              | _ => None
              end).
  { unfold getFileContent, normalizedPath. rewrite (startsWith_char _ _ Hslash).
    rewrite getCurrentDirectoryContent_walk in Ho.
    destruct (rooted_cases _ Hr) as [E|[r E]]; rewrite E in *.
    - change ("~" =? "~") with true. cbv iota.
      unfold segments. rewrite (split_without _ _ Hslash). cbn [filter]. rewrite Hname.
      cbn [removelast last walk_directories].
      assert (o = homeContent (fs w)) as -> by (cbn in Ho; congruence).
      destruct (get (homeContent (fs w)) name) as [[lines linesEn mi|c mi]| |];
        try reflexivity.
      destruct (language s), linesEn; reflexivity.
    - change ("~/" ++ r =? "~") with false. cbv iota.
      change (substring_from 2 ("~/" ++ r)) with r.
      rewrite split_below, walk_top in Ho.
      unfold segments.
      change (r ++ "/" ++ name) with (r ++ String "/" name).
      rewrite split_app, (split_without _ _ Hslash), filter_app.
      cbn [filter]. rewrite Hname.
      rewrite removelast_last, last_last, walk_directories_filter, Ho.
      destruct (get o name) as [[lines linesEn mi|c mi]| |]; try reflexivity.
      destruct (language s), linesEn; reflexivity. }
  rewrite E.
  destruct (get o name) as [[lines linesEn mi|c mi]| |]; reflexivity.
Qed.

(** X7: a path that starts with a slash is read the same from every current
    directory, and a path read from a directory below the home directory is
    read as the absolute path made of the directory and the path. *)
Theorem relative_paths_are_absolute_paths_below_the_directory
  (f : FileSystem) (s s' : State) (d file : string) :
  language s' = language s ->
  currentDirectory s = "~/" ++ d ->
  startsWith file "/" = false ->
  getFileContent f s file = getFileContent f s' ("/" ++ d ++ "/" ++ file) /\
  getFileSystemItem f s file = getFileSystemItem f s' ("/" ++ d ++ "/" ++ file).
Proof.
  intros Hl Hc Hf.
  assert (E : normalizedPath s file = normalizedPath s' ("/" ++ d ++ "/" ++ file)).
  { unfold normalizedPath. rewrite Hf, Hc.
    change ("/" ++ d ++ "/" ++ file) with (String "/" (d ++ "/" ++ file)).
    rewrite startsWith_head. reflexivity. }
  unfold getFileContent, getFileSystemItem. rewrite E, Hl. split; reflexivity.
Qed.

(** X8: the gate of the restricted mode compares the first argument with the
    folder names only: for an argument that starts with a slash [cd] and
    [cat] do what they do once the service is started. *)
Theorem absolute_paths_pass_the_gate
  (s : State) (target : string) (rest : list string) (w : World) :
  startsWith target "/" = true ->
  cmd_cd s (target :: rest) w = cmd_cd (setIsFullFeatured true s) (target :: rest) w /\
  cmd_cat s (target :: rest) w = cmd_cat (setIsFullFeatured true s) (target :: rest) w.
Proof.
  unfold startsWith. intros H. destruct target as [|c t]; cbn [prefix] in H; [discriminate|].
  destruct (ascii_dec "/" c); [subst c|discriminate].
  split.
  - unfold cmd_cd.
    change (arr_includes restrictedFolders (String "/" t)) with false.
    rewrite andb_false_r. reflexivity.
  - unfold cmd_cat.
    assert (E : arr_includes restrictedFolders (hd "" (split "/" (String "/" t))) = false).
    { rewrite split_sep. reflexivity. }
    rewrite E, !andb_false_r. reflexivity.
Qed.

(** ** The session *)

Ltac through_dispatch :=
  unfold dispatch, switch, deviserStart, cmd_cd, cmd_cat, cmd_rm, cmd_sudo, cmd_chmod,
    cmd_chown, cmd_touch, cmd_lang, rickRoll, done;
  break_match.

Section Session.

Variable localeCompare : string -> string -> Z.

Section Observed.

Context {A : Type} (obs : State -> A).

Hypothesis obs_input : forall v p, obs (setInput v p) = obs p.
Hypothesis obs_output : forall v p, obs (setOutputHistory v p) = obs p.
Hypothesis obs_index : forall v p, obs (setHistoryIndex v p) = obs p.
Hypothesis obs_cursor : forall v p, obs (setCursorPosition v p) = obs p.
Hypothesis obs_history : forall v p, obs (setCommandHistory v p) = obs p.
Hypothesis obs_booting : forall v p, obs (setIsBooting v p) = obs p.
Hypothesis obs_rolling : forall v p, obs (setIsRickRolling v p) = obs p.
Hypothesis obs_stage : forall v p, obs (setBootStage v p) = obs p.

Lemma submit_observed now stack line w :
  if truthy (trim line) then
    exists w0,
      obs (cells w0) = obs (cells w) /\
      obs (cells (submit localeCompare now stack line w)) =
      obs (cells (fst (processCommand localeCompare now stack (setInput line (cells w)) w0
                         (trim line))))
  else obs (cells (submit localeCompare now stack line w)) = obs (cells w).
Proof.
  unfold submit, handleCommandSubmit.
  change (cells (upd (setInput line) w)) with (setInput line (cells w)).
  change (input (setInput line (cells w))) with line.
  destruct (truthy (trim line)); cbn [negb].
  - match goal with
    | |- context [processCommand ?c ?n ?k ?t ?v ?o] => exists v
    end.
    split.
    + destruct (negb (isSudoPrompt (setInput line (cells w)))); cbn [upd cells];
        rewrite ?obs_index, ?obs_history, ?obs_input; reflexivity.
    + match goal with
      | |- context [processCommand ?c ?n ?k ?t ?v ?o] =>
          destruct (processCommand c n k t v o) as [w' [rs|e]]
      end; [|reflexivity].
      destruct (toLowerCase (trim line) =? "clear"); cbn [fst upd cells schedule];
        rewrite obs_cursor, obs_input, obs_output; reflexivity.
  - cbn [fst upd cells]. rewrite obs_output, obs_input. reflexivity.
Qed.

Lemma runTask_observed now t w : obs (cells (runTask now t w)) = obs (cells w).
Proof.
  destruct t; cbn [runTask upd cells];
    rewrite ?obs_output, ?obs_booting, ?obs_rolling, ?obs_output; reflexivity.
Qed.

Lemma perform_observed e w :
  match e with
  | Submit now stack line =>
      if truthy (trim line) then
        exists w0,
          obs (cells w0) = obs (cells w) /\
          obs (cells (perform localeCompare e w)) =
          obs (cells (fst (processCommand localeCompare now stack (setInput line (cells w)) w0
                             (trim line))))
      else obs (cells (perform localeCompare e w)) = obs (cells w)
  | _ => obs (cells (perform localeCompare e w)) = obs (cells w)
  end.
Proof.
  destruct e as [now stack line|now k|now]; cbn [perform].
  - apply submit_observed.
  - unfold fire.
    destruct (nth_error (timers w) k) as [[|[delay t] later]|]; try reflexivity.
    rewrite runTask_observed. reflexivity.
  - unfold bootEffect. break_match; cbn [upd cells];
      rewrite ?obs_stage, ?obs_output, ?obs_booting; reflexivity.
Qed.

End Observed.

(** *** Privilege *)

Lemma dispatch_isRoot now s w cmd :
  isRoot (cells (fst (dispatch localeCompare now s w cmd))) = isRoot (cells w).
Proof. through_dispatch; reflexivity. Qed.

Lemma processCommand_isRoot now stack s w cmd :
  isRoot (cells (fst (processCommand localeCompare now stack s w cmd))) =
  isRoot (cells w) ||
  match stack with
  | S _ => isSudoPrompt s && (cmd =? "password")
  | O => false
  end.
Proof.
  revert w cmd. induction stack as [|stack IH]; intros w cmd.
  - cbn [processCommand fst]. rewrite orb_false_r. reflexivity.
  - rewrite processCommand_unfold. destruct (isSudoPrompt s); cbn [andb].
    + destruct (cmd =? "password").
      * cbv zeta.
        match goal with
        | |- context [processCommand ?c ?n ?k ?t ?v ?o] =>
            specialize (IH v o); destruct (processCommand c n k t v o)
        end.
        cbn [fst] in *. rewrite IH. cbn [upd cells setIsRoot setSudoCommand isRoot orb].
        rewrite orb_true_r. reflexivity.
      * rewrite orb_false_r. break_match; reflexivity.
    + rewrite orb_false_r. apply dispatch_isRoot.
Qed.

(** X9: the privilege flag is never taken back, and an event sets it exactly
    when it is the submission of the secret while a password is awaited. *)
Theorem privilege_is_kept_and_comes_from_the_secret (e : Event) (w : World) :
  isRoot (cells (perform localeCompare e w)) =
  isRoot (cells w) ||
  match e with
  | Submit _ (S _) line =>
      isSudoPrompt (cells w) && (trim line =? "password")
  | _ => false
  end.
Proof.
  pose proof (perform_observed isRoot (fun _ _ => eq_refl) (fun _ _ => eq_refl)
                (fun _ _ => eq_refl) (fun _ _ => eq_refl) (fun _ _ => eq_refl)
                (fun _ _ => eq_refl) (fun _ _ => eq_refl) (fun _ _ => eq_refl) e w) as H.
  destruct e as [now stack line|now k|now];
    [|rewrite H, orb_false_r; reflexivity|rewrite H, orb_false_r; reflexivity].
  destruct (truthy (trim line)) eqn:E.
  - destruct H as [w0 [H0 H]]. rewrite H, processCommand_isRoot, H0.
    destruct stack; reflexivity.
  - rewrite H. unfold truthy in E. destruct (trim line); [|discriminate].
    destruct stack; rewrite ?andb_false_r, orb_false_r; reflexivity.
Qed.

(** *** The restricted mode *)

Lemma switch_restricted now s w cmd command args :
  negb (arr_includes basicCommands (toLowerCase command))
  && negb (toLowerCase command =? "") = false ->
  isSudoPrompt (cells (fst (switch localeCompare now s w cmd command args)))
  = isSudoPrompt (cells w) /\
  isRoot (cells (fst (switch localeCompare now s w cmd command args))) = isRoot (cells w) /\
  isFullFeatured (cells (fst (switch localeCompare now s w cmd command args)))
  = isFullFeatured (cells w).
Proof.
  intros G. destruct (toLowerCase command =? "sudo") eqn:E.
  - apply String.eqb_eq in E. rewrite E in G. discriminate G.
  - unfold switch. rewrite E.
    unfold cmd_cd, cmd_cat, cmd_rm, cmd_chmod, cmd_chown, cmd_touch, cmd_lang, rickRoll, done.
    break_match; repeat apply conj; reflexivity.
Qed.

Lemma dispatch_restricted now s w cmd :
  isFullFeatured s = false ->
  isFullFeatured (cells (fst (dispatch localeCompare now s w cmd))) = true \/
  (isSudoPrompt (cells (fst (dispatch localeCompare now s w cmd))) = isSudoPrompt (cells w) /\
   isRoot (cells (fst (dispatch localeCompare now s w cmd))) = isRoot (cells w) /\
   isFullFeatured (cells (fst (dispatch localeCompare now s w cmd)))
   = isFullFeatured (cells w)).
Proof.
  intros Hs. unfold dispatch. rewrite Hs. cbn [negb andb].
  repeat match goal with
         | |- context [if ?b then _ else switch _ _ _ _ _ _ _] => destruct b eqn:?
         | |- context [if ?b then done _ _ else _] => destruct b eqn:?
         | |- context [if ?b then rickRoll _ _ else _] => destruct b eqn:?
         | |- context [if ?b then deviserStart _ _ else _] => destruct b eqn:?
         end;
    first [ right; unfold rickRoll, done; repeat apply conj; reflexivity
          | left; unfold deviserStart; rewrite Hs; reflexivity
          | right; apply switch_restricted; assumption ].
Qed.

Lemma processCommand_privileged now stack s w cmd :
  (isFullFeatured s = true -> isFullFeatured (cells w) = true) ->
  privilegedIsStarted s ->
  privilegedIsStarted (cells w) ->
  privilegedIsStarted (cells (fst (processCommand localeCompare now stack s w cmd))).
Proof.
  intros Hf Hs Hw. destruct (isFullFeatured s) eqn:E.
  - intros _. apply (processCommand_unlocked localeCompare now stack s w cmd), Hf.
    reflexivity.
  - assert (Hp : isSudoPrompt s = false).
    { destruct (isSudoPrompt s) eqn:P; [|reflexivity].
      unfold privilegedIsStarted in Hs. rewrite P, E in Hs. symmetry. apply Hs. reflexivity. }
    destruct stack as [|stack]; [exact Hw|].
    rewrite processCommand_unfold, Hp.
    destruct (dispatch_restricted now s w cmd E) as [H|[H1 [H2 H3]]].
    + intros _. exact H.
    + unfold privilegedIsStarted. rewrite H1, H2, H3. exact Hw.
Qed.

Lemma perform_privileged e w :
  privilegedIsStarted (cells w) -> privilegedIsStarted (cells (perform localeCompare e w)).
Proof.
  intros Hw.
  pose proof (perform_observed (fun p => (isSudoPrompt p, isRoot p, isFullFeatured p))
                (fun _ _ => eq_refl) (fun _ _ => eq_refl)
                (fun _ _ => eq_refl) (fun _ _ => eq_refl) (fun _ _ => eq_refl)
                (fun _ _ => eq_refl) (fun _ _ => eq_refl) (fun _ _ => eq_refl) e w) as H.
  assert (K : forall a b,
             (isSudoPrompt a, isRoot a, isFullFeatured a)
             = (isSudoPrompt b, isRoot b, isFullFeatured b) ->
             privilegedIsStarted b -> privilegedIsStarted a).
  { unfold privilegedIsStarted. intros a b Hab. injection Hab as -> -> ->. exact (fun x => x). }
  destruct e as [now stack line|now k|now]; try exact (K _ _ H Hw).
  destruct (truthy (trim line)); [|exact (K _ _ H Hw)].
  destruct H as [w0 [H0 H]]. apply (K _ _ H).
  apply processCommand_privileged.
  - injection H0 as _ _ H0. rewrite H0. exact (fun x => x).
  - exact Hw.
  - exact (K _ _ H0 Hw).
Qed.

(** X10: a session in which whatever awaits a password or holds the privilege
    has been started stays so over every sequence of events: before
    [deviser start] no password is ever awaited and the privilege is never
    held. *)
Theorem restricted_sessions_are_never_privileged (events : list Event) (w : World) :
  privilegedIsStarted (cells w) ->
  privilegedIsStarted (cells (run localeCompare events w)) /\
  (isFullFeatured (cells (run localeCompare events w)) = false ->
   isSudoPrompt (cells (run localeCompare events w)) = false /\
   isRoot (cells (run localeCompare events w)) = false).
Proof.
  intros H.
  assert (G : privilegedIsStarted (cells (run localeCompare events w))).
  { revert w H. induction events as [|e events IH]; intros w H; [exact H|].
    change (run localeCompare (e :: events) w)
      with (run localeCompare events (perform localeCompare e w)).
    apply IH, perform_privileged, H. }
  split; [exact G|].
  intros F. unfold privilegedIsStarted in G. rewrite F in G.
  destruct (isSudoPrompt (cells (run localeCompare events w)));
    [discriminate G; reflexivity|].
  destruct (isRoot (cells (run localeCompare events w)));
    [discriminate G; reflexivity|].
  split; reflexivity.
Qed.

(** *** The attempt counter *)

Lemma dispatch_passwordAttempts now s w cmd :
  passwordAttempts (cells (fst (dispatch localeCompare now s w cmd)))
  = passwordAttempts (cells w).
Proof. through_dispatch; reflexivity. Qed.

Lemma processCommand_passwordAttempts now stack s w cmd :
  passwordAttempts (cells w) = passwordAttempts s ->
  (passwordAttempts s <= 2)%nat ->
  (passwordAttempts (cells (fst (processCommand localeCompare now stack s w cmd))) <= 2)%nat.
Proof.
  intros Hw Hs. revert w cmd Hw. induction stack as [|stack IH]; intros w cmd Hw.
  - cbn [processCommand fst]. rewrite Hw. exact Hs.
  - rewrite processCommand_unfold. destruct (isSudoPrompt s).
    + destruct (cmd =? "password").
      * cbv zeta.
        match goal with
        | |- context [processCommand ?c ?n ?k ?t ?v ?o] =>
            specialize (IH v o Hw); destruct (processCommand c n k t v o)
        end.
        exact IH.
      * destruct (2 <=? passwordAttempts s)%nat eqn:E.
        -- cbn. lia.
        -- apply Nat.leb_gt in E. cbn. lia.
    + rewrite dispatch_passwordAttempts, Hw. exact Hs.
Qed.

(** X11: the counter of wrong passwords never exceeds two over any sequence of
    events. *)
Theorem attempt_counter_stays_below_three (events : list Event) (w : World) :
  (passwordAttempts (cells w) <= 2)%nat ->
  (passwordAttempts (cells (run localeCompare events w)) <= 2)%nat.
Proof.
  revert w. induction events as [|e events IH]; intros w H; [exact H|].
  change (run localeCompare (e :: events) w)
    with (run localeCompare events (perform localeCompare e w)).
  apply IH.
  pose proof (perform_observed passwordAttempts (fun _ _ => eq_refl) (fun _ _ => eq_refl)
                (fun _ _ => eq_refl) (fun _ _ => eq_refl) (fun _ _ => eq_refl)
                (fun _ _ => eq_refl) (fun _ _ => eq_refl) (fun _ _ => eq_refl) e w) as P.
  destruct e as [now stack line|now k|now]; try (rewrite P; exact H).
  destruct (truthy (trim line)); [|rewrite P; exact H].
  destruct P as [w0 [H0 P]]. rewrite P.
  apply processCommand_passwordAttempts; [exact H0 | exact H].
Qed.

(** *** What is recorded *)

Lemma dispatch_commandHistory now s w cmd :
  commandHistory (cells (fst (dispatch localeCompare now s w cmd)))
  = commandHistory (cells w).
Proof. through_dispatch; reflexivity. Qed.

Lemma processCommand_commandHistory now stack s w cmd :
  commandHistory (cells (fst (processCommand localeCompare now stack s w cmd)))
  = commandHistory (cells w).
Proof.
  revert w cmd. induction stack as [|stack IH]; intros w cmd; [reflexivity|].
  rewrite processCommand_unfold. destruct (isSudoPrompt s); [|apply dispatch_commandHistory].
  destruct (cmd =? "password").
  - cbv zeta.
    match goal with
    | |- context [processCommand ?c ?n ?k ?t ?v ?o] =>
        specialize (IH v o); destruct (processCommand c n k t v o)
    end.
    exact IH.
  - break_match; reflexivity.
Qed.

(** X12: the history of commands grows by exactly the lines that are not blank
    and are submitted while no password is awaited, each recorded as typed;
    nothing else writes it, so what is typed at the password prompt is never
    recorded. *)
Theorem history_records_the_lines_typed_outside_the_prompt (e : Event) (w : World) :
  commandHistory (cells (perform localeCompare e w)) =
  match e with
  | Submit _ _ line =>
      if truthy (trim line) && negb (isSudoPrompt (cells w))
      then (commandHistory (cells w) ++ [line])%list
      else commandHistory (cells w)
  | _ => commandHistory (cells w)
  end.
Proof.
  destruct e as [now stack line|now k|now]; cbn [perform].
  - unfold submit, handleCommandSubmit.
    change (cells (upd (setInput line) w)) with (setInput line (cells w)).
    change (input (setInput line (cells w))) with line.
    change (isSudoPrompt (setInput line (cells w))) with (isSudoPrompt (cells w)).
    destruct (truthy (trim line)); cbn [negb andb]; [|reflexivity].
    match goal with
    | |- context [processCommand ?c ?n ?k ?t ?v ?o] =>
        pose proof (processCommand_commandHistory n k t v o) as H;
        destruct (processCommand c n k t v o) as [w' [rs|e]]
    end; cbn [fst] in H.
    + transitivity (commandHistory (cells w')); [break_match; reflexivity|].
      rewrite H. destruct (isSudoPrompt (cells w)); reflexivity.
    + cbn [fst]. rewrite H. destruct (isSudoPrompt (cells w)); reflexivity.
  - unfold fire.
    destruct (nth_error (timers w) k) as [[|[delay t] later]|]; try reflexivity.
    destruct t; reflexivity.
  - unfold bootEffect. break_match; reflexivity.
Qed.

Lemma processCommand_prompt_output now stack s w cmd :
  isSudoPrompt s = true ->
  outputHistory (cells (fst (processCommand localeCompare now stack s w cmd)))
  = outputHistory (cells w).
Proof.
  intros Hp. revert w cmd. induction stack as [|stack IH]; intros w cmd; [reflexivity|].
  rewrite processCommand_unfold, Hp.
  destruct (cmd =? "password").
  - cbv zeta.
    match goal with
    | |- context [processCommand ?c ?n ?k ?t ?v ?o] =>
        specialize (IH v o); destruct (processCommand c n k t v o)
    end.
    exact IH.
  - break_match; reflexivity.
Qed.

(** *** Identity and language *)

Lemma dispatch_identity now s w cmd :
  hostName (cells (fst (dispatch localeCompare now s w cmd))) = hostName (cells w) /\
  groups (cells (fst (dispatch localeCompare now s w cmd))) = groups (cells w) /\
  ((userName (cells (fst (dispatch localeCompare now s w cmd))) = userName (cells w) /\
    isFullFeatured (cells (fst (dispatch localeCompare now s w cmd)))
    = isFullFeatured (cells w)) \/
   (userName (cells (fst (dispatch localeCompare now s w cmd))) = "deviser" /\
    isFullFeatured (cells (fst (dispatch localeCompare now s w cmd))) = true)).
Proof.
  through_dispatch;
    (split; [reflexivity|]); (split; [reflexivity|]);
    first [left; split; reflexivity | right; split; reflexivity].
Qed.

Lemma processCommand_identity now stack s w cmd :
  hostName (cells (fst (processCommand localeCompare now stack s w cmd)))
  = hostName (cells w) /\
  groups (cells (fst (processCommand localeCompare now stack s w cmd))) = groups (cells w) /\
  ((userName (cells (fst (processCommand localeCompare now stack s w cmd)))
    = userName (cells w) /\
    isFullFeatured (cells (fst (processCommand localeCompare now stack s w cmd)))
    = isFullFeatured (cells w)) \/
   (userName (cells (fst (processCommand localeCompare now stack s w cmd))) = "deviser" /\
    isFullFeatured (cells (fst (processCommand localeCompare now stack s w cmd))) = true)).
Proof.
  revert w cmd. induction stack as [|stack IH]; intros w cmd.
  - split; [reflexivity|]. split; [reflexivity|]. left. split; reflexivity.
  - rewrite processCommand_unfold. destruct (isSudoPrompt s); [|apply dispatch_identity].
    destruct (cmd =? "password").
    + cbv zeta.
      match goal with
      | |- context [processCommand ?c ?n ?k ?t ?v ?o] =>
          specialize (IH v o); destruct (processCommand c n k t v o)
      end.
      exact IH.
    + break_match; (split; [reflexivity|]); (split; [reflexivity|]); left; split; reflexivity.
Qed.

Lemma perform_identity e w :
  startedAsDeviser (cells w) ->
  hostName (cells (perform localeCompare e w)) = hostName (cells w) /\
  groups (cells (perform localeCompare e w)) = groups (cells w) /\
  startedAsDeviser (cells (perform localeCompare e w)) /\
  (isFullFeatured (cells (perform localeCompare e w)) = false ->
   userName (cells (perform localeCompare e w)) = userName (cells w) /\
   isFullFeatured (cells w) = false).
Proof.
  intros Hw.
  pose proof (perform_observed
                (fun p => (hostName p, groups p, userName p, isFullFeatured p))
                (fun _ _ => eq_refl) (fun _ _ => eq_refl)
                (fun _ _ => eq_refl) (fun _ _ => eq_refl) (fun _ _ => eq_refl)
                (fun _ _ => eq_refl) (fun _ _ => eq_refl) (fun _ _ => eq_refl) e w) as H.
  assert (K : forall a : State,
             (hostName a, groups a, userName a, isFullFeatured a)
             = (hostName (cells w), groups (cells w), userName (cells w),
                isFullFeatured (cells w)) ->
             hostName a = hostName (cells w) /\ groups a = groups (cells w) /\
             startedAsDeviser a /\
             (isFullFeatured a = false ->
              userName a = userName (cells w) /\ isFullFeatured (cells w) = false)).
  { unfold startedAsDeviser in *. intros a Ha. injection Ha as -> -> -> ->.
    split; [reflexivity|]. split; [reflexivity|]. split; [exact Hw|].
    intros F. split; [reflexivity | exact F]. }
  destruct e as [now stack line|now k|now]; try exact (K _ H).
  destruct (truthy (trim line)); [|exact (K _ H)].
  destruct H as [w0 [H0 H]].
  injection H as H1 H2 H3 H4. injection H0 as E1 E2 E3 E4.
  cbn [perform] in *. unfold startedAsDeviser in *.
  rewrite H1, H2, H3, H4. clear H1 H2 H3 H4.
  match goal with
  | |- context [processCommand ?c ?n ?k ?t ?v ?o] =>
      destruct (processCommand_identity n k t v o) as [I1 [I2 I3]]
  end.
  rewrite I1, I2, E1, E2. split; [reflexivity|]. split; [reflexivity|].
  unfold startedAsDeviser in *.
  destruct I3 as [[I3 I4]|[I3 I4]]; rewrite I3, I4.
  - rewrite E3, E4. split; [exact Hw|]. intros F. split; [reflexivity | exact F].
  - split; [reflexivity | discriminate].
Qed.

(** X14: the host name and the groups are never written, and the user name is
    written by the start of the service only: a started session runs as
    [deviser], and one that is not started has the user name it began
    with. *)
Theorem the_started_service_runs_as_deviser (events : list Event) (w : World) :
  startedAsDeviser (cells w) ->
  hostName (cells (run localeCompare events w)) = hostName (cells w) /\
  groups (cells (run localeCompare events w)) = groups (cells w) /\
  startedAsDeviser (cells (run localeCompare events w)) /\
  (isFullFeatured (cells (run localeCompare events w)) = false ->
   userName (cells (run localeCompare events w)) = userName (cells w)).
Proof.
  revert w. induction events as [|e events IH]; intros w H.
  - split; [reflexivity|]. split; [reflexivity|]. split; [exact H | reflexivity].
  - change (run localeCompare (e :: events) w)
      with (run localeCompare events (perform localeCompare e w)).
    destruct (perform_identity e w H) as [P1 [P2 [P3 P4]]].
    destruct (IH _ P3) as [Q1 [Q2 [Q3 Q4]]].
    rewrite Q1, Q2, P1, P2. split; [reflexivity|]. split; [reflexivity|]. split; [exact Q3|].
    intros F. rewrite (Q4 F).
    destruct (isFullFeatured (cells (perform localeCompare e w))) eqn:G.
    + pose proof (run_unlocked localeCompare events _ G) as U. unfold unlocked in U.
      rewrite U in F. discriminate.
    + apply P4. reflexivity.
Qed.

Lemma switch_keeps_language now s w cmd command args :
  (toLowerCase command =? "lang") = false ->
  language (cells (fst (switch localeCompare now s w cmd command args)))
  = language (cells w).
Proof.
  intros H. unfold switch. rewrite H.
  unfold cmd_cd, cmd_cat, cmd_rm, cmd_sudo, cmd_chmod, cmd_chown, cmd_touch, rickRoll, done.
  break_match; reflexivity.
Qed.

(** X15: a line whose command name is not [lang], and any line while a password
    is awaited, leaves the language as it was. *)
Theorem only_lang_changes_the_language
  (now : Clock) (stack : nat) (s : State) (w : World) (cmd : string) :
  isSudoPrompt s = true \/ (toLowerCase (hd "" (split " " cmd)) =? "lang") = false ->
  language (cells (fst (processCommand localeCompare now stack s w cmd)))
  = language (cells w).
Proof.
  revert w cmd. induction stack as [|stack IH]; intros w cmd H; [reflexivity|].
  rewrite processCommand_unfold. destruct (isSudoPrompt s) eqn:Hp.
  - destruct (cmd =? "password").
    + cbv zeta.
      match goal with
      | |- context [processCommand ?c ?n ?k ?t ?v ?o] =>
          specialize (IH v o (or_introl eq_refl)); destruct (processCommand c n k t v o)
      end.
      exact IH.
    + break_match; reflexivity.
  - destruct H as [H|H]; [discriminate|].
    unfold dispatch.
    repeat match goal with
           | |- context [if ?b then _ else switch _ _ _ _ _ _ _] => destruct b
           | |- context [if ?b then done _ _ else _] => destruct b
           | |- context [if ?b then rickRoll _ _ else _] => destruct b
           | |- context [if ?b then deviserStart _ _ else _] => destruct b
           end;
      first [ apply switch_keeps_language, H
            | unfold deviserStart, rickRoll, done; break_match; reflexivity ].
Qed.

End Session.

(** ** What is shown at the prompt *)

Section Echo.

Variable localeCompare : string -> string -> Z.

(** While a password is awaited the records of [processCommand] depend on
    the line, the stored command and the counter only. *)
Lemma processCommand_prompt_records now stack s1 s2 w1 w2 cmd :
  isSudoPrompt s1 = true ->
  isSudoPrompt s2 = true ->
  sudoCommand s1 = sudoCommand s2 ->
  passwordAttempts s1 = passwordAttempts s2 ->
  snd (processCommand localeCompare now stack s1 w1 cmd)
  = snd (processCommand localeCompare now stack s2 w2 cmd).
Proof.
  intros H1 H2 Hc Ha. revert w1 w2 cmd.
  induction stack as [|stack IH]; intros w1 w2 cmd; [reflexivity|].
  rewrite !processCommand_unfold, H1, H2, Ha.
  destruct (cmd =? "password").
  - cbv zeta. rewrite Hc.
    specialize (IH (upd (setSudoCommand "") (upd (setIsRoot true) (upd (setIsSudoPrompt false) w1)))
                   (upd (setSudoCommand "") (upd (setIsRoot true) (upd (setIsSudoPrompt false) w2)))
                   (sudoCommand s2)).
    destruct (processCommand localeCompare now stack s1 _ (sudoCommand s2)) as [v1 r1].
    destruct (processCommand localeCompare now stack s2 _ (sudoCommand s2)) as [v2 r2].
    cbn [snd] in *. rewrite IH. reflexivity.
  - destruct (2 <=? passwordAttempts s2)%nat; reflexivity.
Qed.

(** X13: what is typed while a password is awaited is not shown.  The output
    history after the submission depends on the line through two facts only,
    whether it is blank and whether its trimmed text is the secret: two lines
    that agree on both leave the same output history.  The history stays as
    it was or gains one entry without command text; for a line that is not
    blank and not the secret the entry holds the authentication failure, or
    the lockout when two mismatches were counted before. *)
Theorem the_secret_is_not_echoed
  (now : Clock) (stack : nat) (line other : string) (w : World) :
  isSudoPrompt (cells w) = true ->
  truthy (trim other) = truthy (trim line) ->
  (trim other =? "password") = (trim line =? "password") ->
  outputHistory (cells (submit localeCompare now (S stack) other w))
  = outputHistory (cells (submit localeCompare now (S stack) line w)) /\
  (outputHistory (cells (submit localeCompare now (S stack) line w))
   = outputHistory (cells w) \/
   exists rs,
     outputHistory (cells (submit localeCompare now (S stack) line w))
     = (outputHistory (cells w) ++ [mkEntry "" rs])%list) /\
  (truthy (trim line) = true ->
   (trim line =? "password") = false ->
   outputHistory (cells (submit localeCompare now (S stack) line w))
   = (outputHistory (cells w)
      ++ [mkEntry "" [if (2 <=? passwordAttempts (cells w))%nat then lockout
                      else authFailure]])%list).
Proof.
  intros Hp Ht Hs.
  assert (Shape : forall n l,
            outputHistory (cells (submit localeCompare now n l w)) =
            if negb (truthy (trim l)) then (outputHistory (cells w) ++ [mkEntry "" []])%list
            else
              match snd (processCommand localeCompare now n (cells w) w (trim l)) with
              | Return rs => (outputHistory (cells w) ++ [mkEntry "" rs])%list
              | Throw _ => outputHistory (cells w)
              end).
  { intros n l. unfold submit, handleCommandSubmit.
    change (cells (upd (setInput l) w)) with (setInput l (cells w)).
    change (input (setInput l (cells w))) with l.
    change (isSudoPrompt (setInput l (cells w))) with (isSudoPrompt (cells w)).
    rewrite Hp. cbn [negb].
    destruct (negb (truthy (trim l))); [reflexivity|].
    match goal with
    | |- context [processCommand ?c ?k ?n' ?t ?v ?o] =>
        pose proof (processCommand_prompt_output c k n' t v o Hp) as H;
        pose proof (processCommand_prompt_records k n' t (cells w) v w o Hp Hp
                      eq_refl eq_refl) as R;
        destruct (processCommand c k n' t v o) as [w' [rs|e]]
    end; cbn [fst snd] in H, R; rewrite <- R.
    - destruct (toLowerCase (trim l) =? "clear"); cbn; rewrite H; reflexivity.
    - exact H. }
  split; [|split].
  - rewrite (Shape (S stack) other), (Shape (S stack) line), Ht.
    destruct (negb (truthy (trim line))); [reflexivity|].
    rewrite !processCommand_unfold, Hp, Hs.
    reflexivity.
  - rewrite (Shape (S stack) line).
    destruct (negb (truthy (trim line))); [right; eexists; reflexivity|].
    destruct (snd (processCommand localeCompare now (S stack) (cells w) w (trim line)));
      [right; eexists; reflexivity | left; reflexivity].
  - intros Hn Hw. rewrite (Shape (S stack) line), Hn. cbn [negb].
    rewrite processCommand_unfold, Hp, Hw.
    destruct (2 <=? passwordAttempts (cells w))%nat; reflexivity.
Qed.

End Echo.

(** ** The last entry and the words of a line *)

(** X16: the update of the last entry that the progress callbacks perform keeps
    every entry before the last, keeps the command of every entry, and gives
    the last entry the new result; on an empty history it does nothing. *)
Theorem progress_rewrites_the_last_result_only
  (f : list CommandResult -> list CommandResult) (h : list OutputEntry) :
  removelast (onLast f h) = removelast h /\
  map command (onLast f h) = map command h /\
  map result (onLast f h) =
  match h with
  | [] => []
  | _ => (map result (removelast h) ++ [f (result (last h (mkEntry "" [])))])%list
  end.
Proof.
  induction h as [|e l _] using rev_ind.
  - repeat apply conj; reflexivity.
  - unfold onLast. rewrite rev_app_distr. cbn [rev app]. rewrite rev_involutive.
    rewrite !removelast_last, !map_app, last_last.
    repeat apply conj; try reflexivity.
    destruct (l ++ [e])%list eqn:E; [destruct l; discriminate|reflexivity].
Qed.

Lemma includes_without (c : ascii) (p s : string) :
  has_char c s = false -> includes s (String c p) = false.
Proof.
  induction s as [|d s IH]; [reflexivity|].
  cbn [has_char includes prefix]. intros H. apply orb_false_iff in H. destruct H as [H1 H2].
  rewrite (IH H2). destruct (ascii_dec c d) as [->|Hn];
    [rewrite Ascii.eqb_refl in H1; discriminate|reflexivity].
Qed.

Section Words.

Variable localeCompare : string -> string -> Z.

(** X17: while no password is awaited, [echo] prints the rest of the line as it
    was typed, and in a started session [sudo] stores the rest of the line as
    it was typed and asks for the password, for every rest without a pipe or a
    redirection sign. *)
Theorem the_words_after_the_command_are_kept
  (now : Clock) (stack : nat) (s : State) (w : World) (rest : string) :
  isSudoPrompt s = false ->
  has_char "|" rest = false ->
  has_char ">" rest = false ->
  processCommand localeCompare now (S stack) s w ("echo " ++ rest)
  = done w [msg success rest] /\
  (isFullFeatured s = true ->
   processCommand localeCompare now (S stack) s w ("sudo " ++ rest)
   = done (upd (setIsSudoPrompt true) (upd (setSudoCommand rest) w))
       [msg system ("[sudo] " ++ userName s ++ " 的密碼:")]).
Proof.
  intros Hp Hbar Hgt.
  assert (Hargs : forall name, has_char " " name = false ->
            split " " (name ++ String " " rest) = name :: split " " rest).
  { intros name Hn. rewrite split_app, (split_without _ _ Hn). reflexivity. }
  split; [|intros Hf]; rewrite processCommand_unfold, Hp; unfold dispatch.
  - change ("echo " ++ rest) with (String "e" (String "c" (String "h" (String "o" (String " " rest))))).
    rewrite includes_char, !includes_without
      by (cbn [has_char Ascii.eqb Bool.eqb orb]; assumption).
    cbn [has_char Ascii.eqb Bool.eqb orb]. rewrite Hbar. cbn [orb].
    change (startsWith (String "e" _) "rm -rf") with false.
    change (startsWith (String "e" _) "rm -fr") with false.
    cbn [orb].
    change (String "e" (String "c" (String "h" (String "o" (String " " rest)))))
      with ("echo" ++ String " " rest).
    rewrite (Hargs "echo" eq_refl). cbn [hd tl].
    change (toLowerCase "echo" =? "deviser") with false. cbn [andb].
    change (arr_includes basicCommands (toLowerCase "echo")) with true.
    change (toLowerCase "echo" =? "help") with false.
    rewrite !andb_false_r. cbn [negb andb].
    unfold switch. change (toLowerCase "echo") with "echo". cbv beta zeta.
    change ("echo" =? "help") with false. cbv iota.
    pose proof (split_not_nil " " rest) as Hne.
    pose proof (join_split " " rest) as Hj.
    destruct (split " " rest); [contradiction|].
    vm_compute String.eqb. cbv iota. rewrite Hj. reflexivity.
  - change ("sudo " ++ rest) with (String "s" (String "u" (String "d" (String "o" (String " " rest))))).
    rewrite includes_char, !includes_without
      by (cbn [has_char Ascii.eqb Bool.eqb orb]; assumption).
    cbn [has_char Ascii.eqb Bool.eqb orb]. rewrite Hbar. cbn [orb].
    change (startsWith (String "s" _) "rm -rf") with false.
    change (startsWith (String "s" _) "rm -fr") with false.
    cbn [orb].
    change (String "s" (String "u" (String "d" (String "o" (String " " rest)))))
      with ("sudo" ++ String " " rest).
    rewrite (Hargs "sudo" eq_refl). cbn [hd tl].
    change (toLowerCase "sudo" =? "deviser") with false. rewrite Hf. cbn [negb andb].
    unfold switch. change (toLowerCase "sudo") with "sudo". cbv beta zeta.
    vm_compute String.eqb. cbv iota. cbn [orb].
    unfold cmd_sudo.
    pose proof (split_not_nil " " rest) as Hne.
    pose proof (join_split " " rest) as Hj.
    destruct (split " " rest); [contradiction|].
    rewrite Hj. reflexivity.
Qed.

End Words.

(** ** The input line *)

Section Keys.

Variable localeCompare : string -> string -> Z.

Lemma dispatch_history now s w cmd :
  commandHistory (cells (fst (dispatch localeCompare now s w cmd)))
  = commandHistory (cells w) /\
  historyIndex (cells (fst (dispatch localeCompare now s w cmd))) = historyIndex (cells w).
Proof. through_dispatch; split; reflexivity. Qed.

Lemma processCommand_history now stack s w cmd :
  commandHistory (cells (fst (processCommand localeCompare now stack s w cmd)))
  = commandHistory (cells w) /\
  historyIndex (cells (fst (processCommand localeCompare now stack s w cmd)))
  = historyIndex (cells w).
Proof.
  revert w cmd. induction stack as [|stack IH]; intros w cmd; [split; reflexivity|].
  rewrite processCommand_unfold. destruct (isSudoPrompt s); [|apply dispatch_history].
  destruct (cmd =? "password").
  - cbv zeta.
    match goal with
    | |- context [processCommand ?c ?n ?k ?t ?v ?o] =>
        specialize (IH v o); destruct (processCommand c n k t v o)
    end.
    exact IH.
  - break_match; split; reflexivity.
Qed.

Lemma perform_indexInRange e w :
  indexInRange (cells w) -> indexInRange (cells (perform localeCompare e w)).
Proof.
  intros H. destruct e as [now stack line|now k|now]; cbn [perform].
  - unfold submit, handleCommandSubmit.
    change (cells (upd (setInput line) w)) with (setInput line (cells w)).
    change (input (setInput line (cells w))) with line.
    destruct (negb (truthy (trim line))); [exact H|].
    match goal with
    | |- context [processCommand ?c ?n ?k ?t ?v ?o] =>
        assert (Hv : historyIndex (cells v) = (-1)%Z) by reflexivity;
        destruct (processCommand_history n k t v o) as [H1 H2];
        destruct (processCommand c n k t v o) as [w' [rs|e]]
    end; cbn [fst] in H1, H2; rewrite Hv in H2.
    + assert (G : indexInRange (cells w')).
      { unfold indexInRange. rewrite H1, H2. split; [lia|]. apply Z.lt_le_trans with 0%Z; lia. }
      break_match; exact G.
    + unfold indexInRange. cbn [fst]. rewrite H1, H2. split; [lia|].
      apply Z.lt_le_trans with 0%Z; lia.
  - unfold fire.
    destruct (nth_error (timers w) k) as [[|[delay t] later]|]; try exact H.
    destruct t; exact H.
  - unfold bootEffect. break_match; exact H.
Qed.

Lemma at_index_in_range (a : list string) (i : Z) :
  (0 <= i < Z.of_nat (List.length a))%Z -> exists line, at_index a i = Some line.
Proof.
  intros H. unfold at_index. destruct (i <? 0)%Z eqn:E; [apply Z.ltb_lt in E; lia|].
  destruct (nth_error a (Z.to_nat i)) eqn:N; [eexists; reflexivity|].
  apply nth_error_None in N. lia.
Qed.

Lemma handleKeyDown_indexInRange e w :
  indexInRange (cells w) ->
  exists w', handleKeyDown (cells w) e w = Some w' /\ indexInRange (cells w').
Proof.
  unfold indexInRange. intros H. unfold handleKeyDown.
  destruct (key e =? "ArrowUp").
  { destruct (historyIndex (cells w) <? Z.of_nat (List.length (commandHistory (cells w))) - 1)%Z
      eqn:E; [|exists w; split; [reflexivity | exact H]].
    apply Z.ltb_lt in E. cbv zeta.
    destruct (at_index_in_range (commandHistory (cells w))
                (Z.of_nat (List.length (commandHistory (cells w))) - 1
                 - (historyIndex (cells w) + 1))) as [line Hl]; [lia|].
    rewrite Hl. eexists. split; [reflexivity|]. cbn. lia. }
  destruct (key e =? "ArrowDown").
  { destruct (0 <? historyIndex (cells w))%Z eqn:E.
    - apply Z.ltb_lt in E. cbv zeta.
      destruct (at_index_in_range (commandHistory (cells w))
                  (Z.of_nat (List.length (commandHistory (cells w))) - 1
                   - (historyIndex (cells w) - 1))) as [line Hl]; [lia|].
      rewrite Hl. eexists. split; [reflexivity|]. cbn. lia.
    - destruct (historyIndex (cells w) =? 0)%Z eqn:F;
        [|exists w; split; [reflexivity | exact H]].
      eexists. split; [reflexivity|]. cbn. lia. }
  break_match; eexists; (split; [reflexivity | exact H]).
Qed.

(** X18: from a session whose history index is [-1] or the index of a recorded
    line, every sequence of events, key presses and changes of the input line
    is handled without handing [undefined] to the input line, and leads to a
    session whose index is again in that range. *)
Theorem history_browsing_stays_in_range (actions : list Action) (w : World) :
  indexInRange (cells w) ->
  exists w', play localeCompare actions w = Some w' /\ indexInRange (cells w').
Proof.
  revert w. induction actions as [|a actions IH]; intros w H.
  - exists w. split; [reflexivity | exact H].
  - cbn [play]. destruct a as [e|e|value]; cbn [act].
    + apply IH, perform_indexInRange, H.
    + destruct (handleKeyDown_indexInRange e w H) as [w' [E H']]. rewrite E. apply IH, H'.
    + apply IH. exact H.
Qed.

Lemma at_index_recent (a : list string) (k : nat) :
  (k < List.length a)%nat ->
  at_index a (Z.of_nat (List.length a) - 1 - Z.of_nat k) = Some (nth k (rev a) "").
Proof.
  intros H. unfold at_index.
  destruct (Z.of_nat (List.length a) - 1 - Z.of_nat k <? 0)%Z eqn:E;
    [apply Z.ltb_lt in E; lia|].
  replace (Z.to_nat (Z.of_nat (List.length a) - 1 - Z.of_nat k))
    with (List.length a - S k)%nat by lia.
  rewrite (rev_nth a "" H). apply nth_error_nth'. lia.
Qed.

Lemma arrowUp_recalls (w : World) (k : nat) :
  historyIndex (cells w) = (Z.of_nat k - 1)%Z ->
  (k < List.length (commandHistory (cells w)))%nat ->
  handleKeyDown (cells w) arrowUp w =
  Some (upd (setInput (nth k (rev (commandHistory (cells w))) ""))
          (upd (setHistoryIndex (Z.of_nat k)) w)).
Proof.
  intros Hi Hk. unfold handleKeyDown. cbn [key arrowUp]. change ("ArrowUp" =? "ArrowUp") with true.
  cbv iota zeta. rewrite Hi.
  destruct (Z.of_nat k - 1 <? Z.of_nat (List.length (commandHistory (cells w))) - 1)%Z eqn:E;
    [|apply Z.ltb_ge in E; lia].
  replace (Z.of_nat k - 1 + 1)%Z with (Z.of_nat k) by lia.
  rewrite (at_index_recent _ _ Hk). reflexivity.
Qed.

(** X19: on a fresh prompt, pressing the up arrow [k + 1] times puts the
    [k + 1]-th most recent recorded line into the input line and leaves the
    index at [k], for every [k] below the number of recorded lines. *)
Theorem arrow_up_recalls_the_recent_lines (w : World) (k : nat) :
  historyIndex (cells w) = (-1)%Z ->
  (k < List.length (commandHistory (cells w)))%nat ->
  exists w',
    play localeCompare (repeat (KeyDown arrowUp) (S k)) w = Some w' /\
    input (cells w') = nth k (rev (commandHistory (cells w))) "" /\
    historyIndex (cells w') = Z.of_nat k /\
    commandHistory (cells w') = commandHistory (cells w).
Proof.
  intros Hi Hk.
  assert (G : forall n (v : World),
             historyIndex (cells v) = (Z.of_nat n - 1)%Z ->
             commandHistory (cells v) = commandHistory (cells w) ->
             (n + k < List.length (commandHistory (cells w)))%nat ->
             exists w',
               play localeCompare (repeat (KeyDown arrowUp) (S k)) v = Some w' /\
               input (cells w') = nth (n + k) (rev (commandHistory (cells w))) "" /\
               historyIndex (cells w') = Z.of_nat (n + k) /\
               commandHistory (cells w') = commandHistory (cells w)).
  { clear Hi Hk. induction k as [|k IH]; intros n v Hv Hh Hn.
    - cbn [repeat play act]. rewrite (arrowUp_recalls v n Hv) by (rewrite Hh; lia).
      eexists. split; [reflexivity|].
      cbn [upd cells setInput setHistoryIndex input historyIndex commandHistory].
      rewrite Hh, Nat.add_0_r.
      split; [reflexivity|]. split; reflexivity.
    - change (repeat (KeyDown arrowUp) (S (S k)))
        with (KeyDown arrowUp :: repeat (KeyDown arrowUp) (S k)).
      cbn [play act]. rewrite (arrowUp_recalls v n Hv) by (rewrite Hh; lia).
      destruct (IH (S n)
                  (upd (setInput (nth n (rev (commandHistory (cells v))) ""))
                     (upd (setHistoryIndex (Z.of_nat n)) v)))
        as [w' [E [H1 [H2 H3]]]].
      + cbn [upd cells setInput setHistoryIndex historyIndex]. lia.
      + exact Hh.
      + lia.
      + exists w'. split; [exact E|].
        replace (n + S k)%nat with (S n + k)%nat by lia.
        split; [exact H1|]. split; [exact H2 | exact H3]. }
  exact (G 0%nat w Hi eq_refl Hk).
Qed.

(** X20: where the up arrow moves, the down arrow moves back to the index it
    came from; back at [-1] the input line is emptied, whatever had been
    typed, and elsewhere it holds the recorded line of that index. *)
Theorem arrow_down_undoes_arrow_up (w : World) (k : nat) :
  historyIndex (cells w) = (Z.of_nat k - 1)%Z ->
  (k < List.length (commandHistory (cells w)))%nat ->
  exists w',
    play localeCompare [KeyDown arrowUp; KeyDown arrowDown] w = Some w' /\
    historyIndex (cells w') = historyIndex (cells w) /\
    input (cells w') =
    match k with
    | O => ""
    | S j => nth j (rev (commandHistory (cells w))) ""
    end.
Proof.
  intros Hi Hk. cbn [play act]. rewrite (arrowUp_recalls w k Hi Hk).
  unfold handleKeyDown. cbn [key arrowDown]. change ("ArrowDown" =? "ArrowUp") with false.
  change ("ArrowDown" =? "ArrowDown") with true. cbv iota zeta.
  cbn [upd cells setInput setHistoryIndex historyIndex commandHistory].
  destruct k as [|j].
  - change (0 <? Z.of_nat 0)%Z with false. change (Z.of_nat 0 =? 0)%Z with true. cbv iota.
    eexists. split; [reflexivity|]. split; [symmetry; exact Hi | reflexivity].
  - destruct (0 <? Z.of_nat (S j))%Z eqn:E; [|apply Z.ltb_ge in E; lia].
    replace (Z.of_nat (List.length (commandHistory (cells w))) - 1 - (Z.of_nat (S j) - 1))%Z
      with (Z.of_nat (List.length (commandHistory (cells w))) - 1 - Z.of_nat j)%Z by lia.
    rewrite (at_index_recent _ j) by lia.
    eexists. split; [reflexivity|]. split; [|reflexivity].
    cbn [upd cells setInput setHistoryIndex historyIndex]. lia.
Qed.

End Keys.

(** X21: the tabulator key never completes to [clear]: the branch for [cl]
    comes after the branch for [c].  The input line is left as it is or
    becomes one of six words. *)
Theorem tab_never_completes_clear (ctrl : bool) (w : World) :
  exists w',
    handleKeyDown (cells w) (mkKeyboardEvent "Tab" ctrl) w = Some w' /\
    input (cells w') <> "clear" /\
    (input (cells w') = input (cells w) \/
     In (input (cells w')) ["projects"; "about"; "skills"; "contact"; "theme"; "help"]).
Proof.
  unfold handleKeyDown. cbn [key]. vm_compute String.eqb. cbv iota.
  destruct (startsWith (input (cells w)) "p");
    [eexists; split; [reflexivity|]; split; [discriminate | right; cbn; tauto]|].
  destruct (startsWith (input (cells w)) "a");
    [eexists; split; [reflexivity|]; split; [discriminate | right; cbn; tauto]|].
  destruct (startsWith (input (cells w)) "s");
    [eexists; split; [reflexivity|]; split; [discriminate | right; cbn; tauto]|].
  destruct (startsWith (input (cells w)) "c") eqn:C;
    [eexists; split; [reflexivity|]; split; [discriminate | right; cbn; tauto]|].
  destruct (startsWith (input (cells w)) "t");
    [eexists; split; [reflexivity|]; split; [discriminate | right; cbn; tauto]|].
  destruct (startsWith (input (cells w)) "h");
    [eexists; split; [reflexivity|]; split; [discriminate | right; cbn; tauto]|].
  assert (N : input (cells w) <> "clear").
  { intros E. rewrite E in C. discriminate C. }
  assert (L : startsWith (input (cells w)) "cl" = false).
  { unfold startsWith in *. destruct (input (cells w)) as [|c t]; [reflexivity|].
    cbn [prefix] in *. destruct (ascii_dec "c" c); [|reflexivity].
    destruct t; discriminate C. }
  rewrite L. exists w. split; [reflexivity|]. split; [exact N | left; reflexivity].
Qed.

(** X22: a key press writes the input line, the cursor, the history index and
    the output history only, and at most schedules one callback: the tree, the
    theme and every other cell stay as they were. *)
Theorem key_presses_leave_the_session_cells
  (s : State) (e : KeyboardEvent) (w w' : World) :
  handleKeyDown s e w = Some w' ->
  sessionCells (cells w') = sessionCells (cells w) /\
  fs w' = fs w /\
  themeToggles w' = themeToggles w /\
  (timers w' = timers w \/ exists t, timers w' = (timers w ++ [t])%list).
Proof.
  unfold handleKeyDown. intros H.
  repeat match type of H with
         | context [match ?x with _ => _ end] => destruct x
         end;
    try discriminate H; injection H as <-;
    (split; [reflexivity|]); (split; [reflexivity|]); (split; [reflexivity|]);
    first [left; reflexivity | right; eexists; reflexivity].
Qed.

(** X23: while no password is awaited, [whoami] prints the user the prompt
    shows, in both modes and both languages; the prompt does not depend on
    the language. *)
Theorem whoami_names_the_user_of_the_prompt
  (localeCompare : string -> string -> Z) (now : Clock) (stack : nat) (s : State) (w : World) :
  isSudoPrompt s = false ->
  exists user,
    processCommand localeCompare now (S stack) s w "whoami" = done w [msg success user] /\
    getPrompt s = user ++ "@" ++ hostName s ++ ":" ++ currentDirectory s ++ "$" /\
    forall l, getPrompt (setLanguage l s) = getPrompt s.
Proof.
  intros Hp. exists (if isRoot s then "root" else userName s).
  split; [|split].
  - rewrite processCommand_unfold, Hp. unfold dispatch.
    vm_compute (includes _ _). vm_compute (startsWith _ _). cbn [orb].
    vm_compute (split _ _). cbn [hd tl]. vm_compute (toLowerCase _).
    vm_compute (String.eqb _ _). cbn [andb]. vm_compute (arr_includes _ _).
    rewrite !andb_false_r. cbv iota.
    unfold switch. vm_compute (toLowerCase _). cbv zeta. vm_compute String.eqb.
    reflexivity.
  - unfold getPrompt. destruct (language s); reflexivity.
  - intros l. unfold getPrompt. destruct l, (language s); reflexivity.
Qed.

(** ** The start-up screen and [touch] *)

Section StartUp.

Variable localeCompare : string -> string -> Z.

(** X24: while the start-up screen is shown, the effect that animates it ends
    it: after one run for every stage that is left and one more, the screen
    is gone and the output history holds the single welcome entry. *)
Theorem start_up_effect_finishes (now : Clock) (w : World) :
  isBooting (cells w) = true ->
  let n := S (4 + 7 + List.length bootMessages - bootStage (cells w)) in
  isBooting (cells (run localeCompare (repeat (Effect now) n) w)) = false /\
  exists rs,
    outputHistory (cells (run localeCompare (repeat (Effect now) n) w)) = [mkEntry "" rs].
Proof.
  intros Hb n. subst n.
  remember (4 + 7 + List.length bootMessages - bootStage (cells w))%nat as m eqn:Hm.
  revert w Hb Hm. induction m as [|m IH]; intros w Hb Hm.
  - cbn [repeat run fold_left perform]. unfold bootEffect. rewrite Hb.
    destruct (bootStage (cells w) <? 4 + 7 + List.length bootMessages)%nat eqn:E;
      [apply Nat.ltb_lt in E; lia|].
    split; [reflexivity|]. eexists. reflexivity.
  - change (run localeCompare (repeat (Effect now) (S (S m))) w)
      with (run localeCompare (repeat (Effect now) (S m))
              (perform localeCompare (Effect now) w)).
    assert (E : perform localeCompare (Effect now) w
                = upd (fun p => setBootStage (bootStage p + 1) p) w).
    { cbn [perform]. unfold bootEffect. rewrite Hb.
      destruct (bootStage (cells w) <? 4 + 7 + List.length bootMessages)%nat eqn:E;
        [reflexivity|apply Nat.ltb_ge in E; lia]. }
    rewrite E. apply IH; [exact Hb|].
    cbn [upd cells setBootStage bootStage]. lia.
Qed.

End StartUp.

(** X25: from a directory of the tree [touch] never throws and writes nothing:
    it reports success exactly when the write permission of the current
    directory is granted, and an error otherwise or when the directory cannot
    be read. *)
Theorem touch_checks_the_directory_and_never_throws
  (s : State) (touchPath : string) (rest : list string) (w : World) :
  rooted (currentDirectory s) = true ->
  match getCurrentDirectoryContent (fs w) s with
  | Some c =>
      exists m,
        getDirectoryFromPath (fs w) (currentDirectory s)
        = Return (Some (FoundItem (DirectoryItem c m))) /\
        cmd_touch s (touchPath :: rest) w =
        done w [if checkPermission s (DirectoryItem c m) write
                then msg success ("已創建 '" ++ touchPath ++ "'")
                else msg error ("touch: " ++ touchPath ++ ": 權限不足")]
  | None =>
      cmd_touch s (touchPath :: rest) w
      = done w [msg error ("touch: 無法存取 '" ++ currentDirectory s ++ "'")]
  end.
Proof.
  intros Hr. unfold cmd_touch.
  pose proof (getDirectoryFromPath_walk (fs w) _ Hr) as Hw.
  rewrite getCurrentDirectoryContent_walk.
  destruct (walk_segments (top (fs w)) (split "/" (currentDirectory s))) as [c|];
    [|reflexivity].
  destruct Hw as [m Hw]. exists m. split; [exact Hw|].
  rewrite Hw. unfold checkPermissionOf.
  destruct (isRoot s) eqn:R; [unfold checkPermission; rewrite R; reflexivity|].
  destruct (checkPermission s (DirectoryItem c m) write); reflexivity.
Qed.

(** ** The properties on the sample host *)

Lemma working_directory_always_resolves_witness :
  directoriesResolve (fs started)
    (cells (run byteCompare [sample "cd about"; sample "cd .."] started)) /\
  getCurrentDirectoryContent
    (fs (run byteCompare [sample "cd about"; sample "cd .."] started))
    (cells (run byteCompare [sample "cd about"; sample "cd .."] started)) <> None.
Proof.
  apply (working_directory_always_resolves byteCompare
           [sample "cd about"; sample "cd .."] started).
  vm_compute. split; [reflexivity | exact I].
Defined.

Lemma only_cd_moves_the_working_directory_witness :
  currentDirectory
    (cells (fst (processCommand byteCompare sampleClock 1 (cells inAbout) inAbout "ls")))
  = currentDirectory (cells inAbout) /\
  previousDirectory
    (cells (fst (processCommand byteCompare sampleClock 1 (cells inAbout) inAbout "ls")))
  = previousDirectory (cells inAbout).
Proof.
  apply (only_cd_moves_the_working_directory byteCompare sampleClock 1 (cells inAbout)
           inAbout "ls").
  right. vm_compute. reflexivity.
Defined.

Lemma cd_enters_the_listed_directories_witness :
  cmd_cd (cells started) ["about"] started =
  match get (homeContent (fileSystem 0%Z)) "about" with
  | Own (DirectoryItem _ _) =>
      done (upd (setCurrentDirectory (currentDirectory (cells started) ++ "/" ++ "about"))
              (upd (setPreviousDirectory (Some (currentDirectory (cells started)))) started))
        []
  | _ => done started (noSuchDirectory (cells started) "about")
  end.
Proof.
  apply (cd_enters_the_listed_directories (cells started) started "about" []
           (homeContent (fileSystem 0%Z))); vm_compute; reflexivity.
Defined.

Lemma cat_reads_the_listed_files_witness :
  cmd_cat (cells inAbout) ["bio.txt"] inAbout =
  match get (match getCurrentDirectoryContent (fs inAbout) (cells inAbout) with
             | Some o => o
             | None => []
             end) "bio.txt" with
  | Own (FileItem lines linesEn _) =>
      done inAbout
        (map (fun line => msg success line)
           (match language (cells inAbout), linesEn with
            | en_US, Some en => en
            | _, _ => lines
            end))
  | _ => done inAbout (noSuchFile (cells inAbout) "bio.txt")
  end.
Proof.
  apply (cat_reads_the_listed_files (cells inAbout) inAbout "bio.txt" []
           (match getCurrentDirectoryContent (fs inAbout) (cells inAbout) with
            | Some o => o
            | None => []
            end)); vm_compute; reflexivity.
Defined.

Lemma relative_paths_are_absolute_paths_below_the_directory_witness :
  getFileContent (fileSystem 0%Z) (cells inAbout) "bio.txt"
  = getFileContent (fileSystem 0%Z) (cells started) ("/" ++ "about" ++ "/" ++ "bio.txt") /\
  getFileSystemItem (fileSystem 0%Z) (cells inAbout) "bio.txt"
  = getFileSystemItem (fileSystem 0%Z) (cells started) ("/" ++ "about" ++ "/" ++ "bio.txt").
Proof.
  apply (relative_paths_are_absolute_paths_below_the_directory (fileSystem 0%Z)
           (cells inAbout) (cells started) "about" "bio.txt"); vm_compute; reflexivity.
Defined.

Lemma absolute_paths_pass_the_gate_witness :
  cmd_cd initialState ["/about"] mounted
  = cmd_cd (setIsFullFeatured true initialState) ["/about"] mounted /\
  cmd_cat initialState ["/about"] mounted
  = cmd_cat (setIsFullFeatured true initialState) ["/about"] mounted.
Proof.
  apply (absolute_paths_pass_the_gate initialState "/about" [] mounted).
  vm_compute. reflexivity.
Defined.

Lemma restricted_sessions_are_never_privileged_witness :
  privilegedIsStarted (cells (run byteCompare [sample "sudo ls"; sample "password"] mounted)) /\
  (isFullFeatured (cells (run byteCompare [sample "sudo ls"; sample "password"] mounted))
   = false ->
   isSudoPrompt (cells (run byteCompare [sample "sudo ls"; sample "password"] mounted))
   = false /\
   isRoot (cells (run byteCompare [sample "sudo ls"; sample "password"] mounted)) = false).
Proof.
  apply (restricted_sessions_are_never_privileged byteCompare
           [sample "sudo ls"; sample "password"] mounted).
  vm_compute. intros H. exact H.
Defined.

Lemma attempt_counter_stays_below_three_witness :
  (passwordAttempts
     (cells (run byteCompare [sample "x"; sample "sudo ls"; sample "y"; sample "sudo ls";
                              sample "z"] prompted)) <= 2)%nat.
Proof.
  apply (attempt_counter_stays_below_three byteCompare
           [sample "x"; sample "sudo ls"; sample "y"; sample "sudo ls"; sample "z"] prompted).
  vm_compute. lia.
Defined.

Lemma the_secret_is_not_echoed_witness :
  outputHistory (cells (submit byteCompare sampleClock 8 "hunter2" prompted))
  = outputHistory (cells (submit byteCompare sampleClock 8 "wrong" prompted)) /\
  (outputHistory (cells (submit byteCompare sampleClock 8 "wrong" prompted))
   = outputHistory (cells prompted) \/
   exists rs,
     outputHistory (cells (submit byteCompare sampleClock 8 "wrong" prompted))
     = (outputHistory (cells prompted) ++ [mkEntry "" rs])%list) /\
  (truthy (trim "wrong") = true ->
   (trim "wrong" =? "password") = false ->
   outputHistory (cells (submit byteCompare sampleClock 8 "wrong" prompted))
   = (outputHistory (cells prompted)
      ++ [mkEntry "" [if (2 <=? passwordAttempts (cells prompted))%nat then lockout
                      else authFailure]])%list).
Proof.
  apply (the_secret_is_not_echoed byteCompare sampleClock 7 "wrong" "hunter2" prompted);
    vm_compute; reflexivity.
Defined.

Lemma the_started_service_runs_as_deviser_witness :
  hostName (cells (run byteCompare [sample "whoami"; sample "deviser start"] mounted))
  = hostName (cells mounted) /\
  groups (cells (run byteCompare [sample "whoami"; sample "deviser start"] mounted))
  = groups (cells mounted) /\
  startedAsDeviser (cells (run byteCompare [sample "whoami"; sample "deviser start"] mounted)) /\
  (isFullFeatured (cells (run byteCompare [sample "whoami"; sample "deviser start"] mounted))
   = false ->
   userName (cells (run byteCompare [sample "whoami"; sample "deviser start"] mounted))
   = userName (cells mounted)).
Proof.
  apply (the_started_service_runs_as_deviser byteCompare
           [sample "whoami"; sample "deviser start"] mounted).
  vm_compute. intros H. discriminate H.
Defined.

Lemma only_lang_changes_the_language_witness :
  language (cells (fst (processCommand byteCompare sampleClock 1 (cells english) english
                          "cat lang")))
  = language (cells english).
Proof.
  apply (only_lang_changes_the_language byteCompare sampleClock 1 (cells english) english
           "cat lang").
  right. vm_compute. reflexivity.
Defined.

Lemma the_words_after_the_command_are_kept_witness :
  processCommand byteCompare sampleClock 1 (cells started) started ("echo " ++ "a  b ")
  = done started [msg success "a  b "] /\
  (isFullFeatured (cells started) = true ->
   processCommand byteCompare sampleClock 1 (cells started) started ("sudo " ++ "a  b ")
   = done (upd (setIsSudoPrompt true) (upd (setSudoCommand "a  b ") started))
       [msg system ("[sudo] " ++ userName (cells started) ++ " 的密碼:")]).
Proof.
  apply (the_words_after_the_command_are_kept byteCompare sampleClock 0 (cells started)
           started "a  b "); vm_compute; reflexivity.
Defined.

Lemma history_browsing_stays_in_range_witness :
  exists w',
    play byteCompare
      [Happens (sample "pwd"); KeyDown arrowUp; KeyDown arrowUp; KeyDown arrowDown;
       Change "l"; KeyDown (mkKeyboardEvent "Tab" false)] mounted = Some w' /\
    indexInRange (cells w').
Proof.
  apply (history_browsing_stays_in_range byteCompare
           [Happens (sample "pwd"); KeyDown arrowUp; KeyDown arrowUp; KeyDown arrowDown;
            Change "l"; KeyDown (mkKeyboardEvent "Tab" false)] mounted).
  unfold indexInRange. simpl. lia.
Defined.

Lemma arrow_up_recalls_the_recent_lines_witness :
  exists w',
    play byteCompare (repeat (KeyDown arrowUp) 2)
      (run byteCompare [sample "pwd"; sample "ls"] mounted) = Some w' /\
    input (cells w')
    = nth 1 (rev (commandHistory (cells (run byteCompare [sample "pwd"; sample "ls"] mounted))))
        "" /\
    historyIndex (cells w') = Z.of_nat 1 /\
    commandHistory (cells w')
    = commandHistory (cells (run byteCompare [sample "pwd"; sample "ls"] mounted)).
Proof.
  apply (arrow_up_recalls_the_recent_lines byteCompare
           (run byteCompare [sample "pwd"; sample "ls"] mounted) 1).
  - vm_compute. reflexivity.
  - vm_compute. lia.
Defined.

Lemma arrow_down_undoes_arrow_up_witness :
  exists w',
    play byteCompare [KeyDown arrowUp; KeyDown arrowDown]
      (upd (setInput "typed") (run byteCompare [sample "pwd"; sample "ls"] mounted))
    = Some w' /\
    historyIndex (cells w')
    = historyIndex
        (cells (upd (setInput "typed") (run byteCompare [sample "pwd"; sample "ls"] mounted))) /\
    input (cells w') = "".
Proof.
  apply (arrow_down_undoes_arrow_up byteCompare
           (upd (setInput "typed") (run byteCompare [sample "pwd"; sample "ls"] mounted)) 0).
  - vm_compute. reflexivity.
  - vm_compute. lia.
Defined.

Lemma key_presses_leave_the_session_cells_witness :
  sessionCells (cells (upd (setCursorPosition 0) (upd (setInput "") started)))
  = sessionCells (cells started) /\
  fs (upd (setCursorPosition 0) (upd (setInput "") started)) = fs started /\
  themeToggles (upd (setCursorPosition 0) (upd (setInput "") started))
  = themeToggles started /\
  (timers (upd (setCursorPosition 0) (upd (setInput "") started)) = timers started \/
   exists t,
     timers (upd (setCursorPosition 0) (upd (setInput "") started))
     = (timers started ++ [t])%list).
Proof.
  apply (key_presses_leave_the_session_cells (cells started) (mkKeyboardEvent "u" true)
           started).
  vm_compute. reflexivity.
Defined.

Lemma whoami_names_the_user_of_the_prompt_witness :
  exists user,
    processCommand byteCompare sampleClock 1 (cells started) started "whoami"
    = done started [msg success user] /\
    getPrompt (cells started)
    = user ++ "@" ++ hostName (cells started) ++ ":" ++ currentDirectory (cells started) ++ "$" /\
    forall l, getPrompt (setLanguage l (cells started)) = getPrompt (cells started).
Proof.
  apply (whoami_names_the_user_of_the_prompt byteCompare sampleClock 0 (cells started) started).
  vm_compute. reflexivity.
Defined.

Lemma start_up_effect_finishes_witness :
  isBooting
    (cells (run byteCompare
              (repeat (Effect sampleClock)
                 (S (4 + 7 + List.length bootMessages - bootStage (cells started))))
              started)) = false /\
  exists rs,
    outputHistory
      (cells (run byteCompare
                (repeat (Effect sampleClock)
                   (S (4 + 7 + List.length bootMessages - bootStage (cells started))))
                started)) = [mkEntry "" rs].
Proof.
  apply (start_up_effect_finishes byteCompare sampleClock started).
  vm_compute. reflexivity.
Defined.

Lemma touch_checks_the_directory_and_never_throws_witness :
  match getCurrentDirectoryContent (fs started) (cells started) with
  | Some c =>
      exists m,
        getDirectoryFromPath (fs started) (currentDirectory (cells started))
        = Return (Some (FoundItem (DirectoryItem c m))) /\
        cmd_touch (cells started) ["notes.txt"] started =
        done started
          [if checkPermission (cells started) (DirectoryItem c m) write
           then msg success ("已創建 '" ++ "notes.txt" ++ "'")
           else msg error ("touch: " ++ "notes.txt" ++ ": 權限不足")]
  | None =>
      cmd_touch (cells started) ["notes.txt"] started
      = done started [msg error ("touch: 無法存取 '" ++ currentDirectory (cells started) ++ "'")]
  end.
Proof.
  apply (touch_checks_the_directory_and_never_throws (cells started) "notes.txt" [] started).
  vm_compute. reflexivity.
Defined.
